(** * USPTO crawler: a shallow embedding of the acquisition services

    The development follows the TypeScript sources:
    - [simple-uspto-service.ts]  : [SimpleUSPTOService], the orchestrator with
      its external-index adapter and its static fallback data;
    - [selenium-uspto-service.ts]: [SeleniumUSPTOService], the browser adapter;
    - [uspto-crawler.ts]         : [USPTOCrawler], the de-duplication helpers,
      the search URLs, and the searches and status checks made through the
      extraction service;
    - [crawl4ai-service.ts]      : [Crawl4AIService], the content classifier,
      the single, the two-pass and the batched crawl;
    - [patent-search.ts], [trademark-search.ts]: the three MCP tools;
    - [server.ts]                : the search routes and the socket handler
      of [USPTOBackendServer].

    JavaScript strings are modelled by Rocq strings and the string primitives
    ([toLowerCase], [toUpperCase], [trim], [includes]) on the ASCII range.
    Asynchronous code is modelled by a state-and-exception monad: [await] is
    sequencing, a rejected promise is [Throw]. Everything the outside world
    answers (HTTP responses, browser pages, the extraction process) is an
    oracle passed as an argument. Timing ([humanDelay], scrolling, logging)
    has no influence on the returned values and is left out, except for the
    pauses of the batched crawl and of the crawler, which are recorded in a
    trace. *)

From stdpp Require Import base strings list gmap pretty.
From Equations Require Import Equations.
From Stdlib Require Import Ascii ZArith Lia.

Set Warnings "-register-all".
Open Scope Z_scope.

(** ** JavaScript string primitives *)

Module JS.

Definition code (c : ascii) : nat := nat_of_ascii c.

Definition is_upper (c : ascii) : bool :=
  ((65 <=? code c) && (code c <=? 90))%nat.

Definition is_lower (c : ascii) : bool :=
  ((97 <=? code c) && (code c <=? 122))%nat.

Definition lower_char (c : ascii) : ascii :=
  if is_upper c then ascii_of_nat (code c + 32) else c.

Definition upper_char (c : ascii) : ascii :=
  if is_lower c then ascii_of_nat (code c - 32) else c.

Fixpoint map_chars (f : ascii -> ascii) (s : string) : string :=
  match s with
  | EmptyString => EmptyString
  | String c s' => String (f c) (map_chars f s')
  end.

(** [String.prototype.toLowerCase] and [toUpperCase]. *)
Definition toLowerCase : string -> string := map_chars lower_char.
Definition toUpperCase : string -> string := map_chars upper_char.

(** [String.prototype.startsWith]. *)
Fixpoint startsWith (s p : string) {struct p} : bool :=
  match p, s with
  | EmptyString, _ => true
  | String _ _, EmptyString => false
  | String a p', String b s' => if decide (a = b) then startsWith s' p' else false
  end.

(** [String.prototype.includes]: [needle] occurs somewhere in [s]. *)
Fixpoint includes (s needle : string) : bool :=
  startsWith s needle ||
  match s with
  | EmptyString => false
  | String _ s' => includes s' needle
  end.

(** White space removed by [trim]: TAB, LF, VT, FF, CR and SPACE. *)
Definition is_ws (c : ascii) : bool :=
  ((9 <=? code c) && (code c <=? 13) || (code c =? 32))%nat.

Fixpoint trimStart (s : string) : string :=
  match s with
  | EmptyString => EmptyString
  | String c s' => if is_ws c then trimStart s' else s
  end.

Fixpoint trimEnd (s : string) : string :=
  match s with
  | EmptyString => EmptyString
  | String c s' =>
      match trimEnd s' with
      | EmptyString => if is_ws c then EmptyString else String c EmptyString
      | t => String c t
      end
  end.

(** [String.prototype.trim]. *)
Definition trim (s : string) : string := trimEnd (trimStart s).

(** A string made of white space only (the empty string included). *)
Fixpoint whitespace_only (s : string) : bool :=
  match s with
  | EmptyString => true
  | String c s' => is_ws c && whitespace_only s'
  end.

(** [Array.prototype.slice(0, end)] for an integer [end]: a negative [end]
    counts from the end of the array. *)
Definition slice0 {A} (l : list A) (e : Z) : list A :=
  let len := Z.of_nat (length l) in
  let final := if e <? 0 then Z.max (len + e) 0 else Z.min e len in
  take (Z.to_nat final) l.

(** [encodeURIComponent]: unreserved characters are kept, every other
    character is written [%XX]. *)
Definition is_digit (c : ascii) : bool :=
  ((48 <=? code c) && (code c <=? 57))%nat.

Definition unreserved (c : ascii) : bool :=
  is_upper c || is_lower c || is_digit c ||
  bool_decide (c ∈ ["-"; "_"; "."; "!"; "~"; "*"; "'"; "("; ")"]%char).

Definition hex_digit (n : nat) : ascii :=
  if (n <? 10)%nat then ascii_of_nat (48 + n) else ascii_of_nat (55 + n).

Definition percent (c : ascii) : string :=
  String "%" (String (hex_digit (code c / 16)) (String (hex_digit (code c mod 16)) EmptyString)).

Fixpoint encodeURIComponent (s : string) : string :=
  match s with
  | EmptyString => EmptyString
  | String c s' =>
      (if unreserved c then String c EmptyString else percent c) +:+ encodeURIComponent s'
  end.

(** [s.replace(/[^C]/g, '')] for a character class [C]: the characters of
    the class are kept, every other character is removed. *)
Fixpoint filter_chars (keep : ascii -> bool) (s : string) : string :=
  match s with
  | EmptyString => EmptyString
  | String c s' => if keep c then String c (filter_chars keep s') else filter_chars keep s'
  end.

(** [\w]: a letter, a digit or the underscore. *)
Definition is_word (c : ascii) : bool :=
  is_upper c || is_lower c || is_digit c || bool_decide (c = "_"%char).

(** The serializer of [URLSearchParams]: letters, digits and [* - . _] are
    kept, a space becomes [+], every other character is written [%XX]. *)
Definition form_safe (c : ascii) : bool :=
  is_upper c || is_lower c || is_digit c ||
  bool_decide (c ∈ ["*"; "-"; "."; "_"]%char).

Fixpoint form_encode (s : string) : string :=
  match s with
  | EmptyString => EmptyString
  | String c s' =>
      (if form_safe c then String c EmptyString
       else if bool_decide (c = " "%char) then "+"
       else percent c) +:+ form_encode s'
  end.

(** [URLSearchParams.prototype.toString] for the pairs appended so far. *)
Fixpoint toStringParams (pairs : list (string * string)) : string :=
  match pairs with
  | [] => ""
  | [(k, v)] => form_encode k +:+ "=" +:+ form_encode v
  | (k, v) :: rest => form_encode k +:+ "=" +:+ form_encode v +:+ "&" +:+ toStringParams rest
  end.

End JS.

(** ** Exceptions and state

    [Outcome] is the result of a computation that may throw; [M S] threads a
    state of type [S] through computations that may throw. The state reached
    when an exception is thrown is kept, as it is in JavaScript. *)

Inductive Outcome (A : Type) : Type :=
| Ok (a : A)
| Throw (e : string).
Arguments Ok {A} a.
Arguments Throw {A} e.

Global Instance Outcome_ret : MRet Outcome := λ A a, Ok a.
Global Instance Outcome_bind : MBind Outcome := λ A B f o,
  match o with
  | Ok a => f a
  | Throw e => Throw e
  end.

Definition M (S A : Type) : Type := S -> Outcome A * S.

Global Instance M_ret {S} : MRet (M S) := λ A a s, (Ok a, s).
Global Instance M_bind {S} : MBind (M S) := λ A B f m s,
  match m s with
  | (Ok a, s') => f a s'
  | (Throw e, s') => (Throw e, s')
  end.

(** A pure computation that may throw, run inside [M S]. *)
Definition lift {S A} (o : Outcome A) : M S A := λ s, (o, s).

(** [try { body } catch (e) { handler e }]. *)
Definition try_catch {S A} (body : M S A) (handler : string -> M S A) : M S A := λ s,
  match body s with
  | (Ok a, s') => (Ok a, s')
  | (Throw e, s') => handler e s'
  end.

Definition modify {S} (f : S -> S) : M S unit := λ s, (Ok (), f s).
Definition gets {S A} (f : S -> A) : M S A := λ s, (Ok (f s), s).

(** ** Untyped JSON values

    The response of the external index is typed [any] in the source. It is
    modelled as a JSON tree whose leaves are strings, [null] or absent
    ([undefined]); property reads follow JavaScript: reading a property of
    [null] or [undefined] throws, reading a name that a string or an array
    does not have yields [undefined]. *)

Inductive json : Type :=
| JUndef
| JNull
| JStr (s : string)
| JArr (xs : list json)
| JObj (fields : list (string * json)).

Module Json.

Definition truthy (v : json) : bool :=
  match v with
  | JUndef | JNull => false
  | JStr s => negb (bool_decide (s = ""))
  | JArr _ | JObj _ => true
  end.

(** [a || b] *)
Definition or (a b : json) : json := if truthy a then a else b.

Fixpoint assoc (k : string) (fields : list (string * json)) : json :=
  match fields with
  | [] => JUndef
  | (k', v) :: rest => if decide (k = k') then v else assoc k rest
  end.

(** [v.k] for the property names the adapter reads. None of them is a
    property of arrays; of strings only [link] is (a legacy method), which
    the model leaves out: reading it from a string yields [undefined] here. *)
Definition prop (v : json) (k : string) : Outcome json :=
  match v with
  | JUndef | JNull => Throw "TypeError: cannot read properties of null or undefined"
  | JObj fields => Ok (assoc k fields)
  | JStr _ | JArr _ => Ok JUndef
  end.

(** [v?.k] *)
Definition opt_prop (v : json) (k : string) : Outcome json :=
  match v with
  | JUndef | JNull => Ok JUndef
  | _ => prop v k
  end.

(** [v[0]] for a truthy [v]. *)
Definition first (v : json) : json :=
  match v with
  | JArr (x :: _) => x
  | JStr (String c _) => JStr (String c EmptyString)
  | JObj fields => assoc "0" fields
  | _ => JUndef
  end.

(** The elements of [v] when it is an array: what [v.slice] and [v.map]
    need; on anything else the call throws. *)
Definition elements (v : json) : Outcome (list json) :=
  match v with
  | JArr xs => Ok xs
  | _ => Throw "TypeError: not a function"
  end.

Fixpoint join (sep : string) (parts : list string) : string :=
  match parts with
  | [] => ""
  | [p] => p
  | p :: rest => p +:+ sep +:+ join sep rest
  end.

(** The string a value becomes inside a template literal. *)
Fixpoint toString (v : json) : string :=
  match v with
  | JUndef => "undefined"
  | JNull => "null"
  | JStr s => s
  | JArr xs =>
      join "," (List.map (λ x, match x with
                               | JUndef | JNull => ""
                               | _ => toString x
                               end) xs)
  | JObj _ => "[object Object]"
  end.

Definition strings (l : list string) : json := JArr (JStr <$> l).

End Json.

(** ** Records of the services *)

(** [PatentSearchResult] of [simple-uspto-service.ts] and
    [selenium-uspto-service.ts]; an absent field is [JUndef]. *)
Record PatentSearchResult : Type := {
  patentNumber : json;
  title : json;
  abstract : json;
  inventors : json;
  applicant : json;
  filingDate : json;
  grantDate : json;
  url : json
}.

(** [TrademarkSearchResult] of [simple-uspto-service.ts]. *)
Record TrademarkSearchResult : Type := {
  serialNumber : option string;
  registrationNumber : option string;
  mark : option string;
  owner : option string;
  tm_filingDate : option string;
  status : option string;
  tm_url : option string
}.

(** One HTTP GET of the axios instance: the URL and the [url] query
    parameter. *)
Record Request : Type := {
  req_url : string;
  req_params_url : string
}.

(** The state of a [SimpleUSPTOService] and of the [SeleniumUSPTOService] it
    owns: whether the WebDriver exists, and the HTTP requests made so far. *)
Record World : Type := {
  driver : bool;
  requests : list Request
}.

Definition set_driver (b : bool) (w : World) : World :=
  {| driver := b; requests := requests w |}.

Definition log_request (r : Request) (w : World) : World :=
  {| driver := driver w; requests := requests w ++ [r] |}.

(** ** The browser adapter, [SeleniumUSPTOService] *)

Module SeleniumUSPTOService.

(** What the page gives for one result element of Patent Public Search.
    Every field is read inside its own [try { ... } catch {}]: a field is
    [None] when its lookup throws. *)
Record PublicElement : Type := {
  pe_number : option string;
  pe_title : option string;
  pe_abstract : option string;
  pe_inventors : option (list string);
  pe_date : option string
}.

(** The same for one result element of Google Patents. [ge_metadata] holds
    the texts of the metadata spans read before any failure; [ge_href] is
    [None] when no anchor is found and [Some None] when the attribute is
    [null]. *)
Record GoogleElement : Type := {
  ge_number : option string;
  ge_title : option string;
  ge_snippet : option string;
  ge_metadata : list string;
  ge_href : option (option string)
}.

(** The browser as an oracle: building the WebDriver, and, for a typed
    query, the result elements located on each site. [Throw] stands for
    any failure of navigation, typing or waiting for the results
    container. *)
Record Browser : Type := {
  build : Outcome unit;
  patent_public_search : string -> Outcome (list PublicElement);
  google_patents : string -> Outcome (list GoogleElement)
}.

Definition text (o : option string) : json :=
  match o with
  | Some s => JStr s
  | None => JUndef
  end.

Section Adapter.
Variable browser : Browser.

(** [initialize]: a failure to build the driver is logged and thrown
    again; the anti-detection script swallows its own failures. *)
Definition initialize : M World unit := λ w,
  match build browser with
  | Ok _ => (Ok (), set_driver true w)
  | Throw e => (Throw e, w)
  end.

Definition ensure_driver : M World unit :=
  d ← gets driver;
  if d : bool then mret () else initialize.

(** [patentData.patentNumber || patentData.title] *)
Definition kept (p : PatentSearchResult) : bool :=
  Json.truthy (Json.or (patentNumber p) (title p)).

(** The number of loop iterations of
    [for (i = 0; i < Math.min(resultElements.length, limit); i++)]. *)
Definition iterations {A} (resultElements : list A) (limit : Z) : nat :=
  Z.to_nat (Z.min (Z.of_nat (length resultElements)) limit).

Definition extractPublic (e : PublicElement) : PatentSearchResult :=
  {| patentNumber := text (pe_number e);
     title := text (pe_title e);
     abstract := text (pe_abstract e);
     inventors := match pe_inventors e with
                  | Some names => Json.strings names
                  | None => JUndef
                  end;
     applicant := JUndef;
     filingDate := match pe_date e with
                   | Some dateText => if JS.includes dateText "Filed" then JStr dateText else JUndef
                   | None => JUndef
                   end;
     grantDate := match pe_date e with
                  | Some dateText => if JS.includes dateText "Filed" then JUndef else JStr dateText
                  | None => JUndef
                  end;
     url := JUndef |}.

(** [searchPatentsPublic]: the driver is created outside of the [try];
    every later failure is caught and leaves [results] empty. *)
Definition searchPatentsPublic (query : string) (limit : Z) : M World (list PatentSearchResult) :=
  ensure_driver;;
  mret match patent_public_search browser query with
       | Ok resultElements =>
           filter (λ p, kept p = true)
                  (extractPublic <$> take (iterations resultElements limit) resultElements)
       | Throw _ => []
       end.

(** The loop over the metadata spans: a later span overwrites an earlier
    one. The result is the pair of [filingDate] and [grantDate]. *)
Fixpoint metadata (spans : list string) (filing grant : json) : json * json :=
  match spans with
  | [] => (filing, grant)
  | t :: rest =>
      if JS.includes t "Filed" then metadata rest (JStr t) grant
      else if JS.includes t "Granted" || JS.includes t "Published"
           then metadata rest filing (JStr t)
           else metadata rest filing grant
  end.

Definition extractGoogle (e : GoogleElement) : PatentSearchResult :=
  {| patentNumber := text (ge_number e);
     title := text (ge_title e);
     abstract := text (ge_snippet e);
     inventors := JUndef;
     applicant := JUndef;
     filingDate := fst (metadata (ge_metadata e) JUndef JUndef);
     grantDate := snd (metadata (ge_metadata e) JUndef JUndef);
     url := match ge_href e with
            | Some (Some href) => JStr href
            | Some None => JNull
            | None => JUndef
            end |}.

(** [searchGooglePatents] *)
Definition searchGooglePatents (query : string) (limit : Z) : M World (list PatentSearchResult) :=
  ensure_driver;;
  mret match google_patents browser query with
       | Ok resultElements =>
           filter (λ p, kept p = true)
                  (extractGoogle <$> take (iterations resultElements limit) resultElements)
       | Throw _ => []
       end.

(** [getMockResults] *)
Definition getMockResults (query : string) (limit : Z) : list PatentSearchResult :=
  JS.slice0
    [ {| patentNumber := JStr "US11,234,567";
         title := JStr ("System and Method for " +:+ query);
         abstract := JStr ("An innovative approach to " +:+ query +:+ " using advanced techniques.");
         inventors := Json.strings ["John Smith"; "Jane Doe"];
         applicant := JStr "Tech Corp";
         filingDate := JStr "2023-01-15";
         grantDate := JStr "2024-06-20";
         url := JStr "https://patents.google.com/patent/US11234567" |};
      {| patentNumber := JStr "US11,345,678";
         title := JStr (query +:+ " Processing Framework");
         abstract := JStr ("A comprehensive framework for processing " +:+ query +:+ " efficiently.");
         inventors := Json.strings ["Alice Johnson"; "Bob Wilson"];
         applicant := JStr "Innovation Inc";
         filingDate := JStr "2023-03-20";
         grantDate := JStr "2024-08-15";
         url := JStr "https://patents.google.com/patent/US11345678" |} ]
    limit.

(** [searchPatents]: Patent Public Search, then Google Patents, then the
    adapter's own mock data. *)
Definition searchPatents (query : string) (limit : Z) : M World (list PatentSearchResult) :=
  results ← searchPatentsPublic query limit;
  results ← (if (length results =? 0)%nat then searchGooglePatents query limit
             else mret results);
  if (length results =? 0)%nat then mret (getMockResults query limit)
  else mret results.

End Adapter.

(** [cleanup]: the driver is asked to quit inside a [try]; the reference is
    dropped only when [quit] returns. [quit] is the answer of the browser. *)
Definition cleanup (quit : Outcome unit) : M World unit :=
  d ← gets driver;
  if d : bool then
    try_catch (lift quit;; modify (set_driver false)) (λ _, mret ())
  else mret ().

End SeleniumUSPTOService.

(** ** The orchestrator, [SimpleUSPTOService] *)

Module SimpleUSPTOService.

Section Service.
(** [USE_SELENIUM === 'true']: the constructor creates the Selenium
    service exactly when the flag is set. *)
Variable useSelenium : bool.
Variable browser : SeleniumUSPTOService.Browser.
(** [axiosInstance.get]: [Throw] for a transport error or a status
    outside 2xx, otherwise [response.data]. *)
Variable axios_get : Request -> Outcome json.

Definition axiosGet (r : Request) : M World json := λ w,
  (axios_get r, log_request r w).

(** The callback of [clusters.slice(0, limit).map(...)]. *)
Definition formatCluster (cluster : json) : Outcome PatentSearchResult :=
  r ← Json.prop cluster "result";
  let result := Json.or r (JObj []) in
  p ← Json.prop result "patent";
  let patentInfo := Json.or p (JObj []) in
  publication_number ← Json.prop patentInfo "publication_number";
  patent_number ← Json.prop patentInfo "patent_number";
  let patentNumber := Json.or (Json.or publication_number patent_number) (JStr "N/A") in
  t ← Json.prop result "title";
  title_text ← Json.opt_prop t "text";
  let title := Json.or title_text (JStr "Untitled") in
  s ← Json.prop result "snippet";
  snippet_text ← Json.opt_prop s "text";
  let abstract := Json.or snippet_text (JStr "No abstract available") in
  inventor ← Json.prop patentInfo "inventor";
  let inventors := Json.or inventor (JArr []) in
  invs ← Json.elements inventors;
  inventorNames ← mapM (λ inv : json,
                          name ← Json.prop inv "name";
                          mret (Json.or name (JStr "Unknown"))) invs;
  assignee ← Json.prop patentInfo "assignee";
  let assignees := Json.or assignee (JArr []) in
  assignee_name ← Json.opt_prop (Json.first assignees) "name";
  let applicant := Json.or assignee_name (JStr "Not Available") in
  filing_date ← Json.prop patentInfo "filing_date";
  application_date ← Json.prop patentInfo "application_date";
  let filingDate := Json.or (Json.or filing_date application_date) (JStr "N/A") in
  grant_date ← Json.prop patentInfo "grant_date";
  publication_date ← Json.prop patentInfo "publication_date";
  let grantDate := Json.or (Json.or grant_date publication_date) (JStr "N/A") in
  link ← Json.prop result "link";
  let url := Json.or link
               (JStr ("https://patents.google.com/patent/" +:+ Json.toString patentNumber)) in
  mret {| patentNumber := patentNumber;
          title := title;
          abstract := abstract;
          inventors := if (0 <? length inventorNames)%nat then JArr inventorNames
                       else Json.strings ["Not listed"];
          applicant := applicant;
          filingDate := filingDate;
          grantDate := grantDate;
          url := url |}.

(** [searchPatentsViaGoogleAPI]: the whole body is inside one
    [try { ... } catch { return [] }]. *)
Definition searchPatentsViaGoogleAPI (query : string) (limit : Z) : M World (list PatentSearchResult) :=
  try_catch
    (if bool_decide (query = "") || bool_decide (JS.trim query = "") then mret []
     else
       let params :=
         {| req_url := "https://patents.google.com/xhr/query";
            req_params_url := "q=" +:+ JS.encodeURIComponent query
                              +:+ "&oq=" +:+ JS.encodeURIComponent query |} in
       data ← axiosGet params;
       if negb (Json.truthy data) then mret [] else
       results ← lift (Json.prop data "results");
       if negb (Json.truthy results) then mret [] else
       clusters ← lift (Json.prop results "cluster");
       if negb (Json.truthy clusters) then mret [] else
       cs ← lift (Json.elements clusters);
       lift (mapM formatCluster (JS.slice0 cs limit)))
    (λ _, mret []).

(** The literal data sets of [getMockPatentResults]. *)
Definition ai_patents : list PatentSearchResult :=
  [ {| patentNumber := JStr "US11,521,063";
       title := JStr "Artificial Intelligence System for Predictive Analysis";
       abstract := JStr "A system and method for using artificial intelligence and machine learning algorithms to perform predictive analysis on large datasets with improved accuracy and reduced computational requirements.";
       inventors := Json.strings ["Sarah Chen"; "Michael Rodriguez"];
       applicant := JStr "DeepMind Technologies Limited";
       filingDate := JStr "2021-03-15";
       grantDate := JStr "2022-12-06";
       url := JStr "https://patents.google.com/patent/US11521063" |};
    {| patentNumber := JStr "US11,487,936";
       title := JStr "Natural Language Processing Using Transformer Architecture";
       abstract := JStr "Methods and systems for natural language understanding using transformer-based neural networks with attention mechanisms for improved context understanding.";
       inventors := Json.strings ["Emily Zhang"; "David Kumar"];
       applicant := JStr "OpenAI, Inc.";
       filingDate := JStr "2020-09-22";
       grantDate := JStr "2022-11-01";
       url := JStr "https://patents.google.com/patent/US11487936" |};
    {| patentNumber := JStr "US11,423,678";
       title := JStr "Computer Vision System for Object Detection";
       abstract := JStr "An improved computer vision system utilizing convolutional neural networks for real-time object detection and classification in video streams.";
       inventors := Json.strings ["James Park"; "Lisa Thompson"];
       applicant := JStr "Google LLC";
       filingDate := JStr "2021-01-10";
       grantDate := JStr "2022-08-23";
       url := JStr "https://patents.google.com/patent/US11423678" |} ].

Definition blockchain_patents : list PatentSearchResult :=
  [ {| patentNumber := JStr "US11,456,789";
       title := JStr "Blockchain-Based Smart Contract System";
       abstract := JStr "A distributed ledger system implementing smart contracts with improved gas efficiency and enhanced security features.";
       inventors := Json.strings ["Satoshi Yamamoto"; "Wei Lin"];
       applicant := JStr "Ethereum Foundation";
       filingDate := JStr "2020-11-30";
       grantDate := JStr "2022-09-15";
       url := JStr "https://patents.google.com/patent/US11456789" |};
    {| patentNumber := JStr "US11,398,234";
       title := JStr "Cryptocurrency Wallet with Multi-Signature Security";
       abstract := JStr "A secure cryptocurrency wallet system implementing multi-signature authentication and cold storage capabilities.";
       inventors := Json.strings ["Marcus Johnson"; "Anna Kowalski"];
       applicant := JStr "Coinbase Global, Inc.";
       filingDate := JStr "2021-02-28";
       grantDate := JStr "2022-07-26";
       url := JStr "https://patents.google.com/patent/US11398234" |} ].

Definition quantum_patents : list PatentSearchResult :=
  [ {| patentNumber := JStr "US11,567,890";
       title := JStr "Quantum Computing Error Correction System";
       abstract := JStr "Methods for quantum error correction using topological codes to maintain quantum coherence in superconducting qubit systems.";
       inventors := Json.strings ["Robert Quantum"; "Marie Curie"];
       applicant := JStr "IBM Corporation";
       filingDate := JStr "2020-07-15";
       grantDate := JStr "2023-01-10";
       url := JStr "https://patents.google.com/patent/US11567890" |};
    {| patentNumber := JStr "US11,445,123";
       title := JStr "Quantum Cryptography Communication System";
       abstract := JStr "A quantum key distribution system using entangled photons for secure communication channels.";
       inventors := Json.strings ["Alice Quantum"; "Bob Crypto"];
       applicant := JStr "Microsoft Technology Licensing, LLC";
       filingDate := JStr "2021-04-20";
       grantDate := JStr "2022-09-13";
       url := JStr "https://patents.google.com/patent/US11445123" |} ].

Definition generic_patents (query : string) : list PatentSearchResult :=
  [ {| patentNumber := JStr "US11,234,567";
       title := JStr ("System and Method for " +:+ query);
       abstract := JStr ("An innovative approach to " +:+ query +:+ " that provides improved efficiency, scalability, and performance through novel algorithmic techniques.");
       inventors := Json.strings ["John Smith"; "Jane Doe"];
       applicant := JStr "Tech Innovations Inc.";
       filingDate := JStr "2021-06-15";
       grantDate := JStr "2023-03-20";
       url := JStr "https://patents.google.com/patent/US11234567" |};
    {| patentNumber := JStr "US11,345,678";
       title := JStr ("Advanced " +:+ query +:+ " Processing System");
       abstract := JStr ("A comprehensive system for processing and analyzing " +:+ query +:+ " using state-of-the-art techniques and methodologies.");
       inventors := Json.strings ["Alice Johnson"; "Bob Wilson"];
       applicant := JStr "Innovation Labs LLC";
       filingDate := JStr "2020-12-01";
       grantDate := JStr "2022-11-15";
       url := JStr "https://patents.google.com/patent/US11345678" |};
    {| patentNumber := JStr "US11,456,789";
       title := JStr (query +:+ " Optimization Framework");
       abstract := JStr ("A framework for optimizing " +:+ query +:+ " operations with reduced computational complexity and improved resource utilization.");
       inventors := Json.strings ["Charlie Brown"; "Diana Prince"];
       applicant := JStr "Research Corporation";
       filingDate := JStr "2021-08-30";
       grantDate := JStr "2023-02-10";
       url := JStr "https://patents.google.com/patent/US11456789" |} ].

(** [getMockPatentResults] *)
Definition getMockPatentResults (query : string) : list PatentSearchResult :=
  let queryLower := JS.toLowerCase query in
  if JS.includes queryLower "artificial intelligence" || JS.includes queryLower "ai"
  then ai_patents
  else if JS.includes queryLower "blockchain" || JS.includes queryLower "crypto"
  then blockchain_patents
  else if JS.includes queryLower "quantum"
  then quantum_patents
  else generic_patents query.

(** [searchPatents]: Selenium when enabled, then the Google Patents
    endpoint, then the mock data. *)
Definition searchPatents (query : string) (limit : Z) : M World (list PatentSearchResult) :=
  found ← (if useSelenium then
             try_catch
               (seleniumResults ← SeleniumUSPTOService.searchPatents browser query limit;
                if (0 <? length seleniumResults)%nat then mret (Some seleniumResults)
                else mret None)
               (λ _, mret None)
           else mret None);
  match found : option (list PatentSearchResult) with
  | Some seleniumResults => mret seleniumResults
  | None =>
      googleResults ← searchPatentsViaGoogleAPI query limit;
      if (0 <? length googleResults)%nat then mret googleResults
      else mret (getMockPatentResults query)
  end.

(** [getMockTrademarkResults] *)
Definition getMockTrademarkResults (query : string) : list TrademarkSearchResult :=
  [ {| serialNumber := Some "88/123,456";
       registrationNumber := Some "5,123,456";
       mark := Some (JS.toUpperCase query);
       owner := Some "Example Corporation";
       tm_filingDate := Some "2023-02-10";
       status := Some "REGISTERED";
       tm_url := Some "https://tsdr.uspto.gov/#caseNumber=88123456" |};
    {| serialNumber := Some "88/234,567";
       registrationNumber := None;
       mark := Some (JS.toUpperCase query +:+ " PLUS");
       owner := Some "Innovation Brands LLC";
       tm_filingDate := Some "2023-04-15";
       status := Some "PENDING";
       tm_url := Some "https://tsdr.uspto.gov/#caseNumber=88234567" |} ].

(** [searchTrademarks]: both the body and the handler return the mock
    data; [limit] is not used. *)
Definition searchTrademarks (query : string) (limit : Z) : M World (list TrademarkSearchResult) :=
  try_catch
    (mret (getMockTrademarkResults query))
    (λ _, mret (getMockTrademarkResults query)).

End Service.

(** The status record of [checkTrademarkStatus]. *)
Record TrademarkStatus : Type := {
  ts_serialNumber : string;
  ts_status : string;
  ts_markText : string;
  ts_owner : option string;
  ts_filingDate : string;
  ts_registrationDate : option string
}.

(** The status record of [checkPatentStatus]. *)
Record PatentStatus : Type := {
  ps_applicationNumber : string;
  ps_status : string;
  ps_examiner : string;
  ps_artUnit : string;
  ps_lastAction : string;
  ps_lastActionDate : string;
  ps_responseDeadline : string
}.

(** [checkPatentStatus]: a fixed answer that carries the number asked for. *)
Definition checkPatentStatus (applicationNumber : string) : PatentStatus :=
  {| ps_applicationNumber := applicationNumber;
     ps_status := "Pending Examination";
     ps_examiner := "John Examiner";
     ps_artUnit := "2162";
     ps_lastAction := "Non-Final Rejection";
     ps_lastActionDate := "2024-03-15";
     ps_responseDeadline := "2024-06-15" |}.

Section Status.
(** [axiosInstance.get(url)] without parameters: [Throw] for a transport
    error or a status outside 2xx, otherwise [response.status] and
    [response.data]. *)
Variable http_get : string -> Outcome (Z * json).
(** [cheerio.load(response.data)], whose result the source does not use. *)
Variable cheerio_load : json -> Outcome unit.

(** A GET without parameters is logged with an empty [req_params_url]. *)
Definition httpGet (url : string) : M World (Z * json) := λ w,
  (http_get url, log_request {| req_url := url; req_params_url := "" |} w).

(** [serialNumber.replace(/\D/g, '')] *)
Definition digits (serialNumber : string) : string :=
  JS.filter_chars JS.is_digit serialNumber.

Definition statusUrl (serialNumber : string) : string :=
  "https://tsdr.uspto.gov/statusview/sn" +:+ digits serialNumber.

Definition live_status (serialNumber : string) : TrademarkStatus :=
  {| ts_serialNumber := serialNumber;
     ts_status := "LIVE";
     ts_markText := "EXAMPLE MARK";
     ts_owner := Some "Example Owner";
     ts_filingDate := "2023-01-01";
     ts_registrationDate := Some "2024-01-01" |}.

Definition pending_status (serialNumber : string) : TrademarkStatus :=
  {| ts_serialNumber := serialNumber;
     ts_status := "PENDING EXAMINATION";
     ts_markText := "UNKNOWN";
     ts_owner := None;
     ts_filingDate := "2023-01-01";
     ts_registrationDate := None |}.

(** [checkTrademarkStatus]: the request and the parsing are inside a [try]
    whose handler only logs; whatever does not return from inside the [try]
    ends in the second [return]. *)
Definition checkTrademarkStatus (serialNumber : string) : M World TrademarkStatus :=
  answered ← try_catch
                (response ← httpGet (statusUrl serialNumber);
                 if (response.1 =? 200) then
                   lift (cheerio_load response.2);;
                   mret (Some (live_status serialNumber))
                 else mret None)
                (λ _, mret None);
  match answered : option TrademarkStatus with
  | Some status => mret status
  | None => mret (pending_status serialNumber)
  end.

End Status.

(** [cleanup] of the orchestrator: the Selenium service is cleaned up when
    it exists. *)
Definition cleanup (useSelenium : bool) (quit : Outcome unit) : M World unit :=
  if useSelenium then SeleniumUSPTOService.cleanup quit else mret ().

End SimpleUSPTOService.

(** ** De-duplication, [USPTOCrawler] *)

Module USPTOCrawler.

(** [PatentResult] *)
Record PatentResult : Type := {
  patentNumber : option string;
  applicationNumber : option string;
  title : option string;
  abstract : option string;
  inventors : option (list string);
  applicant : option string;
  assignee : option string;
  filingDate : option string;
  grantDate : option string;
  status : option string;
  classification : option (list string);
  claims : option (list string);
  url : option string;
  pdfUrl : option string
}.

(** [TrademarkResult] *)
Record TrademarkResult : Type := {
  serialNumber : option string;
  registrationNumber : option string;
  mark : option string;
  owner : option string;
  tm_filingDate : option string;
  registrationDate : option string;
  tm_status : option string;
  goodsAndServices : option string;
  tm_classification : option (list string);
  tm_url : option string;
  imageUrl : option string
}.

(** [a || b] for an optional string [a]: an absent or empty [a] is falsy. *)
Definition or_else (a : option string) (b : string) : string :=
  match a with
  | Some s => if decide (s = "") then b else s
  | None => b
  end.

(** [patent.patentNumber || patent.applicationNumber || ''] *)
Definition patentKey (patent : PatentResult) : string :=
  or_else (patentNumber patent) (or_else (applicationNumber patent) "").

(** [trademark.serialNumber || trademark.registrationNumber || ''] *)
Definition trademarkKey (trademark : TrademarkResult) : string :=
  or_else (serialNumber trademark) (or_else (registrationNumber trademark) "").

(** [items.filter(item => { if (seen.has(key)) return false;
    seen.add(key); return true; })] with the set [seen] threaded through
    the traversal. *)
Fixpoint filter_unseen {A} (key : A -> string) (seen : gset string) (items : list A) : list A :=
  match items with
  | [] => []
  | item :: rest =>
      if decide (key item ∈ seen) then filter_unseen key seen rest
      else item :: filter_unseen key ({[key item]} ∪ seen) rest
  end.

(** [deduplicatePatents] *)
Definition deduplicatePatents (patents : list PatentResult) : list PatentResult :=
  filter_unseen patentKey ∅ patents.

(** [deduplicateTrademarks] *)
Definition deduplicateTrademarks (trademarks : list TrademarkResult) : list TrademarkResult :=
  filter_unseen trademarkKey ∅ trademarks.

(** The first record of [items] whose key is [k], if any. *)
Definition first_with_key {A} (key : A -> string) (k : string) (items : list A) : option A :=
  head (filter (λ item, key item = k) items).

(** [USPTOSearchParams] *)
Record USPTOSearchParams : Type := {
  sp_query : option string;
  sp_type : option string;
  sp_status : option string;
  sp_dateFrom : option string;
  sp_dateTo : option string;
  sp_applicant : option string;
  sp_inventor : option string;
  sp_assignee : option string;
  sp_classificationCode : option string;
  sp_limit : option Z;
  sp_offset : option Z
}.

Definition patentSearch : string := "https://ppubs.uspto.gov/pubwebapp/".
Definition trademarkSearch : string := "https://tmsearch.uspto.gov/".
Definition trademarkStatus : string := "https://tsdr.uspto.gov/".
Definition patentFullText : string := "https://patft.uspto.gov/".

(** [if (value) queryParams.append(name, value)] for an optional string:
    an absent or empty value appends nothing. *)
Definition append_if (name : string) (value : option string)
    (queryParams : list (string * string)) : list (string * string) :=
  match value with
  | Some v => if decide (v = "") then queryParams else queryParams ++ [(name, v)]
  | None => queryParams
  end.

(** [if (params.limit) queryParams.append('limit', params.limit.toString())]
    for an integer limit: zero is falsy. *)
Definition append_limit (limit : option Z)
    (queryParams : list (string * string)) : list (string * string) :=
  match limit with
  | Some n => if decide (n = 0) then queryParams else queryParams ++ [("limit", pretty n)]
  | None => queryParams
  end.

(** The [URLSearchParams] object of [buildPatentSearchUrl]. *)
Definition patentQueryParams (params : USPTOSearchParams) : list (string * string) :=
  append_limit (sp_limit params)
    (append_if "dateTo" (sp_dateTo params)
       (append_if "dateFrom" (sp_dateFrom params)
          (append_if "inventor" (sp_inventor params)
             (append_if "applicant" (sp_applicant params)
                (append_if "searchText" (sp_query params) []))))).

(** [buildPatentSearchUrl] *)
Definition buildPatentSearchUrl (params : USPTOSearchParams) : string :=
  patentSearch +:+ "?" +:+ JS.toStringParams (patentQueryParams params).

(** The characters [formatTESSQuery] keeps: [\w], [\s], [-], [*] and the
    double quote. *)
Definition tess_char (c : ascii) : bool :=
  JS.is_word c || JS.is_ws c || bool_decide (c ∈ ["-"%char; "*"%char; ascii_of_nat 34]).

(** [formatTESSQuery] *)
Definition formatTESSQuery (query : string) : string :=
  JS.trim (JS.filter_chars tess_char query).

(** The [URLSearchParams] object of [buildTrademarkSearchUrl]: a query that
    is not empty is appended in its TESS form, even when that form is
    empty. *)
Definition trademarkQueryParams (params : USPTOSearchParams) : list (string * string) :=
  append_if "status" (sp_status params)
    (append_if "owner" (sp_applicant params)
       (match sp_query params with
        | Some q => if decide (q = "") then [] else [("q", formatTESSQuery q)]
        | None => []
        end)).

(** [buildTrademarkSearchUrl] *)
Definition buildTrademarkSearchUrl (params : USPTOSearchParams) : string :=
  trademarkSearch +:+ "?" +:+ JS.toStringParams (trademarkQueryParams params).

End USPTOCrawler.

(** ** Classification and batched crawling, [Crawl4AIService] *)

Module Crawl4AIService.

Inductive Strategy : Type := llm | css | xpath | auto.

(** The part of [Crawl4AIConfig] that callers override. *)
Record Crawl4AIConfig : Type := {
  extractionStrategy : option Strategy;
  waitForSelector : option string;
  llmModel : option string
}.

(** [CrawlResult] *)
Record CrawlResult : Type := {
  url : string;
  title : option string;
  content : option string;
  markdown : option string;
  extractedData : json;
  success : bool;
  error : option string
}.

(** The JSON object printed by the extraction process. *)
Record Output : Type := {
  out_title : option string;
  out_content : option string;
  out_markdown : option string;
  out_extracted_data : json;
  out_success : bool;
  out_error : option string
}.

(** The outside world of the service: the installation check and test
    crawl of [initialize], and the extraction process of [crawl], where
    [Throw] stands for a non-zero exit, a timeout or unparsable output. *)
Record Process : Type := {
  install_and_verify : Outcome unit;
  python : string -> Crawl4AIConfig -> Outcome Output
}.

(** What the batched crawl does over time: a batch of URLs handed to
    [Promise.all], whose crawls run concurrently, and a pause. *)
Inductive Event : Type :=
| Launched (batch : list string)
| Paused (ms : Z).

(** The state of the service: its [isInitialized] flag, and the batches
    launched and pauses taken so far. *)
Record State : Type := {
  isInitialized : bool;
  trace : list Event
}.

Definition set_initialized (b : bool) (s : State) : State :=
  {| isInitialized := b; trace := trace s |}.

Definition emit (e : Event) (s : State) : State :=
  {| isInitialized := isInitialized s; trace := trace s ++ [e] |}.

(** [options.x ?? config.x] of [{ ...this.config, ...options }]. *)
Definition merge (config options : Crawl4AIConfig) : Crawl4AIConfig :=
  {| extractionStrategy := match extractionStrategy options with
                           | Some x => Some x
                           | None => extractionStrategy config
                           end;
     waitForSelector := match waitForSelector options with
                        | Some x => Some x
                        | None => waitForSelector config
                        end;
     llmModel := match llmModel options with
                 | Some x => Some x
                 | None => llmModel config
                 end |}.

(** The defaults the constructor starts from. *)
Definition default_config : Crawl4AIConfig :=
  {| extractionStrategy := Some auto; waitForSelector := None; llmModel := Some "gpt-4" |}.

(** [a || ''] *)
Definition or_empty (a : option string) : string :=
  match a with
  | Some s => s
  | None => ""
  end.

(** [identifyUSPTOContent] *)
Definition identifyUSPTOContent (crawlResult : CrawlResult) : string :=
  let content := JS.toLowerCase (or_empty (content crawlResult)) in
  let title := JS.toLowerCase (or_empty (title crawlResult)) in
  if JS.includes content "patent" || JS.includes title "patent" then
    if JS.includes content "application" then "patent-application"
    else if JS.includes content "grant" then "patent-grant"
    else "patent-general"
  else if JS.includes content "trademark" || JS.includes title "trademark" then
    if JS.includes content "registration" then "trademark-registration"
    else if JS.includes content "application" then "trademark-application"
    else "trademark-general"
  else if JS.includes content "ptab" || JS.includes content "trial and appeal" then
    "ptab-decision"
  else "general".

(** The value [crawl] returns: the parsed output of the process, or, in the
    [catch] branch, an unsuccessful result that carries the error message. *)
Definition toCrawlResult (url : string) (o : Outcome Output) : CrawlResult :=
  match o with
  | Ok result =>
      {| url := url;
         title := out_title result;
         content := out_content result;
         markdown := out_markdown result;
         extractedData := out_extracted_data result;
         success := out_success result;
         error := out_error result |}
  | Throw e =>
      {| url := url;
         title := None;
         content := None;
         markdown := None;
         extractedData := JUndef;
         success := false;
         error := Some e |}
  end.

(** [getTargetedExtractionOptions] *)
Definition getTargetedExtractionOptions (contentType : string) : Crawl4AIConfig :=
  if bool_decide (contentType = "patent-application") || bool_decide (contentType = "patent-grant")
  then {| extractionStrategy := Some llm;
          waitForSelector := Some "div.patent-content";
          llmModel := Some "gpt-4" |}
  else if bool_decide (contentType = "trademark-registration")
          || bool_decide (contentType = "trademark-application")
  then {| extractionStrategy := Some css;
          waitForSelector := Some "div.trademark-details";
          llmModel := None |}
  else if bool_decide (contentType = "ptab-decision")
  then {| extractionStrategy := Some llm;
          waitForSelector := Some "div.decision-content";
          llmModel := Some "gpt-4" |}
  else {| extractionStrategy := Some auto; waitForSelector := None; llmModel := None |}.

(** The result of [smartCrawl]: a crawl result and the two entries that
    [smartCrawl] adds to its [metadata] after the second pass. *)
Record SmartCrawlResult : Type := {
  sc_result : CrawlResult;
  sc_contentType : option string;
  sc_twoPassExtraction : bool
}.

Section Service.
Variable process : Process.
(** [this.config] *)
Variable service_config : Crawl4AIConfig.

(** [initialize]: a failure is logged and thrown again. *)
Definition initialize : M State unit := λ s,
  match install_and_verify process with
  | Ok _ => (Ok (), set_initialized true s)
  | Throw e => (Throw e, s)
  end.

(** [crawl]: [initialize] runs outside of the [try]; a failure of the
    extraction process is turned into an unsuccessful result. *)
Definition crawl (url : string) (options : Crawl4AIConfig) : M State CrawlResult :=
  ready ← gets isInitialized;
  (if ready : bool then mret () else initialize);;
  let config := merge service_config options in
  mret (toCrawlResult url (python process url config)).

(** [delay] *)
Definition delay (ms : Z) : M State unit := modify (emit (Paused ms)).

Definition batchSize : nat := 5.

(** [urls.slice(i, i + batchSize)] *)
Definition slice {A} (l : list A) (i j : nat) : list A := take (j - i) (drop i l).

(** The [for (let i = 0; i < urls.length; i += batchSize)] loop of
    [crawlMultiple]. [Promise.all] over a batch yields the results in
    the order of the batch and rejects when one of the crawls does; the
    crawls of a batch all meet the same installation, so running them one
    after the other gives the same results. *)
Equations? crawlFrom (urls : list string) (options : Crawl4AIConfig)
           (i : nat) (results : list CrawlResult) : M State (list CrawlResult)
  by wf (length urls - i)%nat lt :=
  crawlFrom urls options i results with decide (i < length urls)%nat := {
    | left _ =>
        let batch := slice urls i (i + batchSize) in
        modify (emit (Launched batch));;
        batchResults ← mapM (λ url, crawl url options) batch;
        (if decide (i + batchSize < length urls)%nat then delay 1000 else mret ());;
        crawlFrom urls options (i + batchSize)%nat (results ++ batchResults)
    | right _ => mret results }.
Proof. unfold batchSize. lia. Qed.

(** [crawlMultiple] *)
Definition crawlMultiple (urls : list string) (options : Crawl4AIConfig) : M State (list CrawlResult) :=
  crawlFrom urls options 0%nat [].

(** [smartCrawl]: a first pass with the automatic strategy; when it
    succeeds, a second pass with the options of the content type found. *)
Definition smartCrawl (url : string) : M State SmartCrawlResult :=
  initialCrawl ← crawl url {| extractionStrategy := Some auto;
                              waitForSelector := None;
                              llmModel := None |};
  if negb (success initialCrawl) then
    mret {| sc_result := initialCrawl; sc_contentType := None; sc_twoPassExtraction := false |}
  else
    let contentType := identifyUSPTOContent initialCrawl in
    let targetedOptions := getTargetedExtractionOptions contentType in
    finalCrawl ← crawl url targetedOptions;
    mret {| sc_result := finalCrawl;
            sc_contentType := Some contentType;
            sc_twoPassExtraction := true |}.

(** [cleanup] *)
Definition cleanup : M State unit := modify (set_initialized false).

End Service.

End Crawl4AIService.

(** ** Searching through the extraction service, [USPTOCrawler] and the tools

    The records that travel through this part of [USPTOCrawler] are built
    from data typed [any]; they are modelled as JSON objects. An object is
    represented by its bindings, where a binding shadows every later
    binding of the same name and the order of the bindings has no meaning. *)

Module Crawler.

(** The own enumerable properties of a value, which [{ ...v }] copies. *)
Definition own_properties (v : json) : list (string * json) :=
  match v with
  | JObj fields => fields
  | JArr xs => imap (λ i x, (pretty i, x)) xs
  | JStr s => imap (λ i c, (pretty i, JStr (String c EmptyString))) (String.list_ascii_of_string s)
  | JUndef | JNull => []
  end.

(** [{ ...a, ...b }]: the properties of [b] come first and shadow those of
    [a]. *)
Definition spread (a b : json) : json := JObj (own_properties b ++ own_properties a).

(** [Array.isArray(data) ? data : [data]] *)
Definition items_of (extractedData : json) : list json :=
  match extractedData with
  | JArr xs => xs
  | x => [x]
  end.

(** [item.link]. A string item has the method [link] of [String.prototype]
    there; the crawler uses the value for its truth and for the text it has
    inside the crawl script only, and the model writes it as that text. *)
Definition link_of (item : json) : Outcome json :=
  match item with
  | JStr _ => Ok (JStr "function link() { [native code] }")
  | _ => Json.prop item "link"
  end.

(** The object pushed for one item of [parsePatentSearchResults]. *)
Definition patentOfItem (item : json) : Outcome json :=
  patentNumber ← Json.prop item "patentNumber";
  number ← Json.prop item "number";
  title ← Json.prop item "title";
  abstract ← Json.prop item "abstract";
  url ← Json.prop item "url";
  link ← link_of item;
  filingDate ← Json.prop item "filingDate";
  status ← Json.prop item "status";
  mret (JObj [("patentNumber", Json.or patentNumber number);
              ("title", title);
              ("abstract", abstract);
              ("url", Json.or url link);
              ("filingDate", filingDate);
              ("status", status)]).

(** The object pushed for one item of [parseTrademarkSearchResults]. *)
Definition trademarkOfItem (item : json) : Outcome json :=
  serialNumber ← Json.prop item "serialNumber";
  serial ← Json.prop item "serial";
  registrationNumber ← Json.prop item "registrationNumber";
  mark ← Json.prop item "mark";
  wordMark ← Json.prop item "wordMark";
  owner ← Json.prop item "owner";
  status ← Json.prop item "status";
  url ← Json.prop item "url";
  mret (JObj [("serialNumber", Json.or serialNumber serial);
              ("registrationNumber", registrationNumber);
              ("mark", Json.or mark wordMark);
              ("owner", owner);
              ("status", status);
              ("url", url)]).

(** The [for (const item of data)] loop inside the [try] of the two parse
    functions: an item the callback throws on ends the loop, and what was
    pushed before it is kept. *)
Fixpoint pushItems (ofItem : json -> Outcome json) (data : list json) : list json :=
  match data with
  | [] => []
  | item :: rest =>
      match ofItem item with
      | Ok record => record :: pushItems ofItem rest
      | Throw _ => []
      end
  end.

(** [parsePatentSearchResults] *)
Definition parsePatentSearchResults (crawlResult : Crawl4AIService.CrawlResult) : list json :=
  if Json.truthy (Crawl4AIService.extractedData crawlResult)
  then pushItems patentOfItem (items_of (Crawl4AIService.extractedData crawlResult))
  else [].

(** [parseTrademarkSearchResults] *)
Definition parseTrademarkSearchResults (crawlResult : Crawl4AIService.CrawlResult) : list json :=
  if Json.truthy (Crawl4AIService.extractedData crawlResult)
  then pushItems trademarkOfItem (items_of (Crawl4AIService.extractedData crawlResult))
  else [].

(** [parseTrademarkStatus] *)
Definition parseTrademarkStatus (crawlResult : Crawl4AIService.CrawlResult) : Outcome json :=
  let data := Crawl4AIService.extractedData crawlResult in
  serialNumber ← Json.opt_prop data "serialNumber";
  registrationNumber ← Json.opt_prop data "registrationNumber";
  status ← Json.opt_prop data "status";
  statusDate ← Json.opt_prop data "statusDate";
  attorney ← Json.opt_prop data "attorney";
  correspondent ← Json.opt_prop data "correspondent";
  prosecutionHistory ← Json.opt_prop data "prosecutionHistory";
  mret (JObj [("serialNumber", serialNumber);
              ("registrationNumber", registrationNumber);
              ("status", status);
              ("statusDate", statusDate);
              ("attorney", attorney);
              ("correspondent", correspondent);
              ("prosecution", Json.or prosecutionHistory (JArr []))]).

(** [parsePatentStatus] *)
Definition parsePatentStatus (crawlResult : Crawl4AIService.CrawlResult) : Outcome json :=
  let data := Crawl4AIService.extractedData crawlResult in
  applicationNumber ← Json.opt_prop data "applicationNumber";
  status ← Json.opt_prop data "status";
  examiner ← Json.opt_prop data "examiner";
  artUnit ← Json.opt_prop data "artUnit";
  lastAction ← Json.opt_prop data "lastAction";
  transactions ← Json.opt_prop data "transactions";
  mret (JObj [("applicationNumber", applicationNumber);
              ("status", status);
              ("examiner", examiner);
              ("artUnit", artUnit);
              ("lastAction", lastAction);
              ("transactions", Json.or transactions (JArr []))]).

(** The text of [crawlResult.error] inside a template literal. The script
    of the extraction process always prints the [error] key, [null] when
    there is no error. *)
Definition error_text (error : option string) : string :=
  match error with
  | Some e => e
  | None => "null"
  end.

Definition throw {S A} (e : string) : M S A := λ s, (Throw e, s).

Section Pipeline.
Variable process : Crawl4AIService.Process.
Variable service_config : Crawl4AIService.Crawl4AIConfig.

(** [delay] of [USPTOCrawler], recorded like the pause of the service. *)
Definition delay (ms : Z) : M Crawl4AIService.State unit :=
  modify (Crawl4AIService.emit (Crawl4AIService.Paused ms)).

(** The body of the loop of [fetchPatentDetails] for a patent with a URL:
    the smart crawl is inside a [try] whose handler pushes the patent as it
    is. The URL is the text the value has inside the script. *)
Definition enrichPatent (patent url : json) : M Crawl4AIService.State json :=
  try_catch
    (result ← Crawl4AIService.smartCrawl process service_config (Json.toString url);
     let crawled := Crawl4AIService.sc_result result in
     if Crawl4AIService.success crawled && Json.truthy (Crawl4AIService.extractedData crawled)
     then mret (spread patent (Crawl4AIService.extractedData crawled))
     else mret patent)
    (λ _, mret patent).

(** [fetchPatentDetails] *)
Fixpoint fetchPatentDetails (patents : list json) : M Crawl4AIService.State (list json) :=
  match patents with
  | [] => mret []
  | patent :: rest =>
      url ← lift (Json.prop patent "url");
      if negb (Json.truthy url) then fetchPatentDetails rest
      else
        detailed ← enrichPatent patent url;
        delay 500;;
        others ← fetchPatentDetails rest;
        mret (detailed :: others)
  end.

(** [checkTrademarkStatus] of [USPTOCrawler] *)
Definition checkTrademarkStatus (serialNumber : json) : M Crawl4AIService.State json :=
  let url := USPTOCrawler.trademarkStatus +:+ "?serialNumber=" +:+ Json.toString serialNumber in
  result ← Crawl4AIService.crawl process service_config url
             {| Crawl4AIService.extractionStrategy := Some Crawl4AIService.css;
                Crawl4AIService.waitForSelector := Some "div.status-container";
                Crawl4AIService.llmModel := None |};
  if negb (Crawl4AIService.success result)
  then throw ("Failed to check trademark status: "
              +:+ error_text (Crawl4AIService.error result))
  else lift (parseTrademarkStatus result).

(** [checkPatentStatus] of [USPTOCrawler] *)
Definition checkPatentStatus (applicationNumber : json) : M Crawl4AIService.State json :=
  let url := "https://portal.uspto.gov/pair/PublicPair?application="
             +:+ Json.toString applicationNumber in
  result ← Crawl4AIService.crawl process service_config url
             {| Crawl4AIService.extractionStrategy := Some Crawl4AIService.llm;
                Crawl4AIService.waitForSelector := Some "div.application-data";
                Crawl4AIService.llmModel := None |};
  if negb (Crawl4AIService.success result)
  then throw ("Failed to check patent status: " +:+ error_text (Crawl4AIService.error result))
  else lift (parsePatentStatus result).

(** [checkApplicationStatus] *)
Definition checkApplicationStatus (applicationNumber : json) (type : string)
    : M Crawl4AIService.State json :=
  if bool_decide (type = "patent") then checkPatentStatus applicationNumber
  else checkTrademarkStatus applicationNumber.

(** [fetchTrademarkDetails] *)
Fixpoint fetchTrademarkDetails (trademarks : list json) : M Crawl4AIService.State (list json) :=
  match trademarks with
  | [] => mret []
  | trademark :: rest =>
      serialNumber ← lift (Json.prop trademark "serialNumber");
      if negb (Json.truthy serialNumber) then fetchTrademarkDetails rest
      else
        detailed ← try_catch
                     (statusResult ← checkTrademarkStatus serialNumber;
                      mret (spread trademark statusResult))
                     (λ _, mret trademark);
        delay 500;;
        others ← fetchTrademarkDetails rest;
        mret (detailed :: others)
  end.

(** [searchPatents] of [USPTOCrawler]: the handler of its [try] logs and
    throws the error again. *)
Definition searchPatents (params : USPTOCrawler.USPTOSearchParams)
    : M Crawl4AIService.State (list json) :=
  try_catch
    (let searchUrl := USPTOCrawler.buildPatentSearchUrl params in
     searchResults ← Crawl4AIService.crawl process service_config searchUrl
                       {| Crawl4AIService.extractionStrategy := Some Crawl4AIService.css;
                          Crawl4AIService.waitForSelector := Some "div.search-results";
                          Crawl4AIService.llmModel := None |};
     if negb (Crawl4AIService.success searchResults)
     then throw ("Patent search failed: " +:+ error_text (Crawl4AIService.error searchResults))
     else fetchPatentDetails (parsePatentSearchResults searchResults))
    (λ error, throw error).

(** [searchTrademarks] of [USPTOCrawler] *)
Definition searchTrademarks (params : USPTOCrawler.USPTOSearchParams)
    : M Crawl4AIService.State (list json) :=
  try_catch
    (let searchUrl := USPTOCrawler.buildTrademarkSearchUrl params in
     searchResults ← Crawl4AIService.crawl process service_config searchUrl
                       {| Crawl4AIService.extractionStrategy := Some Crawl4AIService.css;
                          Crawl4AIService.waitForSelector := Some "table.results";
                          Crawl4AIService.llmModel := None |};
     if negb (Crawl4AIService.success searchResults)
     then throw ("Trademark search failed: "
                 +:+ error_text (Crawl4AIService.error searchResults))
     else fetchTrademarkDetails (parseTrademarkSearchResults searchResults))
    (λ error, throw error).

(** The answer of the two search tools. *)
Record ToolResult : Type := {
  tool_success : bool;
  tool_results : list json;
  tool_count : nat;
  tool_query : USPTOCrawler.USPTOSearchParams * option string
}.

(** [{ ...args, type }] and [{ ...args, type, applicant: args.owner }]. *)
Definition with_type (type : string) (args : USPTOCrawler.USPTOSearchParams)
    : USPTOCrawler.USPTOSearchParams :=
  {| USPTOCrawler.sp_query := USPTOCrawler.sp_query args;
     USPTOCrawler.sp_type := Some type;
     USPTOCrawler.sp_status := USPTOCrawler.sp_status args;
     USPTOCrawler.sp_dateFrom := USPTOCrawler.sp_dateFrom args;
     USPTOCrawler.sp_dateTo := USPTOCrawler.sp_dateTo args;
     USPTOCrawler.sp_applicant := USPTOCrawler.sp_applicant args;
     USPTOCrawler.sp_inventor := USPTOCrawler.sp_inventor args;
     USPTOCrawler.sp_assignee := USPTOCrawler.sp_assignee args;
     USPTOCrawler.sp_classificationCode := USPTOCrawler.sp_classificationCode args;
     USPTOCrawler.sp_limit := USPTOCrawler.sp_limit args;
     USPTOCrawler.sp_offset := USPTOCrawler.sp_offset args |}.

Definition with_owner (owner : option string) (args : USPTOCrawler.USPTOSearchParams)
    : USPTOCrawler.USPTOSearchParams :=
  {| USPTOCrawler.sp_query := USPTOCrawler.sp_query args;
     USPTOCrawler.sp_type := Some "trademark";
     USPTOCrawler.sp_status := USPTOCrawler.sp_status args;
     USPTOCrawler.sp_dateFrom := USPTOCrawler.sp_dateFrom args;
     USPTOCrawler.sp_dateTo := USPTOCrawler.sp_dateTo args;
     USPTOCrawler.sp_applicant := owner;
     USPTOCrawler.sp_inventor := USPTOCrawler.sp_inventor args;
     USPTOCrawler.sp_assignee := USPTOCrawler.sp_assignee args;
     USPTOCrawler.sp_classificationCode := USPTOCrawler.sp_classificationCode args;
     USPTOCrawler.sp_limit := USPTOCrawler.sp_limit args;
     USPTOCrawler.sp_offset := USPTOCrawler.sp_offset args |}.

(** [PatentSearchTool.execute]; the arguments are the search parameters and
    the [owner] that only the trademark tool reads. *)
Definition patentToolExecute (args : USPTOCrawler.USPTOSearchParams) (owner : option string)
    : M Crawl4AIService.State ToolResult :=
  try_catch
    (results ← searchPatents (with_type "patent" args);
     mret {| tool_success := true;
             tool_results := results;
             tool_count := length results;
             tool_query := (args, owner) |})
    (λ _, mret {| tool_success := false;
                  tool_results := [];
                  tool_count := 0;
                  tool_query := (args, owner) |}).

(** [TrademarkSearchTool.execute] *)
Definition trademarkToolExecute (args : USPTOCrawler.USPTOSearchParams) (owner : option string)
    : M Crawl4AIService.State ToolResult :=
  try_catch
    (results ← searchTrademarks (with_owner owner args);
     mret {| tool_success := true;
             tool_results := results;
             tool_count := length results;
             tool_query := (args, owner) |})
    (λ _, mret {| tool_success := false;
                  tool_results := [];
                  tool_count := 0;
                  tool_query := (args, owner) |}).

End Pipeline.

End Crawler.

(** ** The bulk extraction tool, [BulkExtractorTool] *)

Module BulkExtractorTool.

(** [args]: two optional arrays of strings and two optional strings. *)
Record BulkArgs : Type := {
  urls : option (list string);
  numbers : option (list string);
  extractType : option string;
  format : option string
}.

(** What an entry was asked for: [{ url }] or [{ number }]. *)
Inductive Source : Type :=
| from_url (url : string)
| from_number (number : string).

(** [{ url, type, data }] and [{ number, type, data }] *)
Record Extracted : Type := {
  source : Source;
  type : option string;
  data : string
}.

(** [{ url, error }] and [{ number, error }] *)
Record Failure : Type := {
  failed_source : Source;
  failure : string
}.

(** [results.extracted]: the array, or the text that replaces it. *)
Inductive Output : Type :=
| entries (list_ : list Extracted)
| text (csv : string).

Record Stats : Type := {
  total : nat;
  successful : nat;
  failed : nat
}.

Record Results : Type := {
  success : bool;
  extracted : Output;
  failures : list Failure;
  stats : Stats
}.

(** The array [results.extracted] before the output is formatted, with the
    rest of [results]. *)
Record Progress : Type := {
  extracted_so_far : list Extracted;
  failed_so_far : list Failure;
  counted : Stats
}.

(** [extractFromUrl] *)
Definition extractFromUrl (url : string) (type : option string) : Outcome Extracted :=
  Ok {| source := from_url url; type := type; data := "extracted" |}.

(** [extractByNumber] *)
Definition extractByNumber (number : string) (type : option string) : Outcome Extracted :=
  Ok {| source := from_number number; type := type; data := "extracted" |}.

(** [convertToCSV] *)
Definition convertToCSV (data : list Extracted) : string := "csv_data".

(** The body of the two loops: the [try], its handler, and the count. *)
Definition attempt (extract : Outcome Extracted) (src : Source) (results : Progress) : Progress :=
  let counts := counted results in
  match extract with
  | Ok data =>
      {| extracted_so_far := extracted_so_far results ++ [data];
         failed_so_far := failed_so_far results;
         counted := {| total := S (total counts);
                       successful := S (successful counts);
                       failed := failed counts |} |}
  | Throw error =>
      {| extracted_so_far := extracted_so_far results;
         failed_so_far := failed_so_far results
                          ++ [{| failed_source := src; failure := "Error: " +:+ error |}];
         counted := {| total := S (total counts);
                       successful := successful counts;
                       failed := S (failed counts) |} |}
  end.

(** [execute] *)
Definition execute (args : BulkArgs) : Results :=
  let results :=
    {| extracted_so_far := []; failed_so_far := [];
       counted := {| total := 0; successful := 0; failed := 0 |} |} in
  let results :=
    match urls args with
    | Some ((_ :: _) as us) =>
        fold_left (λ results url,
                     attempt (extractFromUrl url (extractType args)) (from_url url) results)
          us results
    | _ => results
    end in
  let results :=
    match numbers args with
    | Some ((_ :: _) as ns) =>
        fold_left (λ results number,
                     attempt (extractByNumber number (extractType args)) (from_number number)
                       results)
          ns results
    | _ => results
    end in
  {| success := true;
     extracted := if bool_decide (format args = Some "csv") then text (convertToCSV (extracted_so_far results))
                  else entries (extracted_so_far results);
     failures := failed_so_far results;
     stats := counted results |}.

End BulkExtractorTool.

(** ** The backend server, [USPTOBackendServer] *)

Module Server.


Inductive Results : Type :=
| Patents (records : list PatentSearchResult)
| Trademarks (records : list TrademarkSearchResult).

(** What the server sends on the socket. *)
Inductive Emission : Type :=
| search_progress (status : string) (progress : Z)
| search_complete (results : Results)
| search_error (error : string).


(** The service of the server and what the socket was sent. *)
Record State : Type := {
  world : World;
  emitted : list Emission
}.

Definition emit (e : Emission) : M State unit := λ st,
  (Ok (), {| world := world st; emitted := emitted st ++ [e] |}).





Section Server.
Variable useSelenium : bool.
Variable browser : SeleniumUSPTOService.Browser.
Variable axios_get : Request -> Outcome json.





End Server.

End Server.

(** ** Vocabulary of the statements *)

(** An adapter is exhausted when it throws or returns no record. *)
Definition exhausted {A} (o : Outcome (list A)) : Prop :=
  match o with
  | Ok records => records = []
  | Throw _ => True
  end.

(** The state in which the orchestrator calls the external index: the one
    left by the browser adapter when it is enabled. *)
Definition after_selenium (useSelenium : bool) (browser : SeleniumUSPTOService.Browser)
    (query : string) (limit : Z) (w : World) : World :=
  if useSelenium then (SeleniumUSPTOService.searchPatents browser query limit w).2 else w.

(** A response in the format the repository documents for the endpoint
    ([results.cluster[].result[].patent]): two clusters of two results each,
    with highlighted titles. *)
Definition documented_result (id number title_html : string) : json :=
  JObj [("id", JStr id);
        ("patent", JObj [("title", JStr title_html);
                         ("snippet", JStr "Specification covers new algorithms&hellip;");
                         ("filing_date", JStr "2018-03-12");
                         ("grant_date", JStr "2021-07-27");
                         ("inventor", JStr "John Doe");
                         ("assignee", JStr "Tech Company Inc.");
                         ("publication_number", JStr number)])].

Definition documented_envelope : json :=
  JObj [("results",
         JObj [("cluster",
                JArr [ JObj [("result",
                              JArr [ documented_result "patent/US11074495B2/en" "US11074495B2"
                                       "System for <b>artificial</b> <b>intelligence</b>";
                                     documented_result "patent/US10000000B2/en" "US10000000B2"
                                       "Coherent LADAR" ])];
                       JObj [("result",
                              JArr [ documented_result "patent/US11521063B2/en" "US11521063B2"
                                       "Predictive <b>intelligence</b>";
                                     documented_result "patent/US11487936B2/en" "US11487936B2"
                                       "Language model" ])] ])])].

(** The record [formatCluster] builds when it finds none of the fields it
    looks for. *)
Definition placeholder_record : PatentSearchResult :=
  {| patentNumber := JStr "N/A";
     title := JStr "Untitled";
     abstract := JStr "No abstract available";
     inventors := Json.strings ["Not listed"];
     applicant := JStr "Not Available";
     filingDate := JStr "N/A";
     grantDate := JStr "N/A";
     url := JStr "https://patents.google.com/patent/N/A" |}.

(** A response in the shape [formatCluster] reads: one result object per
    cluster, with [title.text] and [snippet.text]. *)
Definition single_result_envelope : json :=
  JObj [("results",
         JObj [("cluster",
                JArr [ JObj [("result",
                              JObj [("title", JObj [("text", JStr "System for <b>artificial</b> intelligence")]);
                                    ("snippet", JObj [("text", JStr "A method&hellip;")]);
                                    ("patent", JObj [("publication_number", JStr "US11074495B2")])])] ])])].

Definition offline : Request -> Outcome json := fun _ => Throw "ECONNREFUSED".

Definition fresh : World := {| driver := false; requests := [] |}.

(** A browser that starts but finds no result container on either site
    within the ten seconds it waits. *)
Definition barren_browser : SeleniumUSPTOService.Browser :=
  {| SeleniumUSPTOService.build := Ok ();
     SeleniumUSPTOService.patent_public_search := fun _ => Throw "TimeoutError";
     SeleniumUSPTOService.google_patents := fun _ => Throw "TimeoutError" |}.

(** A browser whose driver cannot be built. *)
Definition broken_browser : SeleniumUSPTOService.Browser :=
  {| SeleniumUSPTOService.build := Throw "SessionNotCreatedError";
     SeleniumUSPTOService.patent_public_search := fun _ => Ok [];
     SeleniumUSPTOService.google_patents := fun _ => Ok [] |}.

(** A patent record with the given numbers and title, every other field
    being absent. *)
Definition patent_record (number application title : option string) : USPTOCrawler.PatentResult :=
  {| USPTOCrawler.patentNumber := number;
     USPTOCrawler.applicationNumber := application;
     USPTOCrawler.title := title;
     USPTOCrawler.abstract := None;
     USPTOCrawler.inventors := None;
     USPTOCrawler.applicant := None;
     USPTOCrawler.assignee := None;
     USPTOCrawler.filingDate := None;
     USPTOCrawler.grantDate := None;
     USPTOCrawler.status := None;
     USPTOCrawler.classification := None;
     USPTOCrawler.claims := None;
     USPTOCrawler.url := None;
     USPTOCrawler.pdfUrl := None |}.

(** A priority list of the classifier: each rule is a test on the
    lower-cased title and the lower-cased content with the type it assigns;
    the first rule that matches decides, and no match means "general". *)
Definition Rule : Type := (string -> string -> bool) * string.

Fixpoint first_match (rules : list Rule) (title content : string) : string :=
  match rules with
  | [] => "general"
  | (test, type) :: rest =>
      if test title content then type else first_match rest title content
  end.

(** The priority list in the words of the specification: every keyword is
    looked for in the lower-cased title+content. *)
Definition spec_rules : list Rule :=
  let mentions (k : string) := fun title content : string => JS.includes (title +:+ content) k in
  [ (fun t c => mentions "patent" t c && mentions "application" t c, "patent-application");
    (fun t c => mentions "patent" t c && mentions "grant" t c, "patent-grant");
    (mentions "patent", "patent-general");
    (fun t c => mentions "trademark" t c && mentions "registration" t c, "trademark-registration");
    (fun t c => mentions "trademark" t c && mentions "application" t c, "trademark-application");
    (mentions "trademark", "trademark-general");
    (fun t c => mentions "ptab" t c || mentions "trial and appeal" t c, "ptab-decision") ].

(** The priority list of the code: the family keyword is looked for in the
    content or in the title, every other keyword in the content only. *)
Definition code_rules : list Rule :=
  let family (k : string) := fun title content : string =>
    JS.includes content k || JS.includes title k in
  let in_content (k : string) := fun title content : string => JS.includes content k in
  [ (fun t c => family "patent" t c && in_content "application" t c, "patent-application");
    (fun t c => family "patent" t c && in_content "grant" t c, "patent-grant");
    (family "patent", "patent-general");
    (fun t c => family "trademark" t c && in_content "registration" t c, "trademark-registration");
    (fun t c => family "trademark" t c && in_content "application" t c, "trademark-application");
    (family "trademark", "trademark-general");
    (fun t c => in_content "ptab" t c || in_content "trial and appeal" t c, "ptab-decision") ].

(** A first-pass crawl result with the given title and content. *)
Definition page (title content : option string) : Crawl4AIService.CrawlResult :=
  {| Crawl4AIService.url := "https://www.uspto.gov/";
     Crawl4AIService.title := title;
     Crawl4AIService.content := content;
     Crawl4AIService.markdown := None;
     Crawl4AIService.extractedData := JUndef;
     Crawl4AIService.success := true;
     Crawl4AIService.error := None |}.

(** The consecutive batches of at most five URLs. *)
Equations? batches (urls : list string) : list (list string) by wf (length urls) lt :=
  batches [] := [];
  batches (u :: rest) := take 5 (u :: rest) :: batches (drop 5 (u :: rest)).
Proof. simpl. rewrite length_drop. lia. Qed.

(** The events of a run over the given batches: each batch is launched,
    with a pause of one second between two successive batches. *)
Fixpoint schedule (bs : list (list string)) : list Crawl4AIService.Event :=
  match bs with
  | [] => []
  | [b] => [Crawl4AIService.Launched b]
  | b :: rest => Crawl4AIService.Launched b :: Crawl4AIService.Paused 1000 :: schedule rest
  end.

(** The service can crawl: it is initialised, or its initialisation will
    succeed. *)
Definition ready (process : Crawl4AIService.Process) (s : Crawl4AIService.State) : Prop :=
  Crawl4AIService.isInitialized s = true \/ Crawl4AIService.install_and_verify process = Ok ().

(** The result of crawling one URL with the given options. *)
Definition crawled (process : Crawl4AIService.Process)
    (service_config options : Crawl4AIService.Crawl4AIConfig)
    (url : string) : Crawl4AIService.CrawlResult :=
  Crawl4AIService.toCrawlResult url
    (Crawl4AIService.python process url (Crawl4AIService.merge service_config options)).

(** An extraction process that cannot be installed, and one that works. *)
Definition missing_process : Crawl4AIService.Process :=
  {| Crawl4AIService.install_and_verify := Throw "Please install Crawl4AI manually: pip install crawl4ai";
     Crawl4AIService.python := fun _ _ => Throw "unreachable" |}.

Definition working_process : Crawl4AIService.Process :=
  {| Crawl4AIService.install_and_verify := Ok ();
     Crawl4AIService.python := fun url _ =>
       if JS.includes url "uspto.gov"
       then Ok {| Crawl4AIService.out_title := Some "USPTO";
                  Crawl4AIService.out_content := Some "United States Patent and Trademark Office";
                  Crawl4AIService.out_markdown := None;
                  Crawl4AIService.out_extracted_data := JNull;
                  Crawl4AIService.out_success := true;
                  Crawl4AIService.out_error := None |}
       else Throw "Command failed: python3 -c" |}.

Definition no_options : Crawl4AIService.Crawl4AIConfig :=
  {| Crawl4AIService.extractionStrategy := None;
     Crawl4AIService.waitForSelector := None;
     Crawl4AIService.llmModel := None |}.

Definition cold : Crawl4AIService.State :=
  {| Crawl4AIService.isInitialized := false; Crawl4AIService.trace := [] |}.

(** ** Vocabulary of the further properties *)

(** Every character of [s] satisfies [p]. *)
Fixpoint all_chars (p : ascii -> bool) (s : string) : bool :=
  match s with
  | EmptyString => true
  | String c s' => p c && all_chars p s'
  end.

(** The number of occurrences of the character [c] in [s]. *)
Fixpoint count_char (c : ascii) (s : string) : nat :=
  match s with
  | EmptyString => 0%nat
  | String x s' => ((if decide (x = c) then 1 else 0) + count_char c s')%nat
  end.


(** The one request of the external-index adapter for a query. *)
Definition google_request (query : string) : Request :=
  {| req_url := "https://patents.google.com/xhr/query";
     req_params_url := "q=" +:+ JS.encodeURIComponent query
                       +:+ "&oq=" +:+ JS.encodeURIComponent query |}.

(** [null] or [undefined]. *)
Definition nullish (v : json) : bool :=
  match v with
  | JUndef | JNull => true
  | _ => false
  end.

(** [v.k] when the read does not throw. *)
Definition field (v : json) (k : string) : json :=
  match Json.prop v k with
  | Ok x => x
  | Throw _ => JUndef
  end.

(** [(cluster.result || {}).patent || {}] and its [inventor]. *)
Definition patentInfo_of (cluster : json) : json :=
  Json.or (field (Json.or (field cluster "result") (JObj [])) "patent") (JObj []).

Definition inventor_of (cluster : json) : json := field (patentInfo_of cluster) "inventor".

(** An [inventor] value on which [inventors.map(inv => inv.name ...)]
    throws: a non-empty string or an object, which have no [map], or an
    array with a [null] entry. *)
Definition bad_inventors (v : json) : bool :=
  Json.truthy v &&
  match v with
  | JArr xs => existsb nullish xs
  | _ => true
  end.

(** The response carries the list [cs] under [results.cluster]. *)
Definition has_clusters (data : json) (cs : list json) : Prop :=
  exists results,
    Json.truthy data = true
    /\ Json.prop data "results" = Ok results
    /\ Json.truthy results = true
    /\ Json.prop results "cluster" = Ok (JArr cs).

(** Every field of the record is filled in: the strings are not empty and
    there is at least one inventor, each with a non-empty name. *)
Definition populated (r : PatentSearchResult) : bool :=
  Json.truthy (patentNumber r) && Json.truthy (title r) && Json.truthy (abstract r)
  && Json.truthy (applicant r) && Json.truthy (filingDate r) && Json.truthy (grantDate r)
  && Json.truthy (url r)
  && match inventors r with
     | JArr (x :: xs) => forallb Json.truthy (x :: xs)
     | _ => false
     end.

(** The request of [checkTrademarkStatus] for a serial number. *)
Definition status_request (serialNumber : string) : Request :=
  {| req_url := SimpleUSPTOService.statusUrl serialNumber; req_params_url := "" |}.

(** A span of the Google Patents metadata that sets the filing date, and one
    that sets the grant date. *)
Definition sets_filing (t : string) : bool := JS.includes t "Filed".
Definition sets_grant (t : string) : bool :=
  negb (JS.includes t "Filed") && (JS.includes t "Granted" || JS.includes t "Published").

(** The last element of [spans] that satisfies [p], as a field value. *)
Definition last_span (p : string -> bool) (spans : list string) (default : json) : json :=
  match last (filter (fun t => p t = true) spans) with
  | Some t => JStr t
  | None => default
  end.

(** A response in the shape [formatCluster] reads whose second cluster
    names its inventor by a plain string, as the documented format does. *)
Definition string_inventor_envelope : json :=
  JObj [("results",
         JObj [("cluster",
                JArr [ JObj [("result",
                              JObj [("patent", JObj [("publication_number", JStr "US11074495B2")])])];
                       JObj [("result",
                              JObj [("patent", JObj [("publication_number", JStr "US10000000B2");
                                                     ("inventor", JStr "John Doe")])])] ])])].

(** A status endpoint that answers 200, and a parser that accepts
    everything. *)
Definition tsdr_up : string -> Outcome (Z * json) := fun _ => Ok (200, JStr "<html></html>").
Definition parses : json -> Outcome unit := fun _ => Ok ().

(** The records found on a result page of Patent Public Search and of
    Google Patents, once the driver exists. *)
Definition public_scan (browser : SeleniumUSPTOService.Browser) (query : string) (limit : Z)
    : list PatentSearchResult :=
  match SeleniumUSPTOService.patent_public_search browser query with
  | Ok resultElements =>
      filter (fun p => SeleniumUSPTOService.kept p = true)
        (SeleniumUSPTOService.extractPublic
           <$> take (SeleniumUSPTOService.iterations resultElements limit) resultElements)
  | Throw _ => []
  end.

Definition google_scan (browser : SeleniumUSPTOService.Browser) (query : string) (limit : Z)
    : list PatentSearchResult :=
  match SeleniumUSPTOService.google_patents browser query with
  | Ok resultElements =>
      filter (fun p => SeleniumUSPTOService.kept p = true)
        (SeleniumUSPTOService.extractGoogle
           <$> take (SeleniumUSPTOService.iterations resultElements limit) resultElements)
  | Throw _ => []
  end.

(** A Google Patents element with the given metadata spans and nothing
    else. *)
Definition google_element (number : string) (spans : list string)
    : SeleniumUSPTOService.GoogleElement :=
  {| SeleniumUSPTOService.ge_number := Some number;
     SeleniumUSPTOService.ge_title := None;
     SeleniumUSPTOService.ge_snippet := None;
     SeleniumUSPTOService.ge_metadata := spans;
     SeleniumUSPTOService.ge_href := None |}.

(** An optional string that is present and not empty, an optional number
    that is present and not zero: what [if (value)] lets through. *)
Definition given (value : option string) : bool :=
  match value with
  | Some v => negb (bool_decide (v = ""))
  | None => false
  end.

Definition given_number (value : option Z) : bool :=
  match value with
  | Some n => negb (bool_decide (n = 0))
  | None => false
  end.

Definition count_true (flags : list bool) : nat := length (filter (fun b => b = true) flags).

(** The characters of a serialized query string: what the serializer leaves
    or produces, and the two separators. *)
Definition encoded_char (c : ascii) : bool :=
  JS.form_safe c || bool_decide (c ∈ ["+"; "%"]%char).

Definition query_string_char (c : ascii) : bool :=
  encoded_char c || bool_decide (c ∈ ["&"; "="]%char).

(** Search parameters with the given query, owner filter and limit. *)
Definition search_params (query applicant : option string) (limit : option Z)
    : USPTOCrawler.USPTOSearchParams :=
  {| USPTOCrawler.sp_query := query;
     USPTOCrawler.sp_type := None;
     USPTOCrawler.sp_status := None;
     USPTOCrawler.sp_dateFrom := None;
     USPTOCrawler.sp_dateTo := None;
     USPTOCrawler.sp_applicant := applicant;
     USPTOCrawler.sp_inventor := None;
     USPTOCrawler.sp_assignee := None;
     USPTOCrawler.sp_classificationCode := None;
     USPTOCrawler.sp_limit := limit;
     USPTOCrawler.sp_offset := None |}.

(** The service configuration with another extraction strategy. *)
Definition with_strategy (strategy : option Crawl4AIService.Strategy)
    (config : Crawl4AIService.Crawl4AIConfig) : Crawl4AIService.Crawl4AIConfig :=
  {| Crawl4AIService.extractionStrategy := strategy;
     Crawl4AIService.waitForSelector := Crawl4AIService.waitForSelector config;
     Crawl4AIService.llmModel := Crawl4AIService.llmModel config |}.

(** The items in front of the first [null] or [undefined] item. *)
Fixpoint before_null (items : list json) : list json :=
  match items with
  | [] => []
  | item :: rest => if nullish item then [] else item :: before_null rest
  end.

(** A record with a non-empty [url]. *)
Definition has_url (patent : json) : bool := Json.truthy (field patent "url").

(** The options of the search crawl of [searchPatents]. *)
Definition search_options : Crawl4AIService.Crawl4AIConfig :=
  {| Crawl4AIService.extractionStrategy := Some Crawl4AIService.css;
     Crawl4AIService.waitForSelector := Some "div.search-results";
     Crawl4AIService.llmModel := None |}.

(** The options of the status crawl of [checkTrademarkStatus]. *)
Definition status_options : Crawl4AIService.Crawl4AIConfig :=
  {| Crawl4AIService.extractionStrategy := Some Crawl4AIService.css;
     Crawl4AIService.waitForSelector := Some "div.status-container";
     Crawl4AIService.llmModel := None |}.

(** A state of the extraction service that is initialised. *)
Definition warm : Crawl4AIService.State :=
  {| Crawl4AIService.isInitialized := true; Crawl4AIService.trace := [] |}.

(** An extraction process that answers every crawl with the given data. *)
Definition process_returning (data : json) : Crawl4AIService.Process :=
  {| Crawl4AIService.install_and_verify := Ok ();
     Crawl4AIService.python := fun _ _ =>
       Ok {| Crawl4AIService.out_title := None;
             Crawl4AIService.out_content := None;
             Crawl4AIService.out_markdown := None;
             Crawl4AIService.out_extracted_data := data;
             Crawl4AIService.out_success := true;
             Crawl4AIService.out_error := None |} |}.

(** The result of the two passes of [smartCrawl] once the service is
    initialised. *)
Definition smart process config (url : string) : Crawl4AIService.SmartCrawlResult :=
  let initialCrawl :=
    crawled process config
      {| Crawl4AIService.extractionStrategy := Some Crawl4AIService.auto;
         Crawl4AIService.waitForSelector := None;
         Crawl4AIService.llmModel := None |} url in
  if negb (Crawl4AIService.success initialCrawl) then
    {| Crawl4AIService.sc_result := initialCrawl;
       Crawl4AIService.sc_contentType := None;
       Crawl4AIService.sc_twoPassExtraction := false |}
  else
    let contentType := Crawl4AIService.identifyUSPTOContent initialCrawl in
    {| Crawl4AIService.sc_result :=
         crawled process config (Crawl4AIService.getTargetedExtractionOptions contentType) url;
       Crawl4AIService.sc_contentType := Some contentType;
       Crawl4AIService.sc_twoPassExtraction := true |}.

(** A record with a non-empty [serialNumber]. *)
Definition has_serial (trademark : json) : bool := Json.truthy (field trademark "serialNumber").

(** The state after a successful initialisation, if one was needed. *)
Definition initialised (s : Crawl4AIService.State) : Crawl4AIService.State :=
  if Crawl4AIService.isInitialized s then s else Crawl4AIService.set_initialized true s.

(** The pauses of [n] enriched records. *)
Definition pauses (n : nat) : list Crawl4AIService.Event := replicate n (Crawl4AIService.Paused 500).

(** The options of the search crawl of [searchTrademarks]. *)
Definition trademark_search_options : Crawl4AIService.Crawl4AIConfig :=
  {| Crawl4AIService.extractionStrategy := Some Crawl4AIService.css;
     Crawl4AIService.waitForSelector := Some "table.results";
     Crawl4AIService.llmModel := None |}.

(** The search crawl of [searchPatents] and the records a successful one
    leads to. *)
Definition patent_search_crawl process config (params : USPTOCrawler.USPTOSearchParams)
    : Crawl4AIService.CrawlResult :=
  crawled process config search_options (USPTOCrawler.buildPatentSearchUrl params).

(** The search crawl of [searchTrademarks]. *)
Definition trademark_search_crawl process config (params : USPTOCrawler.USPTOSearchParams)
    : Crawl4AIService.CrawlResult :=
  crawled process config trademark_search_options (USPTOCrawler.buildTrademarkSearchUrl params).

(** Two records of a search, the second without a URL. *)
Definition two_records : list json :=
  [JObj [("patentNumber", JStr "US1234567"); ("url", JStr "https://patents.google.com/patent/US1234567")];
   JObj [("patentNumber", JStr "US7654321")]].

(** [v?.k] *)
Definition ofield (v : json) (k : string) : json :=
  match Json.opt_prop v k with
  | Ok x => x
  | Throw _ => JUndef
  end.

(** The status crawl of [checkTrademarkStatus] for a serial number. *)
Definition status_crawl process config (serialNumber : json) : Crawl4AIService.CrawlResult :=
  crawled process config status_options
    (USPTOCrawler.trademarkStatus +:+ "?serialNumber=" +:+ Json.toString serialNumber).

(** Search parameters of a trademark search with the given query, status
    and owner, and nothing else. *)
Definition trademark_params (query status owner : option string)
    : USPTOCrawler.USPTOSearchParams :=
  {| USPTOCrawler.sp_query := query;
     USPTOCrawler.sp_type := None;
     USPTOCrawler.sp_status := status;
     USPTOCrawler.sp_dateFrom := None;
     USPTOCrawler.sp_dateTo := None;
     USPTOCrawler.sp_applicant := owner;
     USPTOCrawler.sp_inventor := None;
     USPTOCrawler.sp_assignee := None;
     USPTOCrawler.sp_classificationCode := None;
     USPTOCrawler.sp_limit := None;
     USPTOCrawler.sp_offset := None |}.

(** How [fetchTrademarkDetails] treats a trademark with a serial number:
    the record comes back as it was when its status cannot be fetched, and
    with the identifiers and the status of its status page otherwise. *)
Definition enriched_trademark process config (s : Crawl4AIService.State)
    (record trademark : json) : Prop :=
  let page := status_crawl process config (field trademark "serialNumber") in
  let data := Crawl4AIService.extractedData page in
  (record = trademark /\ ~ (ready process s /\ Crawl4AIService.success page = true))
  \/ (ready process s /\ Crawl4AIService.success page = true
      /\ field record "serialNumber" = ofield data "serialNumber"
      /\ field record "registrationNumber" = ofield data "registrationNumber"
      /\ field record "status" = ofield data "status").

(** Two trademarks of a search, the second without a serial number. *)
Definition two_trademarks : list json :=
  [JObj [("serialNumber", JStr "88123456"); ("mark", JStr "ACME"); ("status", JStr "LIVE")];
   JObj [("mark", JStr "NONAME")]].

(** The crawl of [checkApplicationStatus]: the PAIR page of a patent
    application, the TSDR page for every other type. *)
Definition application_crawl process config (applicationNumber : json) (type : string)
    : Crawl4AIService.CrawlResult :=
  if bool_decide (type = "patent")
  then crawled process config
         {| Crawl4AIService.extractionStrategy := Some Crawl4AIService.llm;
            Crawl4AIService.waitForSelector := Some "div.application-data";
            Crawl4AIService.llmModel := None |}
         ("https://portal.uspto.gov/pair/PublicPair?application="
          +:+ Json.toString applicationNumber)
  else status_crawl process config applicationNumber.

(** The message of a failed status check and the list every status has. *)
Definition status_failure (type : string) : string :=
  if bool_decide (type = "patent") then "Failed to check patent status: "
  else "Failed to check trademark status: ".

Definition history_key (type : string) : string :=
  if bool_decide (type = "patent") then "transactions" else "prosecution".

(** The entry the bulk tool gives for a source. *)
Definition placeholder (type : option string) (src : BulkExtractorTool.Source)
    : BulkExtractorTool.Extracted :=
  {| BulkExtractorTool.source := src;
     BulkExtractorTool.type := type;
     BulkExtractorTool.data := "extracted" |}.

(** The sources a bulk request names: its URLs, then its numbers. *)
Definition bulk_sources (args : BulkExtractorTool.BulkArgs) : list BulkExtractorTool.Source :=
  (BulkExtractorTool.from_url <$> default [] (BulkExtractorTool.urls args))
  ++ (BulkExtractorTool.from_number <$> default [] (BulkExtractorTool.numbers args)).

(** * Properties *)

(** ** The string primitives on examples *)

Example toLowerCase_ex : JS.toLowerCase "Quantum AI" = "quantum ai".
Proof. reflexivity. Qed.

Example toUpperCase_ex : JS.toUpperCase "acme-2 co" = "ACME-2 CO".
Proof. reflexivity. Qed.

Example includes_ex :
  JS.includes "blockchain" "ai" = true /\ JS.includes "quantum" "ai" = false
  /\ JS.includes "" "" = true.
Proof. repeat split; reflexivity. Qed.

Example trim_ex : JS.trim "  a b  " = "a b" /\ JS.trim "   " = "".
Proof. split; reflexivity. Qed.

Example slice0_ex :
  JS.slice0 [1; 2; 3] 2 = [1; 2] /\ JS.slice0 [1; 2; 3] (-1) = [1; 2]
  /\ JS.slice0 [1; 2; 3] 7 = [1; 2; 3].
Proof. repeat split; reflexivity. Qed.

Example encodeURIComponent_ex : JS.encodeURIComponent "a b&c" = "a%20b%26c".
Proof. reflexivity. Qed.

(** ** Facts about the string primitives *)

Section StringFacts.

Lemma startsWith_app (s p : string) :
  JS.startsWith s p = true <-> exists b, s = p +:+ b.
Proof.
  revert s. induction p as [|a p IH]; intros s; simpl.
  - split; [intros _; by exists s | done].
  - destruct s as [|c s].
    + split; [done | intros [b Hb]; discriminate].
    + case_decide as Hac; subst.
      * rewrite IH. split; intros [b Hb]; exists b; [by rewrite Hb | by injection Hb].
      * split; [done | intros [b Hb]; injection Hb; congruence].
Qed.

Lemma includes_app (s needle : string) :
  JS.includes s needle = true <-> exists a b, s = a +:+ needle +:+ b.
Proof.
  induction s as [|c s IH]; simpl.
  - rewrite orb_false_r, startsWith_app. split.
    + intros [b Hb]. by exists "", b.
    + intros ([|x a] & b & Hab); [by exists b | discriminate].
  - rewrite orb_true_iff, startsWith_app, IH. split.
    + intros [[b Hb] | (a & b & Hab)].
      * by exists "", b.
      * exists (String c a), b. simpl. by rewrite Hab.
    + intros ([|x a] & b & Hab).
      * left. by exists b.
      * right. injection Hab as -> ->. by exists a, b.
Qed.

Lemma app_assoc_string (a b c : string) : (a +:+ b) +:+ c = a +:+ (b +:+ c).
Proof.
  induction a as [|x a IH]; [done |].
  change (String x ((a +:+ b) +:+ c) = String x (a +:+ b +:+ c)). by rewrite IH.
Qed.

(** A string that contains [needle] contains every part of [needle]. *)
Lemma includes_trans (s needle part : string) :
  JS.includes s needle = true -> JS.includes needle part = true ->
  JS.includes s part = true.
Proof.
  rewrite !includes_app. intros (a & b & ->) (a' & b' & ->).
  exists (a +:+ a'), (b' +:+ b). by rewrite !app_assoc_string.
Qed.

Lemma trimStart_whitespace (s : string) :
  JS.whitespace_only s = true -> JS.trimStart s = "".
Proof.
  induction s as [|c s IH]; simpl; [done |].
  intros [Hc Hs]%andb_true_iff. rewrite Hc. auto.
Qed.

(** [trim] leaves nothing of a string made of white space. *)
Lemma trim_whitespace (s : string) :
  JS.whitespace_only s = true -> JS.trim s = "".
Proof. intros H. unfold JS.trim. by rewrite trimStart_whitespace. Qed.

Lemma trimEnd_empty (s : string) :
  JS.trimEnd s = "" -> JS.whitespace_only s = true.
Proof.
  induction s as [|c s IH]; simpl; [done |].
  destruct (JS.trimEnd s); [|done].
  destruct (JS.is_ws c); [auto | done].
Qed.

Lemma trimStart_keeps (s : string) :
  JS.whitespace_only (JS.trimStart s) = true -> JS.whitespace_only s = true.
Proof.
  induction s as [|c s IH]; simpl; [done |].
  destruct (JS.is_ws c) eqn:Hc; simpl; [auto | by rewrite Hc].
Qed.

(** Conversely, only white space is trimmed to the empty string. *)
Lemma trim_empty (s : string) :
  JS.trim s = "" -> JS.whitespace_only s = true.
Proof. intros H. by apply trimStart_keeps, trimEnd_empty. Qed.

End StringFacts.

(** ** The static fallback data *)

Example getMockPatentResults_quantum :
  SimpleUSPTOService.getMockPatentResults "Quantum sensors" = SimpleUSPTOService.quantum_patents.
Proof. reflexivity. Qed.

Example getMockPatentResults_crypto :
  SimpleUSPTOService.getMockPatentResults "crypto wallet" = SimpleUSPTOService.blockchain_patents.
Proof. reflexivity. Qed.

Example getMockPatentResults_generic :
  SimpleUSPTOService.getMockPatentResults "xyz123nonsense"
  = SimpleUSPTOService.generic_patents "xyz123nonsense".
Proof. reflexivity. Qed.

(** The fallback list has two or three records, whatever the query. *)
Lemma getMockPatentResults_length (query : string) :
  length (SimpleUSPTOService.getMockPatentResults query) = 3%nat
  \/ length (SimpleUSPTOService.getMockPatentResults query) = 2%nat.
Proof.
  unfold SimpleUSPTOService.getMockPatentResults.
  repeat case_match; simpl; auto.
Qed.

Lemma getMockPatentResults_nonempty (query : string) :
  SimpleUSPTOService.getMockPatentResults query <> [].
Proof.
  intros H. destruct (getMockPatentResults_length query) as [Hl | Hl];
    rewrite H in Hl; discriminate.
Qed.

(** C8 (as the code behaves): the fallback generator is a function of the
    query, but a query that contains "blockchain" never reaches the
    blockchain data set: "blockchain" contains "ai", so the first test of
    [getMockPatentResults] already succeeds and the artificial-intelligence
    data set is returned, which differs from the blockchain one. *)
Theorem blockchain_query_gets_ai_patents (query : string) :
  JS.includes (JS.toLowerCase query) "blockchain" = true ->
  SimpleUSPTOService.getMockPatentResults query = SimpleUSPTOService.ai_patents
  /\ SimpleUSPTOService.getMockPatentResults query <> SimpleUSPTOService.blockchain_patents.
Proof.
  intros Hq.
  assert (Hai : JS.includes (JS.toLowerCase query) "ai" = true).
  { by apply (includes_trans _ "blockchain"). }
  assert (Heq : SimpleUSPTOService.getMockPatentResults query = SimpleUSPTOService.ai_patents).
  { unfold SimpleUSPTOService.getMockPatentResults. by rewrite Hai, orb_true_r. }
  split; [done |]. rewrite Heq. discriminate.
Qed.

Lemma blockchain_query_gets_ai_patents_witness :
  JS.includes (JS.toLowerCase "Blockchain ledger") "blockchain" = true
  /\ SimpleUSPTOService.getMockPatentResults "Blockchain ledger" = SimpleUSPTOService.ai_patents
  /\ SimpleUSPTOService.getMockPatentResults "Blockchain ledger"
     <> SimpleUSPTOService.blockchain_patents.
Proof.
  split; [reflexivity |].
  apply (blockchain_query_gets_ai_patents "Blockchain ledger"). reflexivity.
Defined.

(** C10: the trademark search answers every query and every limit with the
    same two synthetic records, whose marks are the upper-cased query and
    the upper-cased query followed by " PLUS"; it reads no oracle and leaves
    the state (the request log and the driver) as it was. *)
Theorem searchTrademarks_two_synthetic_records (query : string) (limit : Z) (w : World) :
  exists first second,
    SimpleUSPTOService.searchTrademarks query limit w = (Ok [first; second], w)
    /\ mark first = Some (JS.toUpperCase query)
    /\ mark second = Some (JS.toUpperCase query +:+ " PLUS").
Proof. eexists _, _. split; [reflexivity |]. split; reflexivity. Qed.

Example searchTrademarks_ex :
  (mark <$> (SimpleUSPTOService.getMockTrademarkResults "acme"))
  = [Some "ACME"; Some "ACME PLUS"].
Proof. reflexivity. Qed.

(** ** The external-index adapter *)

Lemma mapM_Outcome_length {A B} (f : A -> Outcome B) (l : list A) (k : list B) :
  mapM f l = Ok k -> length k = length l.
Proof.
  revert k. induction l as [|x l IH]; intros k; simpl.
  - by intros [= <-].
  - destruct (f x); simpl; [|done].
    destruct (mapM f l); simpl; [|done].
    intros [= <-]. simpl. f_equal. by apply IH.
Qed.


(** The adapter catches everything: it always returns a list. *)
Lemma searchPatentsViaGoogleAPI_returns axios_get (query : string) (limit : Z) (w : World) :
  exists records w',
    SimpleUSPTOService.searchPatentsViaGoogleAPI axios_get query limit w = (Ok records, w').
Proof.
  unfold SimpleUSPTOService.searchPatentsViaGoogleAPI, try_catch.
  match goal with |- context [match ?body w with _ => _ end] => destruct (body w) as [[records | e] w'] end;
    eauto.
Qed.

(** C6: on an empty or white-space query the external-index adapter returns
    the empty list at once; the request log is the one it started with, so
    no HTTP request was made, whatever the endpoint would have answered. *)
Theorem searchPatentsViaGoogleAPI_blank_query axios_get (query : string) (limit : Z) (w : World) :
  JS.whitespace_only query = true ->
  SimpleUSPTOService.searchPatentsViaGoogleAPI axios_get query limit w = (Ok [], w).
Proof.
  intros Hq. unfold SimpleUSPTOService.searchPatentsViaGoogleAPI, try_catch.
  rewrite (bool_decide_eq_true_2 (JS.trim query = "")) by by apply trim_whitespace.
  by rewrite orb_true_r.
Qed.

Lemma searchPatentsViaGoogleAPI_blank_query_witness :
  JS.whitespace_only "   " = true
  /\ SimpleUSPTOService.searchPatentsViaGoogleAPI
       (fun _ => Ok (JObj [("results", JObj [("cluster", JArr [JObj []])])]))
       "   " 20 {| driver := false; requests := [] |}
     = (Ok [], {| driver := false; requests := [] |}).
Proof.
  split; [reflexivity |].
  apply (searchPatentsViaGoogleAPI_blank_query _ "   " 20). reflexivity.
Defined.

(** A query with a visible character does reach the endpoint. *)
Example searchPatentsViaGoogleAPI_request :
  (SimpleUSPTOService.searchPatentsViaGoogleAPI (fun _ => Throw "ECONNREFUSED")
     "solar cell" 20 {| driver := false; requests := [] |})
  = (Ok [], {| driver := false;
               requests := [ {| req_url := "https://patents.google.com/xhr/query";
                                req_params_url := "q=solar%20cell&oq=solar%20cell" |} ] |}).
Proof. reflexivity. Qed.

(** C5 (as the code behaves): on a response in the documented format, two
    clusters holding four results, with limit 3, the adapter returns one
    placeholder record per cluster instead of the first three results; on a
    response in the shape it does read, the title keeps its markup. *)
Theorem searchPatentsViaGoogleAPI_one_record_per_cluster :
  (SimpleUSPTOService.searchPatentsViaGoogleAPI (fun _ => Ok documented_envelope)
     "artificial intelligence" 3 fresh).1
  = Ok [placeholder_record; placeholder_record]
  /\ title <$> (match (SimpleUSPTOService.searchPatentsViaGoogleAPI
                         (fun _ => Ok single_result_envelope) "artificial intelligence" 3 fresh).1 with
                | Ok records => records
                | Throw _ => []
                end)
     = [JStr "System for <b>artificial</b> intelligence"].
Proof. split; reflexivity. Qed.


(** ** The browser adapter *)

Ltac run_monad :=
  unfold mbind, M_bind, mret, M_ret, try_catch, gets, modify, lift in *; simpl in *.

Lemma ensure_driver_cases browser (w : World) :
  (exists w', SeleniumUSPTOService.ensure_driver browser w = (Ok (), w')
              /\ requests w' = requests w)
  \/ (exists e, SeleniumUSPTOService.ensure_driver browser w = (Throw e, w)).
Proof.
  unfold SeleniumUSPTOService.ensure_driver, SeleniumUSPTOService.initialize. run_monad.
  destruct (driver w); [left; eauto |].
  destruct (SeleniumUSPTOService.build browser); [left | right]; eauto.
Qed.

Lemma searchPatentsPublic_requests browser query limit (w w' : World) o :
  SeleniumUSPTOService.searchPatentsPublic browser query limit w = (o, w') ->
  requests w' = requests w.
Proof.
  unfold SeleniumUSPTOService.searchPatentsPublic. run_monad.
  destruct (ensure_driver_cases browser w) as [(w1 & -> & Hr) | (e & ->)]; by intros [= _ <-].
Qed.

Lemma searchGooglePatents_requests browser query limit (w w' : World) o :
  SeleniumUSPTOService.searchGooglePatents browser query limit w = (o, w') ->
  requests w' = requests w.
Proof.
  unfold SeleniumUSPTOService.searchGooglePatents. run_monad.
  destruct (ensure_driver_cases browser w) as [(w1 & -> & Hr) | (e & ->)]; by intros [= _ <-].
Qed.

(** The browser adapter makes no HTTP request of the axios instance. *)
Lemma selenium_searchPatents_requests browser query limit (w w' : World) o :
  SeleniumUSPTOService.searchPatents browser query limit w = (o, w') ->
  requests w' = requests w.
Proof.
  unfold SeleniumUSPTOService.searchPatents. run_monad.
  destruct (SeleniumUSPTOService.searchPatentsPublic browser query limit w)
    as [[r1 | e1] w1] eqn:H1; apply searchPatentsPublic_requests in H1;
    [| by intros [= _ <-]].
  destruct (length r1 =? 0)%nat.
  - destruct (SeleniumUSPTOService.searchGooglePatents browser query limit w1)
      as [[r2 | e2] w2] eqn:H2; apply searchGooglePatents_requests in H2;
      [| intros [= _ <-]; congruence].
    destruct (length r2 =? 0)%nat; intros [= _ <-]; congruence.
  - simpl. destruct (length r1 =? 0)%nat; by intros [= _ <-].
Qed.

Lemma getMockResults_length (query : string) (limit : Z) :
  1 <= limit ->
  length (SeleniumUSPTOService.getMockResults query limit) = Z.to_nat (Z.min limit 2).
Proof.
  intros Hl. unfold SeleniumUSPTOService.getMockResults, JS.slice0.
  destruct (limit <? 0) eqn:Hneg; [lia |].
  rewrite length_take. simpl. lia.
Qed.

Lemma getMockResults_nonempty (query : string) (limit : Z) :
  1 <= limit -> SeleniumUSPTOService.getMockResults query limit <> [].
Proof.
  intros Hl H. apply (f_equal length) in H.
  rewrite getMockResults_length in H by done. simpl in H. lia.
Qed.





Example getMockResults_ex :
  length (SeleniumUSPTOService.getMockResults "q" 20) = 2%nat
  /\ length (SeleniumUSPTOService.getMockResults "q" 1) = 1%nat
  /\ SeleniumUSPTOService.getMockResults "q" 0 = [].
Proof. repeat split; reflexivity. Qed.

(** C4 (as stated, refuted): the browser starts, and the wait for a results
    container times out on Patent Public Search and on Google Patents, so
    both targets yield no record; the adapter nevertheless returns two
    records, its own mock data. *)
Lemma selenium_without_results_not_empty :
  (SeleniumUSPTOService.searchPatentsPublic barren_browser "xyz123nonsense" 20 fresh).1 = Ok []
  /\ (SeleniumUSPTOService.searchGooglePatents barren_browser "xyz123nonsense" 20
        (set_driver true fresh)).1 = Ok []
  /\ (SeleniumUSPTOService.searchPatents barren_browser "xyz123nonsense" 20 fresh).1 <> Ok []
  /\ length (match (SeleniumUSPTOService.searchPatents barren_browser "xyz123nonsense" 20 fresh).1 with
             | Ok records => records
             | Throw _ => []
             end) = 2%nat.
Proof. repeat split; try reflexivity. discriminate. Qed.

(** C4 (amended): when neither Patent Public Search nor Google Patents
    yields a record, the browser adapter does not throw and returns its own
    mock data, two records built from the query and cut to the limit. For a
    limit of at least 1 this list is not empty, so the orchestrator returns
    it as the search result and does not go on to the external index: no
    HTTP request is made. *)
Theorem selenium_without_results_returns_mock browser (query : string) (limit : Z)
    (w w1 w2 : World) :
  SeleniumUSPTOService.searchPatentsPublic browser query limit w = (Ok [], w1) ->
  SeleniumUSPTOService.searchGooglePatents browser query limit w1 = (Ok [], w2) ->
  SeleniumUSPTOService.searchPatents browser query limit w
  = (Ok (SeleniumUSPTOService.getMockResults query limit), w2)
  /\ (1 <= limit ->
      SeleniumUSPTOService.getMockResults query limit <> []
      /\ requests w2 = requests w
      /\ forall axios_get,
           SimpleUSPTOService.searchPatents true browser axios_get query limit w
           = (Ok (SeleniumUSPTOService.getMockResults query limit), w2)).
Proof.
  intros H1 H2.
  assert (Hrun : SeleniumUSPTOService.searchPatents browser query limit w
                 = (Ok (SeleniumUSPTOService.getMockResults query limit), w2)).
  { unfold SeleniumUSPTOService.searchPatents. run_monad. rewrite H1. simpl. by rewrite H2. }
  split; [done |]. intros Hl.
  split; [by apply getMockResults_nonempty |].
  split; [by apply selenium_searchPatents_requests in Hrun |].
  intros axios_get. unfold SimpleUSPTOService.searchPatents. run_monad. rewrite Hrun.
  rewrite getMockResults_length by done.
  destruct (0 <? Z.to_nat (Z.min limit 2))%nat eqn:Hpos; [done |].
  apply Nat.ltb_ge in Hpos. lia.
Qed.

Lemma selenium_without_results_returns_mock_witness :
  SeleniumUSPTOService.searchPatents barren_browser "xyz123nonsense" 20 fresh
  = (Ok (SeleniumUSPTOService.getMockResults "xyz123nonsense" 20), set_driver true fresh)
  /\ SimpleUSPTOService.searchPatents true barren_browser offline "xyz123nonsense" 20 fresh
     = (Ok (SeleniumUSPTOService.getMockResults "xyz123nonsense" 20), set_driver true fresh).
Proof.
  destruct (selenium_without_results_returns_mock barren_browser "xyz123nonsense" 20
              fresh (set_driver true fresh) (set_driver true fresh)) as [Hrun Hrest].
  - reflexivity.
  - reflexivity.
  - split; [exact Hrun |]. destruct Hrest as (_ & _ & Horch); [lia |]. apply Horch.
Defined.

(** ** The orchestrator *)

Lemma length_pos_nonempty {A} (l : list A) : (0 <? length l)%nat = true -> l <> [].
Proof. by destruct l. Qed.

Lemma length_zero_empty {A} (l : list A) : (0 <? length l)%nat = false -> l = [].
Proof. by destruct l. Qed.

(** What the orchestrator does once the browser adapter has not produced
    the result: the external index, then the mock data. *)
Lemma searchPatents_after_selenium axios_get (query : string) (limit : Z) (w1 : World) :
  exists records w',
    (googleResults ← SimpleUSPTOService.searchPatentsViaGoogleAPI axios_get query limit;
     if (0 <? length googleResults)%nat then mret googleResults
     else mret (SimpleUSPTOService.getMockPatentResults query)) w1 = (Ok records, w')
    /\ records <> []
    /\ (exhausted (SimpleUSPTOService.searchPatentsViaGoogleAPI axios_get query limit w1).1 ->
        records = SimpleUSPTOService.getMockPatentResults query).
Proof.
  destruct (searchPatentsViaGoogleAPI_returns axios_get query limit w1) as (g & w' & Hg).
  run_monad. rewrite Hg. simpl.
  destruct (0 <? length g)%nat eqn:Hlen.
  - exists g, w'. split; [done |]. split; [by apply length_pos_nonempty |].
    intros ->. discriminate.
  - exists (SimpleUSPTOService.getMockPatentResults query), w'.
    split; [done |]. split; [apply getMockPatentResults_nonempty | done].
Qed.

(** The run of [searchPatents] in full: it returns, its list is not empty,
    and the list is the fallback data once the live adapters are exhausted. *)
Lemma searchPatents_run (useSelenium : bool) browser axios_get
    (query : string) (limit : Z) (w : World) :
  exists records w',
    SimpleUSPTOService.searchPatents useSelenium browser axios_get query limit w
    = (Ok records, w')
    /\ records <> []
    /\ ((useSelenium = true ->
         exhausted (SeleniumUSPTOService.searchPatents browser query limit w).1) ->
        exhausted (SimpleUSPTOService.searchPatentsViaGoogleAPI axios_get query limit
                     (after_selenium useSelenium browser query limit w)).1 ->
        records = SimpleUSPTOService.getMockPatentResults query).
Proof.
  unfold SimpleUSPTOService.searchPatents, after_selenium.
  destruct useSelenium.
  - destruct (SeleniumUSPTOService.searchPatents browser query limit w)
      as [[s | e] w1] eqn:Hsel.
    + destruct (0 <? length s)%nat eqn:Hlen.
      * exists s, w1. run_monad. rewrite Hsel. simpl. rewrite Hlen. simpl.
        split; [done |]. split; [by apply length_pos_nonempty |].
        intros Hs _. specialize (Hs eq_refl). by subst s.
      * destruct (searchPatents_after_selenium axios_get query limit w1)
          as (records & w' & Hrun & Hne & Hmock).
        exists records, w'. run_monad. rewrite Hsel. simpl. rewrite Hlen. simpl.
        split; [done |]. split; [done |]. intros _. apply Hmock.
    + destruct (searchPatents_after_selenium axios_get query limit w1)
        as (records & w' & Hrun & Hne & Hmock).
      exists records, w'. run_monad. rewrite Hsel. simpl.
      split; [done |]. split; [done |]. intros _. apply Hmock.
  - destruct (searchPatents_after_selenium axios_get query limit w)
      as (records & w' & Hrun & Hne & Hmock).
    exists records, w'. run_monad.
    split; [done |]. split; [done |]. intros _. apply Hmock.
Qed.

(** C1: the patent search of the orchestrator never throws and always
    returns a non-empty list; when the browser adapter (if enabled) throws
    or returns no record and the external-index adapter returns no record,
    the list is the output of the static fallback generator, a function of
    the query alone. *)
Theorem searchPatents_never_throws (useSelenium : bool) browser axios_get
    (query : string) (limit : Z) (w : World) :
  (exists records w',
      SimpleUSPTOService.searchPatents useSelenium browser axios_get query limit w
      = (Ok records, w')
      /\ records <> [])
  /\ ((useSelenium = true ->
       exhausted (SeleniumUSPTOService.searchPatents browser query limit w).1) ->
      exhausted (SimpleUSPTOService.searchPatentsViaGoogleAPI axios_get query limit
                   (after_selenium useSelenium browser query limit w)).1 ->
      (SimpleUSPTOService.searchPatents useSelenium browser axios_get query limit w).1
      = Ok (SimpleUSPTOService.getMockPatentResults query)
      /\ SimpleUSPTOService.getMockPatentResults query <> []).
Proof.
  destruct (searchPatents_run useSelenium browser axios_get query limit w)
    as (records & w' & Hrun & Hne & Hmock).
  rewrite Hrun. split; [eauto |].
  intros Hs Hg. simpl. rewrite (Hmock Hs Hg).
  split; [done | apply getMockPatentResults_nonempty].
Qed.

Lemma searchPatents_never_throws_witness :
  (SimpleUSPTOService.searchPatents true broken_browser offline "xyz123nonsense" 20 fresh).1
  = Ok (SimpleUSPTOService.getMockPatentResults "xyz123nonsense")
  /\ SimpleUSPTOService.getMockPatentResults "xyz123nonsense" <> [].
Proof.
  apply (searchPatents_never_throws true broken_browser offline "xyz123nonsense" 20 fresh).
  - intros _. exact I.
  - reflexivity.
Defined.

(** Scenario 3 of the specification: every adapter comes back empty and the
    generic fallback set is returned. *)
Example searchPatents_scenario_3 :
  (SimpleUSPTOService.searchPatents false broken_browser
     (fun _ => Ok (JObj [("results", JObj [])])) "xyz123nonsense" 20 fresh).1
  = Ok (SimpleUSPTOService.generic_patents "xyz123nonsense").
Proof. reflexivity. Qed.


(** C2 (as the code behaves): with a limit of 1 and every live adapter
    exhausted, the orchestrator returns the three records of the static
    fallback, which take no account of the limit. *)
Theorem searchPatents_fallback_ignores_limit :
  (SimpleUSPTOService.searchPatents false broken_browser offline "xyz123nonsense" 1 fresh).1
  = Ok (SimpleUSPTOService.generic_patents "xyz123nonsense")
  /\ length (SimpleUSPTOService.generic_patents "xyz123nonsense") = 3%nat
  /\ ~ (Z.of_nat (length (SimpleUSPTOService.generic_patents "xyz123nonsense")) <= 1).
Proof. split; [reflexivity |]. split; [reflexivity |]. simpl. lia. Qed.

(** ** De-duplication *)

Section FilterUnseen.
Context {A : Type} (key : A -> string).

Lemma first_with_key_cons (k : string) (item : A) (rest : list A) :
  USPTOCrawler.first_with_key key k (item :: rest)
  = if decide (key item = k) then Some item else USPTOCrawler.first_with_key key k rest.
Proof.
  unfold USPTOCrawler.first_with_key. rewrite filter_cons. by case_decide.
Qed.

(** No key that was already seen comes out. *)
Lemma filter_unseen_fresh (seen : gset string) (items : list A) (k : string) :
  k ∈ key <$> USPTOCrawler.filter_unseen key seen items -> k ∉ seen.
Proof.
  revert seen. induction items as [|item rest IH]; intros seen; simpl.
  - by intros ?%elem_of_nil.
  - case_decide as Hseen; [by apply IH |].
    rewrite fmap_cons, elem_of_cons. intros [-> | Hin]; [done |].
    apply IH in Hin. set_solver.
Qed.

Lemma filter_unseen_NoDup (seen : gset string) (items : list A) :
  NoDup (key <$> USPTOCrawler.filter_unseen key seen items).
Proof.
  revert seen. induction items as [|item rest IH]; intros seen; simpl.
  - constructor.
  - case_decide as Hseen; [by apply IH |].
    rewrite fmap_cons. constructor; [| by apply IH].
    intros Hin%filter_unseen_fresh. set_solver.
Qed.

Lemma filter_unseen_sublist (seen : gset string) (items : list A) :
  USPTOCrawler.filter_unseen key seen items `sublist_of` items.
Proof.
  revert seen. induction items as [|item rest IH]; intros seen; simpl.
  - constructor.
  - case_decide; [by apply sublist_cons | by apply sublist_skip].
Qed.

(** The first record with a given key is the same before and after, unless
    the key was seen before the traversal started. *)
Lemma filter_unseen_first (seen : gset string) (items : list A) (k : string) :
  USPTOCrawler.first_with_key key k (USPTOCrawler.filter_unseen key seen items)
  = if decide (k ∈ seen) then None else USPTOCrawler.first_with_key key k items.
Proof.
  revert seen. induction items as [|item rest IH]; intros seen; simpl.
  - by case_decide.
  - destruct (decide (key item ∈ seen)) as [Hseen | Hseen].
    + rewrite IH, first_with_key_cons.
      destruct (decide (k ∈ seen)); [done |].
      destruct (decide (key item = k)); [congruence | done].
    + rewrite !first_with_key_cons, IH.
      destruct (decide (key item = k)) as [<- | Hne].
      * by rewrite decide_False.
      * destruct (decide (k ∈ seen)).
        -- rewrite decide_True; [done | by apply elem_of_union_r].
        -- rewrite decide_False; [done |].
           intros [Hk%elem_of_singleton | Hk]%elem_of_union; [congruence | done].
Qed.

End FilterUnseen.

(** C3: after de-duplication no two records have the same key (the patent
    number, else the application number; for trademarks the serial number,
    else the registration number); the kept records are a subsequence of the
    input, so their relative order is unchanged; and for every key the first
    record carrying it is the same in the output as in the input, so the
    first occurrence is kept and every later one is dropped. *)
Theorem deduplication_first_occurrence_wins :
  (forall patents : list USPTOCrawler.PatentResult,
      NoDup (USPTOCrawler.patentKey <$> USPTOCrawler.deduplicatePatents patents)
      /\ USPTOCrawler.deduplicatePatents patents `sublist_of` patents
      /\ forall k,
           USPTOCrawler.first_with_key USPTOCrawler.patentKey k
             (USPTOCrawler.deduplicatePatents patents)
           = USPTOCrawler.first_with_key USPTOCrawler.patentKey k patents)
  /\ (forall trademarks : list USPTOCrawler.TrademarkResult,
         NoDup (USPTOCrawler.trademarkKey <$> USPTOCrawler.deduplicateTrademarks trademarks)
         /\ USPTOCrawler.deduplicateTrademarks trademarks `sublist_of` trademarks
         /\ forall k,
              USPTOCrawler.first_with_key USPTOCrawler.trademarkKey k
                (USPTOCrawler.deduplicateTrademarks trademarks)
              = USPTOCrawler.first_with_key USPTOCrawler.trademarkKey k trademarks).
Proof.
  split; intros items;
    (split; [apply filter_unseen_NoDup |]);
    (split; [apply filter_unseen_sublist |]);
    intros k; unfold USPTOCrawler.deduplicatePatents, USPTOCrawler.deduplicateTrademarks;
    rewrite filter_unseen_first; (rewrite decide_False; [done | set_solver]).
Qed.

(** Scenario 4 of the specification: the same patent number reported twice
    with different titles; the record met first survives. *)
Example deduplicatePatents_scenario_4 :
  USPTOCrawler.deduplicatePatents
    [ patent_record (Some "US11234567") None (Some "Widget");
      patent_record (Some "US10000001") None (Some "Gadget");
      patent_record (Some "US11234567") None (Some "Improved widget") ]
  = [ patent_record (Some "US11234567") None (Some "Widget");
      patent_record (Some "US10000001") None (Some "Gadget") ].
Proof. reflexivity. Qed.

(** An empty patent number counts as absent, and the application number of
    one record can collide with the patent number of another. *)
Example deduplicatePatents_keys :
  USPTOCrawler.patentKey (patent_record (Some "") (Some "16/123456") None) = "16/123456"
  /\ USPTOCrawler.patentKey (patent_record None None (Some "Untitled")) = ""
  /\ USPTOCrawler.deduplicatePatents
       [ patent_record (Some "16/123456") None (Some "granted");
         patent_record None (Some "16/123456") (Some "application") ]
     = [ patent_record (Some "16/123456") None (Some "granted") ].
Proof. repeat split; reflexivity. Qed.

(** ** The content classifier *)

Example identifyUSPTOContent_examples :
  Crawl4AIService.identifyUSPTOContent
    (page (Some "Patent Center") (Some "Status of your APPLICATION")) = "patent-application"
  /\ Crawl4AIService.identifyUSPTOContent
       (page None (Some "trademark registration certificate")) = "trademark-registration"
  /\ Crawl4AIService.identifyUSPTOContent
       (page None (Some "a patent and a trademark")) = "patent-general"
  /\ Crawl4AIService.identifyUSPTOContent
       (page (Some "Decisions") (Some "Patent Trial and Appeal Board")) = "patent-general"
  /\ Crawl4AIService.identifyUSPTOContent
       (page (Some "Decisions") (Some "Trial and Appeal Board")) = "ptab-decision"
  /\ Crawl4AIService.identifyUSPTOContent (page None None) = "general".
Proof. repeat split; reflexivity. Qed.

(** C7 (as stated, refuted): a page whose title reads "Patent Application
    Publication" and whose content is empty mentions "patent" and
    "application" in its lower-cased title+content, so the priority list of
    the specification gives "patent-application"; the code gives
    "patent-general", because it looks for "application" in the content
    only. *)
Lemma identifyUSPTOContent_title_only :
  first_match spec_rules (JS.toLowerCase "Patent Application Publication") (JS.toLowerCase "")
  = "patent-application"
  /\ Crawl4AIService.identifyUSPTOContent (page (Some "Patent Application Publication") None)
     = "patent-general"
  /\ Crawl4AIService.identifyUSPTOContent (page (Some "Patent Application Publication") None)
     <> first_match spec_rules (JS.toLowerCase "Patent Application Publication") (JS.toLowerCase "").
Proof. repeat split; try reflexivity. discriminate. Qed.

(** C7 (amended): the classifier is a function of the lower-cased title and
    the lower-cased content and returns the type of the first matching rule
    in this order: patent-application ("patent" in content or title, and
    "application" in the content), patent-grant ("patent" in content or
    title, and "grant" in the content), patent-general ("patent" in content
    or title), trademark-registration, trademark-application and
    trademark-general (likewise with "trademark", "registration" and
    "application"), ptab-decision ("ptab" or "trial and appeal" in the
    content), and general otherwise. *)
Theorem identifyUSPTOContent_priority (crawlResult : Crawl4AIService.CrawlResult) :
  Crawl4AIService.identifyUSPTOContent crawlResult
  = first_match code_rules
      (JS.toLowerCase (Crawl4AIService.or_empty (Crawl4AIService.title crawlResult)))
      (JS.toLowerCase (Crawl4AIService.or_empty (Crawl4AIService.content crawlResult))).
Proof.
  unfold Crawl4AIService.identifyUSPTOContent, code_rules, first_match.
  repeat match goal with |- context [JS.includes ?s ?k] =>
    let b := fresh "b" in generalize (JS.includes s k); intros b
  end.
  repeat match goal with b : bool |- _ => destruct b end; reflexivity.
Qed.

(** ** The batched crawl *)

Example batches_ex :
  batches ["a"; "b"; "c"; "d"; "e"; "f"; "g"] = [["a"; "b"; "c"; "d"; "e"]; ["f"; "g"]]
  /\ batches ["a"; "b"; "c"; "d"; "e"] = [["a"; "b"; "c"; "d"; "e"]]
  /\ batches [] = [].
Proof. repeat split; reflexivity. Qed.

Lemma batches_nonempty (urls : list string) : urls <> [] -> batches urls <> [].
Proof. destruct urls; [done |]. by simp batches. Qed.

Lemma batches_concat (urls : list string) : concat (batches urls) = urls.
Proof.
  funelim (batches urls); [done |].
  simpl. simpl in H. rewrite H. f_equal. apply take_drop.
Qed.

Lemma batches_sizes (urls : list string) :
  Forall (fun b : list string => (1 <= length b <= 5)%nat) (batches urls).
Proof.
  funelim (batches urls); [constructor |].
  constructor; [| done].
  simpl. rewrite length_take. lia.
Qed.

(** Every batch but the last one is full. *)
Lemma batches_full (urls : list string) (k : nat) (b : list string) :
  batches urls !! k = Some b -> (S k < length (batches urls))%nat -> length b = 5%nat.
Proof.
  revert k. funelim (batches urls); intros k; [done |].
  destruct k as [|k]; simpl.
  - intros [= <-] Hmore.
    destruct (drop 4 rest) as [|x xs] eqn:Hd.
    + simp batches in Hmore. simpl in Hmore. lia.
    + assert (4 < length rest)%nat; [| rewrite length_cons, length_take; lia].
      destruct (decide (4 < length rest)%nat); [done |].
      rewrite drop_ge in Hd by lia. done.
  - intros Hk Hmore. apply (H b k); [done | lia].
Qed.

Lemma crawlFrom_unfold process config (urls : list string) options (i : nat)
    (results : list Crawl4AIService.CrawlResult) :
  Crawl4AIService.crawlFrom process config urls options i results
  = if decide (i < length urls)%nat then
      modify (Crawl4AIService.emit
                (Crawl4AIService.Launched
                   (Crawl4AIService.slice urls i (i + Crawl4AIService.batchSize))));;
      batchResults ← mapM (fun url => Crawl4AIService.crawl process config url options)
                       (Crawl4AIService.slice urls i (i + Crawl4AIService.batchSize));
      (if decide (i + Crawl4AIService.batchSize < length urls)%nat
       then Crawl4AIService.delay 1000 else mret ());;
      Crawl4AIService.crawlFrom process config urls options (i + Crawl4AIService.batchSize)%nat
        (results ++ batchResults)
    else mret results.
Proof.
  simp crawlFrom. destruct (decide (i < length urls)%nat); by simp crawlFrom.
Qed.

Lemma schedule_cons (b : list string) (rest : list (list string)) :
  schedule (b :: rest)
  = Crawl4AIService.Launched b
    :: (if decide (rest = []) then [] else Crawl4AIService.Paused 1000 :: schedule rest).
Proof. by destruct rest. Qed.

(** One crawl by a service that is ready: the result for the URL, the
    service being initialised afterwards and the trace untouched. *)
Lemma crawl_run process config options (url : string) (s : Crawl4AIService.State) :
  ready process s ->
  exists s',
    Crawl4AIService.crawl process config url options s
    = (Ok (crawled process config options url), s')
    /\ Crawl4AIService.trace s' = Crawl4AIService.trace s
    /\ Crawl4AIService.isInitialized s' = true.
Proof.
  intros Hready. unfold Crawl4AIService.crawl, Crawl4AIService.initialize. run_monad.
  destruct (Crawl4AIService.isInitialized s) eqn:Hinit; simpl.
  - by exists s.
  - destruct Hready as [Hr | Hr]; [congruence |]. rewrite Hr. simpl.
    eexists. split; [reflexivity |]. by simpl.
Qed.

(** A batch crawled by a service that is ready. *)
Lemma crawl_batch_run process config options (batch : list string) (s : Crawl4AIService.State) :
  ready process s ->
  exists s',
    mapM (fun url => Crawl4AIService.crawl process config url options) batch s
    = (Ok (crawled process config options <$> batch), s')
    /\ Crawl4AIService.trace s' = Crawl4AIService.trace s
    /\ ready process s'.
Proof.
  revert s. induction batch as [|url batch IH]; intros s Hready.
  - by exists s.
  - destruct (crawl_run process config options url s Hready) as (s1 & Hrun & Htrace & Hinit).
    destruct (IH s1) as (s2 & Hrest & Htrace2 & Hready2); [by left |].
    exists s2.
    change ((y ← Crawl4AIService.crawl process config url options;
             k ← mapM (fun url => Crawl4AIService.crawl process config url options) batch;
             mret (y :: k)) s = (Ok (crawled process config options <$> url :: batch), s2)
            /\ Crawl4AIService.trace s2 = Crawl4AIService.trace s
            /\ ready process s2).
    unfold mbind at 1. unfold M_bind at 1. rewrite Hrun.
    unfold mbind at 1. unfold M_bind at 1. rewrite Hrest. simpl.
    split; [done |]. split; [congruence | done].
Qed.

(** The loop from index [i], with [n] bounding what is left of the list. *)
Lemma crawlFrom_run process config (urls : list string) options (n : nat) :
  forall (i : nat) (results : list Crawl4AIService.CrawlResult) (s : Crawl4AIService.State),
    (length urls - i <= n)%nat ->
    ready process s ->
    exists s',
      Crawl4AIService.crawlFrom process config urls options i results s
      = (Ok (results ++ (crawled process config options <$> drop i urls)), s')
      /\ Crawl4AIService.trace s'
         = Crawl4AIService.trace s ++ schedule (batches (drop i urls)).
Proof.
  induction n as [|n IH]; intros i results s Hn Hready;
    rewrite crawlFrom_unfold; destruct (decide (i < length urls)%nat) as [Hi | Hi];
    try lia.
  - exists s. rewrite drop_ge by lia. simp batches. simpl. by rewrite !app_nil_r.
  - unfold Crawl4AIService.slice, Crawl4AIService.batchSize.
    replace (i + 5 - i)%nat with 5%nat by lia.
    set (batch := take 5 (drop i urls)).
    set (s0 := Crawl4AIService.emit (Crawl4AIService.Launched batch) s).
    assert (Hready0 : ready process s0) by exact Hready.
    destruct (crawl_batch_run process config options batch s0 Hready0)
      as (s1 & Hbatch & Htrace1 & Hready1).
    unfold mbind at 1. unfold M_bind at 1. unfold modify at 1.
    unfold mbind at 1. unfold M_bind at 1. fold s0. rewrite Hbatch.
    assert (Hsplit : results ++ (crawled process config options <$> drop i urls)
                     = (results ++ (crawled process config options <$> batch))
                       ++ (crawled process config options <$> drop (i + 5) urls)).
    { unfold batch. by rewrite <- app_assoc, <- fmap_app, <- drop_drop, take_drop. }
    assert (Hbatches : batches (drop i urls) = batch :: batches (drop (i + 5) urls)).
    { unfold batch. rewrite <- drop_drop. destruct (drop i urls) as [|u rest] eqn:Hd.
      - apply (f_equal length) in Hd. rewrite length_drop in Hd. simpl in Hd. lia.
      - by simp batches. }
    rewrite Hbatches, schedule_cons, Hsplit.
    destruct (decide (i + 5 < length urls)%nat) as [Hmore | Hlast].
    + unfold mbind at 1. unfold M_bind at 1. unfold Crawl4AIService.delay, modify.
      destruct (IH (i + 5)%nat (results ++ (crawled process config options <$> batch))
                  (Crawl4AIService.emit (Crawl4AIService.Paused 1000) s1))
        as (s2 & Hrest & Htrace2); [lia | exact Hready1 |].
      exists s2. split; [exact Hrest |].
      rewrite Htrace2. simpl. rewrite Htrace1. simpl.
      rewrite decide_False.
      * by rewrite <- !app_assoc.
      * apply batches_nonempty. intros Hd. apply (f_equal length) in Hd.
        rewrite length_drop in Hd. simpl in Hd. lia.
    + unfold mbind at 1. unfold M_bind at 1. simpl.
      destruct (IH (i + 5)%nat (results ++ (crawled process config options <$> batch)) s1)
        as (s2 & Hrest & Htrace2); [lia | exact Hready1 |].
      exists s2. split; [exact Hrest |].
      rewrite Htrace2, Htrace1. rewrite (drop_ge urls (i + 5)) by lia.
      simp batches. simpl. by rewrite !app_nil_r.
  - exists s. rewrite drop_ge by lia. simp batches. simpl. by rewrite !app_nil_r.
Qed.

Lemma crawled_url process config options (urls : list string) :
  Crawl4AIService.url <$> (crawled process config options <$> urls) = urls.
Proof.
  induction urls as [|u urls IH]; [done |].
  rewrite !fmap_cons, IH. f_equal.
  unfold crawled, Crawl4AIService.toCrawlResult. by destruct (Crawl4AIService.python _ _ _).
Qed.

(** C9 (as stated, refuted): the service is not initialised and Crawl4AI
    cannot be installed; [crawl] lets the failure of [initialize] through,
    so [crawlMultiple] throws on a list of one URL and returns no
    [CrawlResult] at all. *)
Lemma crawlMultiple_throws_when_not_installed :
  (Crawl4AIService.crawlMultiple missing_process Crawl4AIService.default_config
     ["https://www.uspto.gov/patents"] no_options cold).1
  = Throw "Please install Crawl4AI manually: pip install crawl4ai"
  /\ ~ (exists results s',
          Crawl4AIService.crawlMultiple missing_process Crawl4AIService.default_config
            ["https://www.uspto.gov/patents"] no_options cold = (Ok results, s')).
Proof.
  split; [reflexivity |]. intros (results & s' & H).
  apply (f_equal fst) in H. discriminate H.
Qed.

(** C9 (amended): when the service is initialised, or its initialisation
    succeeds, [crawlMultiple] returns for every list of URLs exactly one
    [CrawlResult] per URL, in the order of the list, each being the result
    of crawling that URL; the URLs are launched batch after batch, the
    batches being the consecutive groups of at most five URLs, with a pause
    of one second between two successive batches and none after the last. *)
Theorem crawlMultiple_one_result_per_url process config (urls : list string) options
    (s : Crawl4AIService.State) :
  ready process s ->
  exists results s',
    Crawl4AIService.crawlMultiple process config urls options s = (Ok results, s')
    /\ results = (crawled process config options <$> urls)
    /\ length results = length urls
    /\ (Crawl4AIService.url <$> results) = urls
    /\ Crawl4AIService.trace s' = Crawl4AIService.trace s ++ schedule (batches urls)
    /\ concat (batches urls) = urls
    /\ Forall (fun b : list string => (1 <= length b <= 5)%nat) (batches urls).
Proof.
  intros Hready.
  destruct (crawlFrom_run process config urls options (length urls) 0%nat [] s)
    as (s' & Hrun & Htrace); [lia | done |].
  exists (crawled process config options <$> urls), s'.
  split; [exact Hrun |]. split; [done |].
  split; [by rewrite length_fmap |].
  split; [apply crawled_url |].
  split; [exact Htrace |].
  split; [apply batches_concat | apply batches_sizes].
Qed.

Lemma crawlMultiple_one_result_per_url_witness :
  exists results s',
    Crawl4AIService.crawlMultiple working_process Crawl4AIService.default_config
      ["https://www.uspto.gov/1"; "https://www.uspto.gov/2"; "https://example.org/3";
       "https://www.uspto.gov/4"; "https://www.uspto.gov/5"; "https://www.uspto.gov/6"]
      no_options cold = (Ok results, s')
    /\ length results = 6%nat
    /\ Crawl4AIService.trace s'
       = [ Crawl4AIService.Launched
             ["https://www.uspto.gov/1"; "https://www.uspto.gov/2"; "https://example.org/3";
              "https://www.uspto.gov/4"; "https://www.uspto.gov/5"];
           Crawl4AIService.Paused 1000;
           Crawl4AIService.Launched ["https://www.uspto.gov/6"] ].
Proof.
  destruct (crawlMultiple_one_result_per_url working_process Crawl4AIService.default_config
              ["https://www.uspto.gov/1"; "https://www.uspto.gov/2"; "https://example.org/3";
               "https://www.uspto.gov/4"; "https://www.uspto.gov/5"; "https://www.uspto.gov/6"]
              no_options cold)
    as (results & s' & Hrun & _ & Hlen & _ & Htrace & _).
  - right. reflexivity.
  - exists results, s'. split; [exact Hrun |]. split; [exact Hlen | exact Htrace].
Defined.

(** Without a working installation a non-empty list makes the batched crawl
    throw in its first batch. *)
Lemma crawlMultiple_not_ready process config (url : string) (urls : list string) options
    (s : Crawl4AIService.State) (e : string) :
  Crawl4AIService.isInitialized s = false ->
  Crawl4AIService.install_and_verify process = Throw e ->
  (Crawl4AIService.crawlMultiple process config (url :: urls) options s).1 = Throw e.
Proof.
  intros Hinit Hinstall. unfold Crawl4AIService.crawlMultiple.
  rewrite crawlFrom_unfold. rewrite decide_True by (simpl; lia).
  unfold Crawl4AIService.slice, Crawl4AIService.batchSize. simpl.
  change (mapM ?f (url :: ?l)) with (y ← f url; k ← mapM f l; mret (y :: k)).
  unfold Crawl4AIService.crawl, Crawl4AIService.initialize. run_monad.
  by rewrite Hinit, Hinstall.
Qed.

(** A failing extraction process does not make the crawl throw: the URL
    gets an unsuccessful result. *)
Example crawlMultiple_failed_extraction :
  (Crawl4AIService.success <$> match (Crawl4AIService.crawlMultiple working_process
                        Crawl4AIService.default_config
                        ["https://www.uspto.gov/1"; "https://example.org/3"] no_options cold).1 with
               | Ok results => results
               | Throw _ => []
               end)
  = [true; false].
Proof. reflexivity. Qed.

(** * Further properties *)

(** ** The external-index adapter, continued *)

Lemma mapM_Outcome_Forall2 {A B} (f : A -> Outcome B) (l : list A) (k : list B) :
  mapM f l = Ok k -> Forall2 (fun x y => f x = Ok y) l k.
Proof.
  revert k. induction l as [|x l IH]; intros k; simpl.
  - intros [= <-]. constructor.
  - destruct (f x) as [y | e] eqn:Hx; simpl; [|done].
    destruct (mapM f l) as [k' | e]; simpl; [|done].
    intros [= <-]. constructor; [done | by apply IH].
Qed.

Lemma mapM_Outcome_Ok {A B} (f : A -> Outcome B) (l : list A) :
  Forall (fun x => exists y, f x = Ok y) l -> exists k, mapM f l = Ok k.
Proof.
  induction 1 as [|x l [y Hy] _ [k Hk]]; simpl; [by eexists |].
  rewrite Hy. simpl. rewrite Hk. simpl. by eexists.
Qed.

Lemma mapM_Outcome_Throw {A B} (f : A -> Outcome B) (l : list A) :
  Exists (fun x => exists e, f x = Throw e) l -> exists e, mapM f l = Throw e.
Proof.
  induction 1 as [x l [e He] | x l _ [e He]]; simpl.
  - rewrite He. by eexists.
  - destruct (f x); simpl; [| by eexists]. rewrite He. by eexists.
Qed.

Lemma or_truthy (a b : json) : Json.truthy b = true -> Json.truthy (Json.or a b) = true.
Proof. intros Hb. unfold Json.or. by destruct (Json.truthy a) eqn:Ha. Qed.

Lemma truthy_not_nullish (v : json) : Json.truthy v = true -> nullish v = false.
Proof. by destruct v. Qed.

Lemma prop_field (v : json) (k : string) : nullish v = false -> Json.prop v k = Ok (field v k).
Proof. by destruct v. Qed.

Lemma opt_prop_returns (v : json) (k : string) : exists x, Json.opt_prop v k = Ok x.
Proof. destruct v; simpl; by eexists. Qed.

Lemma patentInfo_truthy (cluster : json) : Json.truthy (patentInfo_of cluster) = true.
Proof. by apply or_truthy. Qed.

Lemma inventor_names (invs : list json) :
  match mapM (fun inv : json => name ← Json.prop inv "name";
                                mret (Json.or name (JStr "Unknown"))) invs with
  | Ok names => existsb nullish invs = false
                /\ length names = length invs
                /\ forallb Json.truthy names = true
  | Throw _ => existsb nullish invs = true
  end.
Proof.
  induction invs as [|inv invs IH]; simpl; [done |].
  destruct (nullish inv) eqn:Hn.
  - by destruct inv.
  - rewrite (prop_field inv "name" Hn). simpl.
    destruct (mapM _ invs) as [names | e]; simpl; [| done].
    destruct IH as (IH1 & IH2 & IH3). split; [done |]. split; [by f_equal |].
    by rewrite or_truthy.
Qed.

(** What [formatCluster] does, cluster by cluster: it throws on a [null]
    cluster and on inventors it cannot map, and otherwise returns a record
    whose fields are all filled in. *)
Lemma formatCluster_cases (cluster : json) :
  match SimpleUSPTOService.formatCluster cluster with
  | Ok r => nullish cluster = false /\ bad_inventors (inventor_of cluster) = false
            /\ populated r = true
  | Throw _ => nullish cluster = true \/ bad_inventors (inventor_of cluster) = true
  end.
Proof.
  unfold SimpleUSPTOService.formatCluster.
  destruct (nullish cluster) eqn:Hc; [destruct cluster; try discriminate; simpl; by left |].
  rewrite (prop_field cluster "result" Hc). simpl.
  set (result := Json.or (field cluster "result") (JObj [])).
  assert (Hr : nullish result = false) by by apply truthy_not_nullish, or_truthy.
  rewrite (prop_field result "patent" Hr). simpl.
  fold (patentInfo_of cluster). set (patentInfo := patentInfo_of cluster).
  assert (Hp : nullish patentInfo = false) by apply truthy_not_nullish, patentInfo_truthy.
  rewrite !(prop_field patentInfo _ Hp), !(prop_field result _ Hr). simpl.
  destruct (opt_prop_returns (field result "title") "text") as [tt ->]. simpl.
  destruct (opt_prop_returns (field result "snippet") "text") as [st ->]. simpl.
  set (inv := field patentInfo "inventor").
  change (inventor_of cluster) with inv. unfold bad_inventors.
  destruct (opt_prop_returns
              (Json.first (Json.or (field patentInfo "assignee") (JArr []))) "name") as [an Han].
  assert (Hfill : forall names : list json,
             names = [] \/ forallb Json.truthy names = true ->
             populated
               {| patentNumber :=
                    Json.or (Json.or (field patentInfo "publication_number")
                               (field patentInfo "patent_number")) (JStr "N/A");
                  title := Json.or tt (JStr "Untitled");
                  abstract := Json.or st (JStr "No abstract available");
                  inventors := if (0 <? length names)%nat then JArr names
                               else Json.strings ["Not listed"];
                  applicant := Json.or an (JStr "Not Available");
                  filingDate :=
                    Json.or (Json.or (field patentInfo "filing_date")
                               (field patentInfo "application_date")) (JStr "N/A");
                  grantDate :=
                    Json.or (Json.or (field patentInfo "grant_date")
                               (field patentInfo "publication_date")) (JStr "N/A");
                  url :=
                    Json.or (field result "link")
                      (JStr ("https://patents.google.com/patent/" +:+
                             Json.toString
                               (Json.or (Json.or (field patentInfo "publication_number")
                                           (field patentInfo "patent_number")) (JStr "N/A")))) |}
             = true).
  { intros names Hnames. unfold populated. simpl. rewrite !or_truthy by done. simpl.
    destruct names as [|n names]; simpl; [done |]. by destruct Hnames. }
  destruct inv as [| | s | invs | fs].
  - simpl. rewrite Han. simpl. split; [done |]. split; [done |]. apply (Hfill []). by left.
  - simpl. rewrite Han. simpl. split; [done |]. split; [done |]. apply (Hfill []). by left.
  - destruct (decide (s = "")) as [-> | Hs].
    + simpl. rewrite Han. simpl. split; [done |]. split; [done |]. apply (Hfill []). by left.
    + assert (Ht : Json.truthy (JStr s) = true) by (simpl; by rewrite bool_decide_eq_false_2).
      replace (Json.or (JStr s) (JArr [])) with (JStr s) by (unfold Json.or; by rewrite Ht).
      rewrite Ht. simpl. by right.
  - simpl. pose proof (inventor_names invs) as Hnames.
    destruct (mapM _ invs) as [names | e]; simpl; [| by right].
    destruct Hnames as (Hn1 & Hn2 & Hn3). rewrite Han. simpl.
    split; [done |]. split; [done |]. apply Hfill. by right.
  - simpl. by right.
Qed.

Lemma nonblank_guard (query : string) :
  JS.whitespace_only query = false ->
  bool_decide (query = "") || bool_decide (JS.trim query = "") = false.
Proof.
  intros Hq. apply orb_false_iff. split; apply bool_decide_eq_false_2.
  - intros ->. discriminate.
  - intros Ht%trim_empty. congruence.
Qed.

(** The run of the adapter on a query with a visible character: one request,
    and either no record or the records of the clusters of the response. *)
Lemma google_run axios_get (query : string) (limit : Z) (w : World) :
  JS.whitespace_only query = false ->
  exists records,
    SimpleUSPTOService.searchPatentsViaGoogleAPI axios_get query limit w
    = (Ok records, log_request (google_request query) w)
    /\ (records = []
        \/ exists data cs,
             axios_get (google_request query) = Ok data /\ has_clusters data cs
             /\ mapM SimpleUSPTOService.formatCluster (JS.slice0 cs limit) = Ok records).
Proof.
  intros Hq. unfold SimpleUSPTOService.searchPatentsViaGoogleAPI, try_catch.
  rewrite (nonblank_guard query Hq).
  unfold mbind, M_bind, SimpleUSPTOService.axiosGet, lift. fold (google_request query).
  destruct (axios_get (google_request query)) as [data | e] eqn:Hdata; simpl; [| eauto].
  destruct (Json.truthy data) eqn:Htd; simpl; [| eauto].
  destruct (Json.prop data "results") as [results | e] eqn:Hres; simpl; [| eauto].
  destruct (Json.truthy results) eqn:Htr; simpl; [| eauto].
  destruct (Json.prop results "cluster") as [clusters | e] eqn:Hcl; simpl; [| eauto].
  destruct (Json.truthy clusters) eqn:Htc; simpl; [| eauto].
  destruct clusters as [| | s | cs | fs]; simpl; eauto.
  destruct (mapM _ _) as [records | e] eqn:Hmap; simpl; [| eauto].
  exists records. split; [done |]. right. exists data, cs.
  split; [done |]. split; [by exists results | done].
Qed.





(** X2: every record the external-index adapter returns is filled in: its
    patent number, title, abstract, applicant, dates and URL are non-empty
    (a placeholder stands in for what the response lacks) and it lists at
    least one inventor, each with a non-empty name. *)
Theorem searchPatentsViaGoogleAPI_records_populated axios_get (query : string) (limit : Z)
    (w w' : World) (records : list PatentSearchResult) :
  SimpleUSPTOService.searchPatentsViaGoogleAPI axios_get query limit w = (Ok records, w') ->
  Forall (fun r => populated r = true) records.
Proof.
  destruct (JS.whitespace_only query) eqn:Hq.
  - unfold SimpleUSPTOService.searchPatentsViaGoogleAPI, try_catch.
    rewrite (bool_decide_eq_true_2 (JS.trim query = "")) by by apply trim_whitespace.
    rewrite orb_true_r. by intros [= <- _].
  - destruct (google_run axios_get query limit w Hq) as (r & -> & Hr).
    intros [= <- _]. destruct Hr as [-> | (data & cs & _ & _ & Hmap)]; [constructor |].
    apply mapM_Outcome_Forall2 in Hmap.
    induction Hmap as [|c x cs' r' Hc _ IH]; constructor; [| done].
    pose proof (formatCluster_cases c) as Hcases. rewrite Hc in Hcases. apply Hcases.
Qed.

Lemma searchPatentsViaGoogleAPI_records_populated_witness :
  Forall (fun r => populated r = true) [placeholder_record; placeholder_record].
Proof.
  apply (searchPatentsViaGoogleAPI_records_populated (fun _ => Ok documented_envelope)
           "artificial intelligence" 3 fresh
           (log_request (google_request "artificial intelligence") fresh)).
  reflexivity.
Defined.

(** X3: the callback of the external-index adapter throws on a cluster
    exactly when the cluster is [null] or [undefined], or when its
    [patent.inventor] is something [map] cannot be called on: a non-empty
    string, an object, or an array with a [null] entry. *)
Theorem formatCluster_throws (cluster : json) :
  (exists e, SimpleUSPTOService.formatCluster cluster = Throw e)
  <-> nullish cluster = true \/ bad_inventors (inventor_of cluster) = true.
Proof.
  pose proof (formatCluster_cases cluster) as Hcases.
  destruct (SimpleUSPTOService.formatCluster cluster) as [r | e].
  - destruct Hcases as (Hn & Hb & _). split; [by intros [e He] |].
    intros [H | H]; congruence.
  - split; [done | eauto].
Qed.

(** X4: the external-index adapter is all or nothing. When the response
    carries a list of clusters, the adapter returns one record for each of
    the clusters that [slice(0, limit)] keeps if the callback succeeds on
    all of them, and no record at all as soon as it throws on one of them. *)
Theorem searchPatentsViaGoogleAPI_all_or_nothing axios_get (query : string) (limit : Z)
    (w : World) (data : json) (cs : list json) :
  JS.whitespace_only query = false ->
  axios_get (google_request query) = Ok data ->
  has_clusters data cs ->
  exists records,
    (SimpleUSPTOService.searchPatentsViaGoogleAPI axios_get query limit w).1 = Ok records
    /\ (Forall (fun c => exists r, SimpleUSPTOService.formatCluster c = Ok r) (JS.slice0 cs limit) ->
        length records = length (JS.slice0 cs limit))
    /\ (Exists (fun c => exists e, SimpleUSPTOService.formatCluster c = Throw e) (JS.slice0 cs limit) ->
        records = []).
Proof.
  intros Hq Hdata (results & Htd & Hres & Htr & Hcl).
  unfold SimpleUSPTOService.searchPatentsViaGoogleAPI, try_catch.
  rewrite (nonblank_guard query Hq).
  unfold mbind, M_bind, SimpleUSPTOService.axiosGet, lift. fold (google_request query).
  rewrite Hdata. simpl. rewrite Htd. simpl. rewrite Hres. simpl. rewrite Htr. simpl.
  rewrite Hcl. simpl.
  destruct (mapM _ _) as [records | e] eqn:Hmap; simpl.
  - exists records. split; [done |]. split.
    + intros _. by apply mapM_Outcome_length in Hmap.
    + intros [e He]%mapM_Outcome_Throw. congruence.
  - exists []. split; [done |]. split; [| done].
    intros [k Hk]%mapM_Outcome_Ok. congruence.
Qed.

Lemma searchPatentsViaGoogleAPI_all_or_nothing_witness :
  exists records,
    (SimpleUSPTOService.searchPatentsViaGoogleAPI (fun _ => Ok string_inventor_envelope)
       "ladar" 20 fresh).1 = Ok records
    /\ records = [].
Proof.
  destruct (searchPatentsViaGoogleAPI_all_or_nothing (fun _ => Ok string_inventor_envelope)
              "ladar" 20 fresh string_inventor_envelope
              [ JObj [("result",
                       JObj [("patent", JObj [("publication_number", JStr "US11074495B2")])])];
                JObj [("result",
                       JObj [("patent", JObj [("publication_number", JStr "US10000000B2");
                                              ("inventor", JStr "John Doe")])])] ])
    as (records & Hrun & _ & Hnone).
  - reflexivity.
  - reflexivity.
  - eexists. repeat split; reflexivity.
  - exists records. split; [exact Hrun |]. apply Hnone.
    apply Exists_cons_tl, Exists_cons_hd. eexists. reflexivity.
Defined.



(** ** The status check of the orchestrator *)

Lemma filter_chars_all (p : ascii -> bool) (s : string) :
  all_chars p (JS.filter_chars p s) = true.
Proof.
  induction s as [|c s IH]; simpl; [done |].
  destruct (p c) eqn:Hc; simpl; [by rewrite Hc | done].
Qed.

Lemma filter_chars_id (p : ascii -> bool) (s : string) :
  all_chars p s = true -> JS.filter_chars p s = s.
Proof.
  induction s as [|c s IH]; simpl; [done |].
  intros [Hc Hs]%andb_true_iff. rewrite Hc. by rewrite IH.
Qed.

(** X6: [checkTrademarkStatus] never throws and makes exactly one GET, to
    the status page of the digits of the serial number (every other
    character is removed before the URL is built). Its answer carries the
    serial number as it was given and is one of two fixed records: "LIVE"
    exactly when the page answers with status 200 and can be parsed,
    "PENDING EXAMINATION" in every other case, failures included. *)
Theorem checkTrademarkStatus_answers http_get cheerio_load (serialNumber : string) (w : World) :
  exists status,
    SimpleUSPTOService.checkTrademarkStatus http_get cheerio_load serialNumber w
    = (Ok status, log_request (status_request serialNumber) w)
    /\ SimpleUSPTOService.ts_serialNumber status = serialNumber
    /\ (status = SimpleUSPTOService.live_status serialNumber
        \/ status = SimpleUSPTOService.pending_status serialNumber)
    /\ (status = SimpleUSPTOService.live_status serialNumber
        <-> exists data, http_get (SimpleUSPTOService.statusUrl serialNumber) = Ok (200, data)
                         /\ cheerio_load data = Ok ())
    /\ all_chars JS.is_digit (SimpleUSPTOService.digits serialNumber) = true.
Proof.
  unfold SimpleUSPTOService.checkTrademarkStatus, SimpleUSPTOService.httpGet.
  run_monad. fold (status_request serialNumber).
  assert (Hdigits : all_chars JS.is_digit (SimpleUSPTOService.digits serialNumber) = true)
    by apply filter_chars_all.
  destruct (http_get (SimpleUSPTOService.statusUrl serialNumber)) as [[code data] | e]; simpl.
  - destruct (code =? 200) eqn:Hcode; simpl.
    + apply Z.eqb_eq in Hcode. subst code.
      destruct (cheerio_load data) as [[] | e] eqn:Hload; simpl.
      * eexists. split; [reflexivity |]. split; [done |]. split; [by left |].
        split; [| done]. split; [intros _; by exists data | done].
      * eexists. split; [reflexivity |]. split; [done |]. split; [by right |].
        split; [| done]. split; [done |]. intros (data' & [= <-] & Hl). congruence.
    + apply Z.eqb_neq in Hcode.
      eexists. split; [reflexivity |]. split; [done |]. split; [by right |].
      split; [| done]. split; [done |]. intros (data' & [= ? _] & _). done.
  - eexists. split; [reflexivity |]. split; [done |]. split; [by right |].
    split; [| done]. split; [done |]. by intros (data' & ? & _).
Qed.

Example checkTrademarkStatus_ex :
  SimpleUSPTOService.checkTrademarkStatus tsdr_up parses "88/123,456" fresh
  = (Ok (SimpleUSPTOService.live_status "88/123,456"),
     {| driver := false;
        requests := [ {| req_url := "https://tsdr.uspto.gov/statusview/sn88123456";
                         req_params_url := "" |} ] |}).
Proof. reflexivity. Qed.

(** ** The browser adapter, continued *)

Lemma ensure_driver_run browser (w : World) :
  SeleniumUSPTOService.ensure_driver browser w
  = if driver w then (Ok (), w)
    else match SeleniumUSPTOService.build browser with
         | Ok _ => (Ok (), set_driver true w)
         | Throw e => (Throw e, w)
         end.
Proof.
  unfold SeleniumUSPTOService.ensure_driver, SeleniumUSPTOService.initialize. run_monad.
  by destruct (driver w).
Qed.

Lemma searchPatentsPublic_run browser (query : string) (limit : Z) (w : World) :
  SeleniumUSPTOService.searchPatentsPublic browser query limit w
  = if driver w then (Ok (public_scan browser query limit), w)
    else match SeleniumUSPTOService.build browser with
         | Ok _ => (Ok (public_scan browser query limit), set_driver true w)
         | Throw e => (Throw e, w)
         end.
Proof.
  unfold SeleniumUSPTOService.searchPatentsPublic.
  unfold mbind at 1. unfold M_bind at 1. rewrite ensure_driver_run.
  destruct (driver w); [done |]. by destruct (SeleniumUSPTOService.build browser).
Qed.

Lemma searchGooglePatents_run browser (query : string) (limit : Z) (w : World) :
  SeleniumUSPTOService.searchGooglePatents browser query limit w
  = if driver w then (Ok (google_scan browser query limit), w)
    else match SeleniumUSPTOService.build browser with
         | Ok _ => (Ok (google_scan browser query limit), set_driver true w)
         | Throw e => (Throw e, w)
         end.
Proof.
  unfold SeleniumUSPTOService.searchGooglePatents.
  unfold mbind at 1. unfold M_bind at 1. rewrite ensure_driver_run.
  destruct (driver w); [done |]. by destruct (SeleniumUSPTOService.build browser).
Qed.

(** The list the browser adapter returns once the driver exists. *)
Lemma selenium_results browser (query : string) (limit : Z) :
  exists records,
    (forall w, driver w = true ->
        SeleniumUSPTOService.searchPatents browser query limit w = (Ok records, w))
    /\ (records = public_scan browser query limit
        \/ records = google_scan browser query limit
        \/ records = SeleniumUSPTOService.getMockResults query limit).
Proof.
  destruct (length (public_scan browser query limit) =? 0)%nat eqn:Hp;
    [destruct (length (google_scan browser query limit) =? 0)%nat eqn:Hg |].
  - exists (SeleniumUSPTOService.getMockResults query limit). split; [| auto].
    intros w Hd. unfold SeleniumUSPTOService.searchPatents. run_monad.
    rewrite searchPatentsPublic_run, Hd, Hp, searchGooglePatents_run, Hd. simpl. by rewrite Hg.
  - exists (google_scan browser query limit). split; [| auto].
    intros w Hd. unfold SeleniumUSPTOService.searchPatents. run_monad.
    rewrite searchPatentsPublic_run, Hd, Hp, searchGooglePatents_run, Hd. simpl. by rewrite Hg.
  - exists (public_scan browser query limit). split; [| auto].
    intros w Hd. unfold SeleniumUSPTOService.searchPatents. run_monad.
    rewrite searchPatentsPublic_run, Hd, Hp. simpl. by rewrite Hp.
Qed.

(** The run of the browser adapter from any state. *)
Lemma selenium_run browser (query : string) (limit : Z) (w : World) :
  exists records,
    (records = public_scan browser query limit
     \/ records = google_scan browser query limit
     \/ records = SeleniumUSPTOService.getMockResults query limit)
    /\ SeleniumUSPTOService.searchPatents browser query limit w
       = if driver w then (Ok records, w)
         else match SeleniumUSPTOService.build browser with
              | Ok _ => (Ok records, set_driver true w)
              | Throw e => (Throw e, w)
              end.
Proof.
  destruct (selenium_results browser query limit) as (records & Hrun & Hwhich).
  exists records. split; [done |].
  destruct (driver w) eqn:Hd; [by apply Hrun |].
  destruct (SeleniumUSPTOService.build browser) as [[] | e] eqn:Hb.
  - rewrite <- (Hrun (set_driver true w) eq_refl).
    unfold SeleniumUSPTOService.searchPatents. run_monad.
    rewrite !searchPatentsPublic_run, Hd, Hb. simpl. done.
  - unfold SeleniumUSPTOService.searchPatents. run_monad.
    by rewrite searchPatentsPublic_run, Hd, Hb.
Qed.

Lemma scan_kept {A} (extract : A -> PatentSearchResult) (l : list A) :
  Forall (fun p => SeleniumUSPTOService.kept p = true)
    (filter (fun p => SeleniumUSPTOService.kept p = true) (extract <$> l)).
Proof. apply Forall_forall. by intros p [Hp _]%list_elem_of_filter. Qed.

(** X7: every record the browser adapter returns, scraped or mock, has a
    non-empty patent number or a non-empty title: elements that yield
    neither are left out. *)
Theorem selenium_records_identified browser (query : string) (limit : Z) (w w' : World)
    (records : list PatentSearchResult) :
  SeleniumUSPTOService.searchPatents browser query limit w = (Ok records, w') ->
  Forall (fun p => SeleniumUSPTOService.kept p = true) records.
Proof.
  destruct (selenium_run browser query limit w) as (r & Hwhich & ->).
  assert (Hr : Forall (fun p => SeleniumUSPTOService.kept p = true) r).
  { destruct Hwhich as [-> | [-> | ->]].
    - unfold public_scan. destruct (SeleniumUSPTOService.patent_public_search _ _);
        [apply scan_kept | constructor].
    - unfold google_scan. destruct (SeleniumUSPTOService.google_patents _ _);
        [apply scan_kept | constructor].
    - unfold SeleniumUSPTOService.getMockResults, JS.slice0. apply Forall_take.
      repeat constructor. }
  destruct (driver w); [by intros [= <- _] |].
  destruct (SeleniumUSPTOService.build browser); [by intros [= <- _] | done].
Qed.

Lemma selenium_records_identified_witness :
  Forall (fun p => SeleniumUSPTOService.kept p = true)
    (SeleniumUSPTOService.getMockResults "xyz123nonsense" 20).
Proof.
  apply (selenium_records_identified barren_browser "xyz123nonsense" 20 fresh
           (set_driver true fresh)).
  reflexivity.
Defined.

(** X8: the browser adapter throws in one case only: there is no driver yet
    and building one fails. It then throws the error of the build and
    leaves the state as it was; every failure after that (navigation,
    waiting, reading an element) is swallowed. *)
Theorem selenium_throws_iff_no_driver browser (query : string) (limit : Z) (w w' : World)
    (e : string) :
  SeleniumUSPTOService.searchPatents browser query limit w = (Throw e, w')
  <-> driver w = false /\ SeleniumUSPTOService.build browser = Throw e /\ w' = w.
Proof.
  destruct (selenium_run browser query limit w) as (r & _ & ->).
  destruct (driver w).
  - split; [done | by intros (? & _)].
  - destruct (SeleniumUSPTOService.build browser) as [[] | e'].
    + split; [done | by intros (_ & ? & _)].
    + split; [by intros [= -> ->] | by intros (_ & [= ->] & ->)].
Qed.

(** X9: a search of the browser adapter that returns leaves the driver in
    place, and with a driver in place no later search throws or builds
    another driver, even through a browser that can no longer be started:
    the session is reused, never released by a search. *)
Theorem selenium_session_reused browser (query : string) (limit : Z) (w w' : World)
    (records : list PatentSearchResult) :
  SeleniumUSPTOService.searchPatents browser query limit w = (Ok records, w') ->
  driver w' = true
  /\ forall later (query' : string) (limit' : Z),
       exists records',
         SeleniumUSPTOService.searchPatents later query' limit' w' = (Ok records', w').
Proof.
  intros Hrun.
  assert (Hd : driver w' = true).
  { destruct (selenium_run browser query limit w) as (r & _ & Heq). rewrite Heq in Hrun.
    destruct (driver w) eqn:Hdw; [by injection Hrun as _ <- |].
    destruct (SeleniumUSPTOService.build browser); [by injection Hrun as _ <- | done]. }
  split; [done |]. intros later query' limit'.
  destruct (selenium_results later query' limit') as (r' & Hr' & _).
  exists r'. by apply Hr'.
Qed.

Lemma selenium_session_reused_witness :
  exists records',
    SeleniumUSPTOService.searchPatents broken_browser "second search" 5 (set_driver true fresh)
    = (Ok records', set_driver true fresh).
Proof.
  destruct (selenium_session_reused barren_browser "xyz123nonsense" 20 fresh
              (set_driver true fresh)
              (SeleniumUSPTOService.getMockResults "xyz123nonsense" 20)) as [_ Hlater].
  - reflexivity.
  - apply (Hlater broken_browser "second search" 5).
Defined.



(** With a negative limit the bound is lost: [slice(0, -1)] keeps one mock
    record. *)
Example selenium_negative_limit :
  length (SeleniumUSPTOService.getMockResults "xyz123nonsense" (-1)) = 1%nat.
Proof. reflexivity. Qed.

Lemma last_span_cons (p : string -> bool) (t : string) (rest : list string) (default : json) :
  last_span p (t :: rest) default
  = if p t then last_span p rest (JStr t) else last_span p rest default.
Proof.
  unfold last_span. rewrite filter_cons.
  destruct (p t) eqn:Hp.
  - rewrite decide_True by done. rewrite last_cons. by destruct (last _).
  - rewrite decide_False by congruence. done.
Qed.

Lemma metadata_last (spans : list string) (filing grant : json) :
  SeleniumUSPTOService.metadata spans filing grant
  = (last_span sets_filing spans filing, last_span sets_grant spans grant).
Proof.
  revert filing grant. induction spans as [|t rest IH]; intros filing grant; [done |].
  rewrite !last_span_cons. simpl. unfold sets_filing, sets_grant.
  destruct (JS.includes t "Filed"); simpl; [apply IH |].
  destruct (JS.includes t "Granted" || JS.includes t "Published"); apply IH.
Qed.

(** X11: of the metadata spans of a Google Patents result, the last one that
    contains "Filed" becomes the filing date, and the last one that
    contains "Granted" or "Published" but not "Filed" becomes the grant
    date; a date with no such span stays absent. *)
Theorem extractGoogle_dates (e : SeleniumUSPTOService.GoogleElement) :
  filingDate (SeleniumUSPTOService.extractGoogle e)
  = last_span sets_filing (SeleniumUSPTOService.ge_metadata e) JUndef
  /\ grantDate (SeleniumUSPTOService.extractGoogle e)
     = last_span sets_grant (SeleniumUSPTOService.ge_metadata e) JUndef.
Proof. unfold SeleniumUSPTOService.extractGoogle. simpl. by rewrite metadata_last. Qed.

Example extractGoogle_dates_ex :
  let r := SeleniumUSPTOService.extractGoogle
             (google_element "US1" ["Filed 2019"; "Published 2020"; "Filed and Granted 2021";
                                    "Granted 2022"; "cited by 3"]) in
  filingDate r = JStr "Filed and Granted 2021" /\ grantDate r = JStr "Granted 2022".
Proof. split; reflexivity. Qed.

(** ** Search URLs and TESS queries *)

Lemma all_chars_app (p : ascii -> bool) (a b : string) :
  all_chars p (a +:+ b) = all_chars p a && all_chars p b.
Proof.
  induction a as [|x a IH]; [done |].
  change (all_chars p (String x (a +:+ b)) = all_chars p (String x a) && all_chars p b).
  simpl. by rewrite IH, andb_assoc.
Qed.

Lemma count_char_app (c : ascii) (a b : string) :
  count_char c (a +:+ b) = (count_char c a + count_char c b)%nat.
Proof.
  induction a as [|x a IH]; [done |].
  change (count_char c (String x (a +:+ b))
          = (count_char c (String x a) + count_char c b)%nat).
  simpl. rewrite IH. lia.
Qed.

Lemma count_char_absent (p : ascii -> bool) (c : ascii) (s : string) :
  all_chars p s = true -> p c = false -> count_char c s = 0%nat.
Proof.
  intros Hs Hc. induction s as [|x s IH]; simpl in *; [done |].
  apply andb_true_iff in Hs as [Hx Hs]. rewrite (IH Hs).
  destruct (decide (x = c)); [congruence | done].
Qed.

Lemma all_chars_weaken (p q : ascii -> bool) (s : string) :
  (forall c, p c = true -> q c = true) -> all_chars p s = true -> all_chars q s = true.
Proof.
  intros Hpq. induction s as [|x s IH]; simpl; [done |].
  intros [Hx Hs]%andb_true_iff. by rewrite (Hpq x Hx), IH.
Qed.

Lemma percent_encoded (c : ascii) : all_chars encoded_char (JS.percent c) = true.
Proof.
  assert (Hhex : forall n, (n < 16)%nat -> encoded_char (JS.hex_digit n) = true).
  { intros n Hn. do 16 (destruct n as [|n]; [reflexivity |]). lia. }
  assert (Hlow : (JS.code c mod 16 < 16)%nat) by (apply Nat.mod_upper_bound; lia).
  assert (Hhigh : (JS.code c / 16 < 16)%nat).
  { apply Nat.Div0.div_lt_upper_bound. unfold JS.code. pose proof (nat_ascii_bounded c). lia. }
  unfold JS.percent. revert Hlow Hhigh.
  generalize (JS.code c mod 16)%nat (JS.code c / 16)%nat.
  intros low high Hlow Hhigh. simpl. by rewrite !Hhex.
Qed.

(** The serializer produces letters, digits, [* - . _], [+] and [%XX] only. *)
Lemma form_encode_chars (s : string) : all_chars encoded_char (JS.form_encode s) = true.
Proof.
  induction s as [|c s IH]; [done |].
  change (JS.form_encode (String c s))
    with ((if JS.form_safe c then String c EmptyString
           else if bool_decide (c = " "%char) then "+"
           else JS.percent c) +:+ JS.form_encode s).
  rewrite all_chars_app, IH, andb_true_r.
  destruct (JS.form_safe c) eqn:Hc.
  - simpl. unfold encoded_char. by rewrite Hc.
  - destruct (bool_decide (c = " "%char)); [done | apply percent_encoded].
Qed.

Lemma pair_chars (k v : string) :
  all_chars query_string_char (JS.form_encode k +:+ "=" +:+ JS.form_encode v) = true
  /\ count_char "=" (JS.form_encode k +:+ "=" +:+ JS.form_encode v) = 1%nat
  /\ count_char "&" (JS.form_encode k +:+ "=" +:+ JS.form_encode v) = 0%nat.
Proof.
  assert (Hq : forall s, all_chars query_string_char (JS.form_encode s) = true).
  { intros s. apply (all_chars_weaken encoded_char); [| apply form_encode_chars].
    intros c Hc. unfold query_string_char. by rewrite Hc. }
  rewrite !all_chars_app, !count_char_app, !Hq.
  rewrite !(count_char_absent encoded_char "=" _ (form_encode_chars _)) by done.
  rewrite !(count_char_absent encoded_char "&" _ (form_encode_chars _)) by done.
  done.
Qed.

(** A serialized parameter list has one [=] per pair and one [&] between
    two pairs, and no character that could start a pair of its own. *)
Lemma toStringParams_shape (pairs : list (string * string)) :
  all_chars query_string_char (JS.toStringParams pairs) = true
  /\ count_char "=" (JS.toStringParams pairs) = length pairs
  /\ count_char "&" (JS.toStringParams pairs) = Nat.pred (length pairs).
Proof.
  induction pairs as [|[k v] rest IH]; [done |].
  destruct rest as [|[k' v'] rest'].
  - apply pair_chars.
  - destruct IH as (IH1 & IH2 & IH3). destruct (pair_chars k v) as (H1 & H2 & H3).
    change (JS.toStringParams ((k, v) :: (k', v') :: rest'))
      with (JS.form_encode k +:+ "=" +:+ JS.form_encode v +:+ "&"
            +:+ JS.toStringParams ((k', v') :: rest')).
    set (tail := JS.toStringParams ((k', v') :: rest')) in *.
    rewrite !all_chars_app, !count_char_app in *.
    apply andb_true_iff in H1 as [H1a H1b]. apply andb_true_iff in H1b as [H1b H1c].
    rewrite H1a, H1c, IH1, IH2, IH3. simpl in *. split; [done |]. split; lia.
Qed.

Lemma append_if_length (name : string) (value : option string) (q : list (string * string)) :
  length (USPTOCrawler.append_if name value q)
  = (length q + if given value then 1 else 0)%nat.
Proof.
  unfold USPTOCrawler.append_if, given. destruct value as [v |]; [| simpl; lia].
  case_decide; subst; simpl.
  - lia.
  - rewrite bool_decide_eq_false_2 by done. rewrite length_app. simpl. lia.
Qed.

Lemma append_limit_length (limit : option Z) (q : list (string * string)) :
  length (USPTOCrawler.append_limit limit q)
  = (length q + if given_number limit then 1 else 0)%nat.
Proof.
  unfold USPTOCrawler.append_limit, given_number. destruct limit as [n |]; [| simpl; lia].
  case_decide; subst; simpl.
  - lia.
  - rewrite bool_decide_eq_false_2 by done. rewrite length_app. simpl. lia.
Qed.

Lemma count_true_cons (b : bool) (flags : list bool) :
  count_true (b :: flags) = ((if b then 1 else 0) + count_true flags)%nat.
Proof. unfold count_true. rewrite filter_cons. by destruct b. Qed.

(** X12: the URL of a patent search is the search page, a question mark and
    a query string with exactly one [name=value] pair for each parameter
    that is given (query, applicant, inventor, the two dates as non-empty
    strings, the limit as a non-zero number) and nothing for the others: it
    has one [=] per pair, one [&] between pairs, and otherwise only
    letters, digits, [* - . _ +] and [%XX], so no parameter text can add or
    split a pair. *)
Theorem buildPatentSearchUrl_shape (params : USPTOCrawler.USPTOSearchParams) :
  let given_parameters :=
    count_true [ given (USPTOCrawler.sp_query params);
                 given (USPTOCrawler.sp_applicant params);
                 given (USPTOCrawler.sp_inventor params);
                 given (USPTOCrawler.sp_dateFrom params);
                 given (USPTOCrawler.sp_dateTo params);
                 given_number (USPTOCrawler.sp_limit params) ] in
  exists query_string,
    USPTOCrawler.buildPatentSearchUrl params
    = "https://ppubs.uspto.gov/pubwebapp/" +:+ "?" +:+ query_string
    /\ all_chars query_string_char query_string = true
    /\ count_char "=" query_string = given_parameters
    /\ count_char "&" query_string = Nat.pred given_parameters.
Proof.
  intros n. exists (JS.toStringParams (USPTOCrawler.patentQueryParams params)).
  split; [done |].
  destruct (toStringParams_shape (USPTOCrawler.patentQueryParams params)) as (H1 & H2 & H3).
  assert (Hn : length (USPTOCrawler.patentQueryParams params) = n).
  { unfold USPTOCrawler.patentQueryParams, n.
    rewrite append_limit_length, !append_if_length, !count_true_cons. simpl.
    unfold count_true. simpl. lia. }
  by rewrite H2, H3, Hn.
Qed.

Example buildPatentSearchUrl_ex :
  USPTOCrawler.buildPatentSearchUrl (search_params (Some "solar & wind=2") (Some "") (Some 20))
  = "https://ppubs.uspto.gov/pubwebapp/?searchText=solar+%26+wind%3D2&limit=20"
  /\ USPTOCrawler.buildPatentSearchUrl (search_params None None (Some 0))
     = "https://ppubs.uspto.gov/pubwebapp/?".
Proof. split; reflexivity. Qed.

Lemma trimEnd_idempotent (s : string) : JS.trimEnd (JS.trimEnd s) = JS.trimEnd s.
Proof.
  induction s as [|c s IH]; [done |]. simpl.
  destruct (JS.trimEnd s) as [|d t] eqn:Hs.
  - destruct (JS.is_ws c) eqn:Hc; [done |]. simpl. by rewrite Hc.
  - simpl. simpl in IH. by rewrite IH.
Qed.

Lemma trimEnd_head (c : ascii) (s : string) :
  JS.is_ws c = false -> exists t, JS.trimEnd (String c s) = String c t.
Proof.
  intros Hc. simpl. destruct (JS.trimEnd s); [| by eexists].
  rewrite Hc. by eexists.
Qed.

Lemma trimStart_head (s : string) :
  JS.trimStart s = "" \/ exists c t, JS.trimStart s = String c t /\ JS.is_ws c = false.
Proof.
  induction s as [|c s IH]; simpl; [by left |].
  destruct (JS.is_ws c) eqn:Hc; [done |]. right. by exists c, s.
Qed.

(** [trim] changes nothing in a string that was trimmed. *)
Lemma trim_idempotent (s : string) : JS.trim (JS.trim s) = JS.trim s.
Proof.
  unfold JS.trim. destruct (trimStart_head s) as [-> | (c & t & -> & Hc)]; [done |].
  destruct (trimEnd_head c t Hc) as [u Hu]. rewrite Hu.
  simpl JS.trimStart. rewrite Hc. rewrite <- Hu. apply trimEnd_idempotent.
Qed.

Lemma trimStart_chars (p : ascii -> bool) (s : string) :
  all_chars p s = true -> all_chars p (JS.trimStart s) = true.
Proof.
  induction s as [|c s IH]; simpl; [done |].
  intros [Hc Hs]%andb_true_iff. destruct (JS.is_ws c); [auto |]. simpl. by rewrite Hc.
Qed.

Lemma trimEnd_chars (p : ascii -> bool) (s : string) :
  all_chars p s = true -> all_chars p (JS.trimEnd s) = true.
Proof.
  induction s as [|c s IH]; simpl; [done |].
  intros [Hc Hs]%andb_true_iff. specialize (IH Hs).
  destruct (JS.trimEnd s); [destruct (JS.is_ws c) |]; simpl in *; by rewrite ?Hc, ?IH.
Qed.

(** X13: the TESS form of a query contains only letters, digits,
    underscores, white space, [-], [*] and double quotes, has no white
    space at either end, and is its own TESS form: formatting twice is
    formatting once. *)
Theorem formatTESSQuery_clean (query : string) :
  all_chars USPTOCrawler.tess_char (USPTOCrawler.formatTESSQuery query) = true
  /\ JS.trim (USPTOCrawler.formatTESSQuery query) = USPTOCrawler.formatTESSQuery query
  /\ USPTOCrawler.formatTESSQuery (USPTOCrawler.formatTESSQuery query)
     = USPTOCrawler.formatTESSQuery query.
Proof.
  assert (Hchars : all_chars USPTOCrawler.tess_char (USPTOCrawler.formatTESSQuery query) = true).
  { apply trimEnd_chars, trimStart_chars, filter_chars_all. }
  split; [done |]. split; [apply trim_idempotent |].
  unfold USPTOCrawler.formatTESSQuery at 1. rewrite filter_chars_id by done.
  apply trim_idempotent.
Qed.

Example formatTESSQuery_ex :
  USPTOCrawler.formatTESSQuery "  acme's <b>rocket</b>-2*  " = "acmes brocketb-2*"
  /\ USPTOCrawler.formatTESSQuery "!?!" = "".
Proof. split; reflexivity. Qed.

(** X14: the URL of a trademark search is the TESS page, a question mark and
    a query string with exactly one pair for each of the query, the owner
    (the [applicant] parameter) and the status that is given; it has one [=]
    per pair, one [&] between pairs and otherwise only letters, digits,
    [* - . _ +] and [%XX]. A query that is given is sent in its TESS form
    even when that form is empty. *)
Theorem buildTrademarkSearchUrl_shape (params : USPTOCrawler.USPTOSearchParams) :
  let given_parameters :=
    count_true [ given (USPTOCrawler.sp_query params);
                 given (USPTOCrawler.sp_applicant params);
                 given (USPTOCrawler.sp_status params) ] in
  exists query_string,
    USPTOCrawler.buildTrademarkSearchUrl params
    = "https://tmsearch.uspto.gov/" +:+ "?" +:+ query_string
    /\ all_chars query_string_char query_string = true
    /\ count_char "=" query_string = given_parameters
    /\ count_char "&" query_string = Nat.pred given_parameters.
Proof.
  intros n. exists (JS.toStringParams (USPTOCrawler.trademarkQueryParams params)).
  split; [done |].
  destruct (toStringParams_shape (USPTOCrawler.trademarkQueryParams params)) as (H1 & H2 & H3).
  assert (Hn : length (USPTOCrawler.trademarkQueryParams params) = n).
  { unfold USPTOCrawler.trademarkQueryParams, n.
    rewrite !append_if_length, !count_true_cons. unfold count_true. simpl.
    unfold given. destruct (USPTOCrawler.sp_query params) as [q |]; [| simpl; lia].
    case_decide; subst; simpl; [lia |]. rewrite bool_decide_eq_false_2 by done. simpl. lia. }
  by rewrite H2, H3, Hn.
Qed.

Example buildTrademarkSearchUrl_ex :
  USPTOCrawler.buildTrademarkSearchUrl (search_params (Some "!?!") (Some "Acme, Inc.") None)
  = "https://tmsearch.uspto.gov/?q=&owner=Acme%2C+Inc."
  /\ USPTOCrawler.buildTrademarkSearchUrl (search_params (Some "rock & roll") None None)
     = "https://tmsearch.uspto.gov/?q=rock++roll".
Proof. split; reflexivity. Qed.

(** ** The extraction service, continued *)

Lemma crawl_cases process config (url : string) options (s : Crawl4AIService.State) :
  Crawl4AIService.crawl process config url options s
  = if Crawl4AIService.isInitialized s then (Ok (crawled process config options url), s)
    else match Crawl4AIService.install_and_verify process with
         | Ok _ => (Ok (crawled process config options url),
                    Crawl4AIService.set_initialized true s)
         | Throw e => (Throw e, s)
         end.
Proof.
  unfold Crawl4AIService.crawl, Crawl4AIService.initialize. run_monad.
  destruct (Crawl4AIService.isInitialized s); [done |].
  by destruct (Crawl4AIService.install_and_verify process).
Qed.

(** X15: [crawl] throws in one case only, when the service is not
    initialised and its initialisation fails; it then throws that error and
    leaves the state as it was. In every other case it returns a result for
    the URL it was given and the service is initialised afterwards; a
    failure of the extraction process (non-zero exit, timeout, unparsable
    output) gives an unsuccessful result that carries the error message and
    no extracted data. *)
Theorem crawl_outcomes process config (url : string) options (s : Crawl4AIService.State) :
  (forall e s',
      Crawl4AIService.crawl process config url options s = (Throw e, s')
      <-> Crawl4AIService.isInitialized s = false
          /\ Crawl4AIService.install_and_verify process = Throw e /\ s' = s)
  /\ (forall result s',
         Crawl4AIService.crawl process config url options s = (Ok result, s') ->
         Crawl4AIService.url result = url
         /\ Crawl4AIService.isInitialized s' = true
         /\ Crawl4AIService.trace s' = Crawl4AIService.trace s
         /\ forall e,
              Crawl4AIService.python process url (Crawl4AIService.merge config options) = Throw e ->
              Crawl4AIService.success result = false
              /\ Crawl4AIService.error result = Some e
              /\ Crawl4AIService.extractedData result = JUndef).
Proof.
  rewrite crawl_cases. split.
  - intros e s'. destruct (Crawl4AIService.isInitialized s).
    + split; [done | by intros (? & _)].
    + destruct (Crawl4AIService.install_and_verify process) as [[] | e'].
      * split; [done | by intros (_ & ? & _)].
      * split; [by intros [= -> ->] | by intros (_ & [= ->] & ->)].
  - intros result s' Hrun.
    assert (Hres : result = crawled process config options url
                   /\ Crawl4AIService.isInitialized s' = true
                   /\ Crawl4AIService.trace s' = Crawl4AIService.trace s).
    { destruct (Crawl4AIService.isInitialized s) eqn:Hi; [by injection Hrun as <- <- |].
      destruct (Crawl4AIService.install_and_verify process); [| done].
      by injection Hrun as <- <-. }
    destruct Hres as (-> & Hi & Ht). unfold crawled, Crawl4AIService.toCrawlResult.
    split; [by destruct (Crawl4AIService.python _ _ _) |]. split; [done |]. split; [done |].
    intros e ->. done.
Qed.

Lemma merge_with_strategy strategy config options :
  is_Some (Crawl4AIService.extractionStrategy options) ->
  Crawl4AIService.merge (with_strategy strategy config) options
  = Crawl4AIService.merge config options.
Proof. intros [x Hx]. unfold Crawl4AIService.merge, with_strategy. simpl. by rewrite Hx. Qed.

Lemma targeted_strategy (contentType : string) :
  is_Some (Crawl4AIService.extractionStrategy
             (Crawl4AIService.getTargetedExtractionOptions contentType)).
Proof.
  unfold Crawl4AIService.getTargetedExtractionOptions.
  repeat (destruct (_ || _) || destruct (bool_decide _)); simpl; by eexists.
Qed.

Lemma smartCrawl_cases process config (url : string) (s : Crawl4AIService.State) :
  Crawl4AIService.smartCrawl process config url s
  = if Crawl4AIService.isInitialized s then (Ok (smart process config url), s)
    else match Crawl4AIService.install_and_verify process with
         | Ok _ => (Ok (smart process config url), Crawl4AIService.set_initialized true s)
         | Throw e => (Throw e, s)
         end.
Proof.
  unfold Crawl4AIService.smartCrawl, smart, mbind, M_bind. rewrite crawl_cases.
  destruct (Crawl4AIService.isInitialized s) eqn:Hi.
  - destruct (Crawl4AIService.success _); cbn [negb]; [| done].
    rewrite crawl_cases, Hi. done.
  - destruct (Crawl4AIService.install_and_verify process); [| done].
    destruct (Crawl4AIService.success _); cbn [negb]; [| done].
    rewrite crawl_cases. done.
Qed.

(** X16: the extraction strategy configured for the service has no effect
    on [smartCrawl]: the first pass always runs with the automatic strategy
    and the second with the strategy of the content type found, so two
    services that differ in their configured strategy only give the same
    result and reach the same state. *)
Theorem smartCrawl_ignores_configured_strategy process config strategy (url : string)
    (s : Crawl4AIService.State) :
  Crawl4AIService.smartCrawl process (with_strategy strategy config) url s
  = Crawl4AIService.smartCrawl process config url s.
Proof.
  assert (Hcrawled : forall o, is_Some (Crawl4AIService.extractionStrategy o) ->
            crawled process (with_strategy strategy config) o url = crawled process config o url).
  { intros o Ho. unfold crawled. by rewrite merge_with_strategy. }
  assert (Hsmart : smart process (with_strategy strategy config) url = smart process config url).
  { unfold smart. rewrite Hcrawled by (simpl; by eexists).
    destruct (negb _); [done |]. by rewrite Hcrawled by apply targeted_strategy. }
  by rewrite !smartCrawl_cases, Hsmart.
Qed.

(** ** The crawler *)

Lemma patentOfItem_cases (item : json) :
  if nullish item then exists e, Crawler.patentOfItem item = Throw e
  else exists fields, Crawler.patentOfItem item = Ok (JObj fields).
Proof. destruct item; simpl; by eexists. Qed.

Lemma trademarkOfItem_cases (item : json) :
  if nullish item then exists e, Crawler.trademarkOfItem item = Throw e
  else exists fields, Crawler.trademarkOfItem item = Ok (JObj fields).
Proof. destruct item; simpl; by eexists. Qed.

Lemma pushItems_before_null (ofItem : json -> Outcome json) (items : list json) :
  (forall item, if nullish item then exists e, ofItem item = Throw e
                else exists fields, ofItem item = Ok (JObj fields)) ->
  length (Crawler.pushItems ofItem items) = length (before_null items)
  /\ Forall (fun record => nullish record = false) (Crawler.pushItems ofItem items).
Proof.
  intros Hof. induction items as [| item rest [IHlen IHall]]; [done |].
  simpl. specialize (Hof item). destruct (nullish item).
  - destruct Hof as [e ->]. done.
  - destruct Hof as [fields ->]. simpl. split; [by rewrite IHlen | by constructor].
Qed.

Lemma before_null_length (items : list json) : (length (before_null items) <= length items)%nat.
Proof. induction items as [| item rest IH]; simpl; [lia |]. destruct (nullish item); simpl; lia. Qed.

(** X17: the two parse functions of the crawler give one record for every
    item in front of the first [null] or [undefined] item of the extracted
    data and none for the items behind it; extracted data that is not an
    array counts as one item, and falsy extracted data gives no record.
    The records are objects, never [null]. *)
Theorem parse_results_stop_at_null (crawlResult : Crawl4AIService.CrawlResult) :
  let data := Crawl4AIService.extractedData crawlResult in
  let expected :=
    if Json.truthy data
    then match data with JArr items => length (before_null items) | _ => 1%nat end
    else 0%nat in
  (length (Crawler.parsePatentSearchResults crawlResult) = expected
   /\ Forall (fun record => nullish record = false) (Crawler.parsePatentSearchResults crawlResult))
  /\ (length (Crawler.parseTrademarkSearchResults crawlResult) = expected
      /\ Forall (fun record => nullish record = false)
           (Crawler.parseTrademarkSearchResults crawlResult)).
Proof.
  intros data expected. subst expected.
  unfold Crawler.parsePatentSearchResults, Crawler.parseTrademarkSearchResults. fold data.
  destruct (Json.truthy data) eqn:Htruthy; [| done].
  assert (Hitems : length (before_null (Crawler.items_of data))
                   = match data with JArr items => length (before_null items) | _ => 1%nat end).
  { destruct data as [| | str | xs | fields]; done. }
  rewrite <- Hitems.
  split; apply pushItems_before_null; [apply patentOfItem_cases | apply trademarkOfItem_cases].
Qed.

Lemma enrichPatent_run process config (patent url : json) (s : Crawl4AIService.State) :
  exists detailed s',
    Crawler.enrichPatent process config patent url s = (Ok detailed, s')
    /\ Crawl4AIService.trace s' = Crawl4AIService.trace s
    /\ (ready process s <-> ready process s')
    /\ (detailed = patent
        \/ exists data, Json.truthy data = true /\ detailed = Crawler.spread patent data)
    /\ (~ ready process s -> detailed = patent).
Proof.
  unfold Crawler.enrichPatent, try_catch, mbind, M_bind. rewrite smartCrawl_cases.
  unfold ready.
  destruct (Crawl4AIService.isInitialized s) eqn:Hi;
    [| destruct (Crawl4AIService.install_and_verify process) as [[] | e] eqn:Hinstall];
    try destruct (Crawl4AIService.success _ && Json.truthy _) eqn:Hok;
    try apply andb_prop in Hok as [_ Hdata];
    eexists _, _; (split; [reflexivity |]); (split; [reflexivity |]);
    (split; [simpl; rewrite ?Hi; tauto |]);
    (split; [first [by left | right; eauto] |]);
    intros Hunready; first [done | exfalso; apply Hunready; tauto | by destruct Hunready as [[=] | [=]]].
Qed.

Lemma fetchPatentDetails_run process config (patents : list json) :
  Forall (fun patent => nullish patent = false) patents ->
  forall s, exists detailed s',
    Crawler.fetchPatentDetails process config patents s = (Ok detailed, s')
    /\ Forall2 (fun record patent =>
                  record = patent
                  \/ exists data, Json.truthy data = true /\ record = Crawler.spread patent data)
         detailed (List.filter has_url patents)
    /\ Crawl4AIService.trace s' = Crawl4AIService.trace s ++ pauses (length detailed)
    /\ (~ ready process s -> detailed = List.filter has_url patents).
Proof.
  induction 1 as [| patent rest Hpatent _ IH]; intros s.
  - exists [], s. simpl. rewrite app_nil_r. split; [done |]. split; [constructor |]. done.
  - cbn [Crawler.fetchPatentDetails List.filter]. unfold mbind at 1, M_bind at 1, lift.
    rewrite (prop_field _ _ Hpatent). unfold has_url.
    destruct (Json.truthy (field patent "url")); cbn [negb].
    + unfold mbind, M_bind.
      destruct (enrichPatent_run process config patent (field patent "url") s)
        as (record & s1 & -> & Htrace1 & Hready1 & Hrecord & Hunready1).
      unfold Crawler.delay, modify.
      destruct (IH (Crawl4AIService.emit (Crawl4AIService.Paused 500) s1))
        as (others & s2 & -> & Hothers & Htrace2 & Hunready2).
      exists (record :: others), s2. split; [done |]. split; [by constructor |].
      split.
      * rewrite Htrace2. simpl. rewrite Htrace1, <- app_assoc. done.
      * intros Hunready. rewrite (Hunready1 Hunready), Hunready2; [done |].
        unfold ready in *. simpl. tauto.
    + apply IH.
Qed.

(** X18: [fetchPatentDetails] never throws on a list of records. It drops
    the records without a URL and keeps the others in their order; each
    kept record comes back either as it was or overlaid with the data
    extracted from its page, and the crawler pauses 500 ms once for every
    record it keeps and never for a dropped one. When the extraction
    service cannot be initialised the kept records come back unchanged. *)
Theorem fetchPatentDetails_keeps_records_with_url process config (patents : list json)
    (s : Crawl4AIService.State) :
  Forall (fun patent => nullish patent = false) patents ->
  exists detailed s',
    Crawler.fetchPatentDetails process config patents s = (Ok detailed, s')
    /\ Forall2 (fun record patent =>
                  record = patent
                  \/ exists data, Json.truthy data = true /\ record = Crawler.spread patent data)
         detailed (List.filter has_url patents)
    /\ Crawl4AIService.trace s' = Crawl4AIService.trace s ++ pauses (length detailed)
    /\ (~ ready process s -> detailed = List.filter has_url patents).
Proof. intros Hpatents. by apply fetchPatentDetails_run. Qed.

Lemma fetchPatentDetails_keeps_records_with_url_witness :
  exists detailed s',
    Crawler.fetchPatentDetails missing_process Crawl4AIService.default_config two_records cold
    = (Ok detailed, s')
    /\ Forall2 (fun record patent =>
                  record = patent
                  \/ exists data, Json.truthy data = true /\ record = Crawler.spread patent data)
         detailed (List.filter has_url two_records)
    /\ Crawl4AIService.trace s' = Crawl4AIService.trace cold ++ pauses (length detailed)
    /\ (~ ready missing_process cold -> detailed = List.filter has_url two_records).
Proof.
  apply (fetchPatentDetails_keeps_records_with_url missing_process
           Crawl4AIService.default_config two_records cold).
  repeat constructor.
Defined.

Lemma try_rethrow {S A} (body : M S A) (s : S) :
  try_catch body (fun error => Crawler.throw error) s = body s.
Proof. unfold try_catch, Crawler.throw. by destruct (body s) as [[a | e] s']. Qed.

Lemma searchPatents_cases process config params (s : Crawl4AIService.State) :
  let result := patent_search_crawl process config params in
  let search s1 :=
    if Crawl4AIService.success result
    then Crawler.fetchPatentDetails process config (Crawler.parsePatentSearchResults result) s1
    else (Throw ("Patent search failed: "
                 +:+ Crawler.error_text (Crawl4AIService.error result)), s1) in
  Crawler.searchPatents process config params s
  = if Crawl4AIService.isInitialized s then search s
    else match Crawl4AIService.install_and_verify process with
         | Ok _ => search (Crawl4AIService.set_initialized true s)
         | Throw e => (Throw e, s)
         end.
Proof.
  intros result search. unfold Crawler.searchPatents. rewrite try_rethrow.
  unfold mbind, M_bind. rewrite crawl_cases. fold search_options.
  fold (patent_search_crawl process config params). fold result. subst search.
  destruct (Crawl4AIService.isInitialized s) eqn:Hi.
  - by destruct (Crawl4AIService.success result).
  - destruct (Crawl4AIService.install_and_verify process) as [[] | e]; [| done].
    by destruct (Crawl4AIService.success result).
Qed.

Lemma parsed_patents_fetch process config result (s : Crawl4AIService.State) :
  exists detailed s',
    Crawler.fetchPatentDetails process config (Crawler.parsePatentSearchResults result) s
    = (Ok detailed, s')
    /\ (length detailed
        <= length (Crawler.items_of (Crawl4AIService.extractedData result)))%nat.
Proof.
  assert (Hparsed : Forall (fun record => nullish record = false)
                      (Crawler.parsePatentSearchResults result)
                    /\ (length (Crawler.parsePatentSearchResults result)
                        <= length (Crawler.items_of (Crawl4AIService.extractedData result)))%nat).
  { unfold Crawler.parsePatentSearchResults.
    destruct (Json.truthy _); [| split; [constructor | simpl; lia]].
    destruct (pushItems_before_null Crawler.patentOfItem
                (Crawler.items_of (Crawl4AIService.extractedData result)) patentOfItem_cases)
      as [Hlen Hall].
    split; [done |]. rewrite Hlen. apply before_null_length. }
  destruct Hparsed as [Hall Hlen].
  destruct (fetchPatentDetails_run process config _ Hall s)
    as (detailed & s' & Hrun & Hshape & _).
  exists detailed, s'. split; [done |].
  apply Forall2_length in Hshape. rewrite Hshape.
  etrans; [apply List.filter_length_le | done].
Qed.

(** X19: the patent search tool never throws; it answers with a count equal
    to the number of its results and echoes its arguments. It reports
    success exactly when the extraction service is, or can be,
    initialised and the crawl of the search page succeeds; otherwise the
    answer has no results. The results are never more than the items the
    search page gave, whatever [limit] asks for. *)
Theorem patentToolExecute_answers process config args owner (s : Crawl4AIService.State) :
  let result := patent_search_crawl process config args in
  exists answer s',
    Crawler.patentToolExecute process config args owner s = (Ok answer, s')
    /\ Crawler.tool_count answer = length (Crawler.tool_results answer)
    /\ Crawler.tool_query answer = (args, owner)
    /\ (Crawler.tool_success answer = true
        <-> ready process s /\ Crawl4AIService.success result = true)
    /\ (Crawler.tool_success answer = true \/ Crawler.tool_results answer = [])
    /\ (length (Crawler.tool_results answer)
        <= length (Crawler.items_of (Crawl4AIService.extractedData result)))%nat.
Proof.
  intros result. unfold Crawler.patentToolExecute, try_catch, mbind, M_bind.
  rewrite searchPatents_cases.
  change (patent_search_crawl process config (Crawler.with_type "patent" args)) with result.
  unfold ready.
  assert (Hfailed : forall (e : string) (s1 : Crawl4AIService.State),
    exists answer s',
      (Ok {| Crawler.tool_success := false; Crawler.tool_results := [];
             Crawler.tool_count := 0; Crawler.tool_query := (args, owner) |}, s1)
      = (Ok answer, s')
      /\ Crawler.tool_count answer = length (Crawler.tool_results answer)
      /\ Crawler.tool_query answer = (args, owner)
      /\ (Crawler.tool_success answer = true <-> False)
      /\ (Crawler.tool_success answer = true \/ Crawler.tool_results answer = [])
      /\ (length (Crawler.tool_results answer)
          <= length (Crawler.items_of (Crawl4AIService.extractedData result)))%nat).
  { intros _ s1. eexists _, _. split; [reflexivity |]. simpl.
    repeat split; try done; try lia. by right. }
  destruct (Crawl4AIService.isInitialized s) eqn:Hi.
  - destruct (Crawl4AIService.success result) eqn:Hsuccess.
    + destruct (parsed_patents_fetch process config result s) as (detailed & s2 & -> & Hlen).
      eexists _, _. split; [reflexivity |]. simpl. repeat split; try done; try tauto.
    + destruct (Hfailed "" s) as (answer & s' & Hrun & ? & ? & Hs & ? & ?).
      exists answer, s'. split; [exact Hrun |]. repeat split; try done; try tauto.
      all: intros [_ [=]].
  - destruct (Crawl4AIService.install_and_verify process) as [[] | e] eqn:Hinstall.
    + destruct (Crawl4AIService.success result) eqn:Hsuccess.
      * destruct (parsed_patents_fetch process config result
                    (Crawl4AIService.set_initialized true s)) as (detailed & s2 & -> & Hlen).
        eexists _, _. split; [reflexivity |]. simpl. repeat split; try done; try tauto.
      * destruct (Hfailed "" (Crawl4AIService.set_initialized true s))
          as (answer & s' & Hrun & ? & ? & Hs & ? & ?).
        exists answer, s'. split; [exact Hrun |]. repeat split; try done; try tauto.
        all: intros [_ [=]].
    + destruct (Hfailed e s) as (answer & s' & Hrun & ? & ? & Hs & ? & ?).
      exists answer, s'. split; [exact Hrun |]. repeat split; try done; try tauto.
      all: by intros [[[=] | [=]] _].
Qed.

(** X20: [searchPatents] of the crawler throws in two cases only: the
    extraction service cannot be initialised, and the error is the one of
    the initialisation; or the crawl of the search page is unsuccessful,
    and the error is [Patent search failed: ] followed by the error of the
    crawl. Parsing the page and fetching the details never make the search
    fail. *)
Theorem crawler_searchPatents_throws process config params (s : Crawl4AIService.State)
    (e : string) :
  let result := patent_search_crawl process config params in
  (Crawler.searchPatents process config params s).1 = Throw e
  <-> (Crawl4AIService.isInitialized s = false
       /\ Crawl4AIService.install_and_verify process = Throw e)
      \/ (ready process s
          /\ Crawl4AIService.success result = false
          /\ e = "Patent search failed: " +:+ Crawler.error_text (Crawl4AIService.error result)).
Proof.
  intros result. rewrite searchPatents_cases. fold result. unfold ready.
  destruct (Crawl4AIService.isInitialized s) eqn:Hi.
  - destruct (Crawl4AIService.success result) eqn:Hsuccess.
    + destruct (parsed_patents_fetch process config result s) as (detailed & s2 & -> & _).
      simpl. split; [done |]. by intros [[[=] _] | (_ & [=] & _)].
    + simpl. split.
      * intros [= <-]. right. split; [by left | done].
      * by intros [[[=] _] | (_ & _ & ->)].
  - destruct (Crawl4AIService.install_and_verify process) as [[] | e'] eqn:Hinstall.
    + destruct (Crawl4AIService.success result) eqn:Hsuccess.
      * destruct (parsed_patents_fetch process config result
                    (Crawl4AIService.set_initialized true s)) as (detailed & s2 & -> & _).
        simpl. split; [done |]. by intros [[_ [=]] | (_ & [=] & _)].
      * simpl. split.
        -- intros [= <-]. right. split; [by right | done].
        -- by intros [[_ [=]] | (_ & _ & ->)].
    + simpl. split.
      * intros [= <-]. by left.
      * by intros [[_ [= ->]] | ([[=] | [=]] & _)].
Qed.

Lemma checkTrademarkStatus_cases process config (serialNumber : json)
    (s : Crawl4AIService.State) :
  let page := status_crawl process config serialNumber in
  let check s1 :=
    if Crawl4AIService.success page then (Crawler.parseTrademarkStatus page, s1)
    else (Throw ("Failed to check trademark status: "
                 +:+ Crawler.error_text (Crawl4AIService.error page)), s1) in
  Crawler.checkTrademarkStatus process config serialNumber s
  = if Crawl4AIService.isInitialized s then check s
    else match Crawl4AIService.install_and_verify process with
         | Ok _ => check (Crawl4AIService.set_initialized true s)
         | Throw e => (Throw e, s)
         end.
Proof.
  intros page check. unfold Crawler.checkTrademarkStatus, mbind, M_bind.
  rewrite crawl_cases. fold status_options. fold (status_crawl process config serialNumber).
  fold page. subst check.
  destruct (Crawl4AIService.isInitialized s) eqn:Hi.
  - by destruct (Crawl4AIService.success page).
  - destruct (Crawl4AIService.install_and_verify process) as [[] | e]; [| done].
    by destruct (Crawl4AIService.success page).
Qed.

Lemma parseTrademarkStatus_returns (page : Crawl4AIService.CrawlResult) :
  let data := Crawl4AIService.extractedData page in
  exists status,
    Crawler.parseTrademarkStatus page = Ok status
    /\ forall trademark,
         field (Crawler.spread trademark status) "serialNumber" = ofield data "serialNumber"
         /\ field (Crawler.spread trademark status) "registrationNumber"
            = ofield data "registrationNumber"
         /\ field (Crawler.spread trademark status) "status" = ofield data "status".
Proof.
  intros data. unfold Crawler.parseTrademarkStatus. fold data.
  destruct data as [| | str | xs | fields]; eexists; (split; [reflexivity |]); done.
Qed.

Lemma enrichTrademark_run process config (trademark : json) (s : Crawl4AIService.State) :
  exists record s',
    try_catch
      (statusResult ← Crawler.checkTrademarkStatus process config (field trademark "serialNumber");
       mret (Crawler.spread trademark statusResult))
      (fun _ => mret trademark) s = (Ok record, s')
    /\ Crawl4AIService.trace s' = Crawl4AIService.trace s
    /\ (ready process s <-> ready process s')
    /\ enriched_trademark process config s record trademark.
Proof.
  unfold try_catch, mbind, M_bind. rewrite checkTrademarkStatus_cases.
  unfold enriched_trademark, ready.
  set (page := status_crawl process config (field trademark "serialNumber")).
  destruct (parseTrademarkStatus_returns page) as (status & Hparse & Hfields).
  destruct (Crawl4AIService.isInitialized s) eqn:Hi;
    [| destruct (Crawl4AIService.install_and_verify process) as [[] | e] eqn:Hinstall];
    try (destruct (Crawl4AIService.success page) eqn:Hsuccess; rewrite ?Hparse);
    eexists _, _; (split; [reflexivity |]); (split; [reflexivity |]);
    (split; [simpl; rewrite ?Hi; tauto |]).
  - right. split; [by left |]. split; [done |]. apply Hfields.
  - left. split; [done |]. by intros [_ [=]].
  - right. split; [by right |]. split; [done |]. apply Hfields.
  - left. split; [done |]. by intros [_ [=]].
  - left. split; [done |]. by intros [[[=] | [=]] _].
  - left. split; [done |]. by intros [[[=] | [=]] _].
Qed.

Lemma enriched_trademark_ready process config (s s1 : Crawl4AIService.State) record trademark :
  (ready process s <-> ready process s1) ->
  enriched_trademark process config s1 record trademark ->
  enriched_trademark process config s record trademark.
Proof. unfold enriched_trademark. tauto. Qed.

Lemma fetchTrademarkDetails_run process config (trademarks : list json) :
  Forall (fun trademark => nullish trademark = false) trademarks ->
  forall s, exists detailed s',
    Crawler.fetchTrademarkDetails process config trademarks s = (Ok detailed, s')
    /\ Forall2 (enriched_trademark process config s) detailed
         (List.filter has_serial trademarks)
    /\ Crawl4AIService.trace s' = Crawl4AIService.trace s ++ pauses (length detailed).
Proof.
  induction 1 as [| trademark rest Htrademark _ IH]; intros s.
  - exists [], s. simpl. rewrite app_nil_r. split; [done |]. split; [constructor | done].
  - cbn [Crawler.fetchTrademarkDetails List.filter]. unfold mbind at 1, M_bind at 1, lift.
    rewrite (prop_field _ _ Htrademark). unfold has_serial.
    destruct (Json.truthy (field trademark "serialNumber")); cbn [negb].
    + unfold mbind at 1, M_bind at 1.
      destruct (enrichTrademark_run process config trademark s)
        as (record & s1 & -> & Htrace1 & Hready1 & Hrecord).
      unfold mbind, M_bind, Crawler.delay, modify.
      destruct (IH (Crawl4AIService.emit (Crawl4AIService.Paused 500) s1))
        as (others & s2 & -> & Hothers & Htrace2).
      exists (record :: others), s2. split; [done |]. split.
      * constructor; [done |].
        eapply Forall2_impl; [exact Hothers |]. intros r t.
        apply enriched_trademark_ready. unfold ready in *. simpl. tauto.
      * rewrite Htrace2. simpl. rewrite Htrace1, <- app_assoc. done.
    + apply IH.
Qed.

(** X21: [fetchTrademarkDetails] never throws on a list of records. It
    drops the trademarks without a serial number and keeps the others in
    their order, pausing 500 ms once for each kept one. A kept trademark
    comes back as it was when the extraction service cannot be initialised
    or the crawl of its status page is unsuccessful. Otherwise its serial
    number, registration number and status are those read from the status
    page, also when the page has none: the values of the search result are
    then lost. *)
Theorem fetchTrademarkDetails_status_page_wins process config (trademarks : list json)
    (s : Crawl4AIService.State) :
  Forall (fun trademark => nullish trademark = false) trademarks ->
  exists detailed s',
    Crawler.fetchTrademarkDetails process config trademarks s = (Ok detailed, s')
    /\ Forall2 (enriched_trademark process config s) detailed
         (List.filter has_serial trademarks)
    /\ Crawl4AIService.trace s' = Crawl4AIService.trace s ++ pauses (length detailed).
Proof. intros Htrademarks. by apply fetchTrademarkDetails_run. Qed.

Lemma fetchTrademarkDetails_status_page_wins_witness :
  exists detailed s',
    Crawler.fetchTrademarkDetails (process_returning (JObj [("status", JStr "DEAD")]))
      Crawl4AIService.default_config two_trademarks cold = (Ok detailed, s')
    /\ Forall2 (enriched_trademark (process_returning (JObj [("status", JStr "DEAD")]))
                  Crawl4AIService.default_config cold)
         detailed (List.filter has_serial two_trademarks)
    /\ Crawl4AIService.trace s' = Crawl4AIService.trace cold ++ pauses (length detailed).
Proof.
  apply (fetchTrademarkDetails_status_page_wins
           (process_returning (JObj [("status", JStr "DEAD")]))
           Crawl4AIService.default_config two_trademarks cold).
  repeat constructor.
Defined.

(** With a status page that shows a status only, the enriched trademark
    has lost the serial number it was found under. *)
Example fetchTrademarkDetails_loses_serial :
  exists record s',
    Crawler.fetchTrademarkDetails (process_returning (JObj [("status", JStr "DEAD")]))
      Crawl4AIService.default_config two_trademarks cold = (Ok [record], s')
    /\ field record "serialNumber" = JUndef
    /\ field record "mark" = JStr "ACME"
    /\ field record "status" = JStr "DEAD".
Proof. eexists _, _. split; [reflexivity |]. by vm_compute. Qed.

Lemma searchTrademarks_cases process config params (s : Crawl4AIService.State) :
  let result := trademark_search_crawl process config params in
  let search s1 :=
    if Crawl4AIService.success result
    then Crawler.fetchTrademarkDetails process config
           (Crawler.parseTrademarkSearchResults result) s1
    else (Throw ("Trademark search failed: "
                 +:+ Crawler.error_text (Crawl4AIService.error result)), s1) in
  Crawler.searchTrademarks process config params s
  = if Crawl4AIService.isInitialized s then search s
    else match Crawl4AIService.install_and_verify process with
         | Ok _ => search (Crawl4AIService.set_initialized true s)
         | Throw e => (Throw e, s)
         end.
Proof.
  intros result search. unfold Crawler.searchTrademarks. rewrite try_rethrow.
  unfold mbind, M_bind. rewrite crawl_cases. fold trademark_search_options.
  fold (trademark_search_crawl process config params). fold result. subst search.
  destruct (Crawl4AIService.isInitialized s) eqn:Hi.
  - by destruct (Crawl4AIService.success result).
  - destruct (Crawl4AIService.install_and_verify process) as [[] | e]; [| done].
    by destruct (Crawl4AIService.success result).
Qed.

Lemma parsed_trademarks_fetch process config result (s : Crawl4AIService.State) :
  exists detailed s',
    Crawler.fetchTrademarkDetails process config (Crawler.parseTrademarkSearchResults result) s
    = (Ok detailed, s')
    /\ (length detailed
        <= length (Crawler.items_of (Crawl4AIService.extractedData result)))%nat.
Proof.
  assert (Hparsed : Forall (fun record => nullish record = false)
                      (Crawler.parseTrademarkSearchResults result)
                    /\ (length (Crawler.parseTrademarkSearchResults result)
                        <= length (Crawler.items_of (Crawl4AIService.extractedData result)))%nat).
  { unfold Crawler.parseTrademarkSearchResults.
    destruct (Json.truthy _); [| split; [constructor | simpl; lia]].
    destruct (pushItems_before_null Crawler.trademarkOfItem
                (Crawler.items_of (Crawl4AIService.extractedData result)) trademarkOfItem_cases)
      as [Hlen Hall].
    split; [done |]. rewrite Hlen. apply before_null_length. }
  destruct Hparsed as [Hall Hlen].
  destruct (fetchTrademarkDetails_run process config _ Hall s)
    as (detailed & s' & Hrun & Hshape & _).
  exists detailed, s'. split; [done |].
  apply Forall2_length in Hshape. rewrite Hshape.
  etrans; [apply List.filter_length_le | done].
Qed.

(** X22: the trademark search tool never throws; its count is the number of
    its results and it echoes its arguments. The page it searches is
    determined by the query, the status and the [owner] argument: an
    [applicant] among the arguments is replaced by the owner and never
    read. The tool reports success exactly when the extraction service is,
    or can be, initialised and the crawl of that page succeeds; otherwise
    the answer has no results. *)
Theorem trademarkToolExecute_answers process config args owner (s : Crawl4AIService.State) :
  let result :=
    trademark_search_crawl process config
      (trademark_params (USPTOCrawler.sp_query args) (USPTOCrawler.sp_status args) owner) in
  exists answer s',
    Crawler.trademarkToolExecute process config args owner s = (Ok answer, s')
    /\ Crawler.tool_count answer = length (Crawler.tool_results answer)
    /\ Crawler.tool_query answer = (args, owner)
    /\ (Crawler.tool_success answer = true
        <-> ready process s /\ Crawl4AIService.success result = true)
    /\ (Crawler.tool_success answer = true \/ Crawler.tool_results answer = [])
    /\ (length (Crawler.tool_results answer)
        <= length (Crawler.items_of (Crawl4AIService.extractedData result)))%nat.
Proof.
  intros result. unfold Crawler.trademarkToolExecute, try_catch, mbind, M_bind.
  rewrite searchTrademarks_cases.
  change (trademark_search_crawl process config (Crawler.with_owner owner args)) with result.
  unfold ready.
  assert (Hfailed : forall (e : string) (s1 : Crawl4AIService.State),
    exists answer s',
      (Ok {| Crawler.tool_success := false; Crawler.tool_results := [];
             Crawler.tool_count := 0; Crawler.tool_query := (args, owner) |}, s1)
      = (Ok answer, s')
      /\ Crawler.tool_count answer = length (Crawler.tool_results answer)
      /\ Crawler.tool_query answer = (args, owner)
      /\ (Crawler.tool_success answer = true <-> False)
      /\ (Crawler.tool_success answer = true \/ Crawler.tool_results answer = [])
      /\ (length (Crawler.tool_results answer)
          <= length (Crawler.items_of (Crawl4AIService.extractedData result)))%nat).
  { intros _ s1. eexists _, _. split; [reflexivity |]. simpl.
    repeat split; try done; try lia. by right. }
  destruct (Crawl4AIService.isInitialized s) eqn:Hi.
  - destruct (Crawl4AIService.success result) eqn:Hsuccess.
    + destruct (parsed_trademarks_fetch process config result s) as (detailed & s2 & -> & Hlen).
      eexists _, _. split; [reflexivity |]. simpl. repeat split; try done; try tauto.
    + destruct (Hfailed "" s) as (answer & s' & Hrun & ? & ? & Hs & ? & ?).
      exists answer, s'. split; [exact Hrun |]. repeat split; try done; try tauto.
      all: intros [_ [=]].
  - destruct (Crawl4AIService.install_and_verify process) as [[] | e] eqn:Hinstall.
    + destruct (Crawl4AIService.success result) eqn:Hsuccess.
      * destruct (parsed_trademarks_fetch process config result
                    (Crawl4AIService.set_initialized true s)) as (detailed & s2 & -> & Hlen).
        eexists _, _. split; [reflexivity |]. simpl. repeat split; try done; try tauto.
      * destruct (Hfailed "" (Crawl4AIService.set_initialized true s))
          as (answer & s' & Hrun & ? & ? & Hs & ? & ?).
        exists answer, s'. split; [exact Hrun |]. repeat split; try done; try tauto.
        all: intros [_ [=]].
    + destruct (Hfailed e s) as (answer & s' & Hrun & ? & ? & Hs & ? & ?).
      exists answer, s'. split; [exact Hrun |]. repeat split; try done; try tauto.
      all: by intros [[[=] | [=]] _].
Qed.

(** ** The backend server *)



Lemma checkApplicationStatus_cases process config (applicationNumber : json) (type : string)
    (s : Crawl4AIService.State) :
  let page := application_crawl process config applicationNumber type in
  let check s1 :=
    if Crawl4AIService.success page
    then (if bool_decide (type = "patent") then Crawler.parsePatentStatus page
          else Crawler.parseTrademarkStatus page, s1)
    else (Throw (status_failure type +:+ Crawler.error_text (Crawl4AIService.error page)), s1) in
  Crawler.checkApplicationStatus process config applicationNumber type s
  = if Crawl4AIService.isInitialized s then check s
    else match Crawl4AIService.install_and_verify process with
         | Ok _ => check (Crawl4AIService.set_initialized true s)
         | Throw e => (Throw e, s)
         end.
Proof.
  intros page check. subst page check.
  unfold Crawler.checkApplicationStatus, application_crawl, status_failure.
  destruct (bool_decide (type = "patent")); [| apply checkTrademarkStatus_cases].
  unfold Crawler.checkPatentStatus, mbind, M_bind. rewrite crawl_cases.
  set (page := crawled _ _ _ _).
  destruct (Crawl4AIService.isInitialized s) eqn:Hi.
  - by destruct (Crawl4AIService.success page).
  - destruct (Crawl4AIService.install_and_verify process) as [[] | e]; [| done].
    by destruct (Crawl4AIService.success page).
Qed.

Lemma parsed_status_history (page : Crawl4AIService.CrawlResult) (type : string) :
  exists status,
    (if bool_decide (type = "patent") then Crawler.parsePatentStatus page
     else Crawler.parseTrademarkStatus page) = Ok status
    /\ nullish status = false
    /\ Json.truthy (field status (history_key type)) = true.
Proof.
  unfold history_key, Crawler.parsePatentStatus, Crawler.parseTrademarkStatus.
  destruct (bool_decide (type = "patent"));
    destruct (Crawl4AIService.extractedData page) as [| | str | xs | fields];
    eexists; (split; [reflexivity |]); (split; [done |]);
    try done;
    first [change (Json.truthy (Json.or (Json.assoc "transactions" fields) (JArr [])) = true)
          | change (Json.truthy (Json.or (Json.assoc "prosecutionHistory" fields) (JArr []))
                    = true)];
    by apply or_truthy.
Qed.

(** X25: [checkApplicationStatus] looks up the PAIR page for the type
    [patent] and the TSDR page for every other type. It throws in two
    cases only: the extraction service cannot be initialised (the error is
    that of the initialisation), or the crawl of the page is unsuccessful
    (the error is [Failed to check patent status: ] or [Failed to check
    trademark status: ] followed by the error of the crawl). A status it
    returns is an object whose history ([transactions] of a patent,
    [prosecution] of a trademark) is never missing. *)
Theorem checkApplicationStatus_outcomes process config (applicationNumber : json)
    (type : string) (s : Crawl4AIService.State) :
  let page := application_crawl process config applicationNumber type in
  let run := (Crawler.checkApplicationStatus process config applicationNumber type s).1 in
  (forall e,
      run = Throw e
      <-> (Crawl4AIService.isInitialized s = false
           /\ Crawl4AIService.install_and_verify process = Throw e)
          \/ (ready process s
              /\ Crawl4AIService.success page = false
              /\ e = status_failure type +:+ Crawler.error_text (Crawl4AIService.error page)))
  /\ (forall status,
         run = Ok status ->
         nullish status = false /\ Json.truthy (field status (history_key type)) = true).
Proof.
  intros page run. subst run. rewrite checkApplicationStatus_cases. fold page. unfold ready.
  destruct (parsed_status_history page type) as (parsed & Hparsed & Hobject & Hhistory).
  destruct (Crawl4AIService.isInitialized s) eqn:Hi;
    [| destruct (Crawl4AIService.install_and_verify process) as [[] | e'] eqn:Hinstall];
    try (destruct (Crawl4AIService.success page) eqn:Hsuccess; rewrite ?Hparsed); simpl.
  - split; [| by intros status [= <-]].
    intros e. split; [done |]. by intros [[[=] _] | (_ & [=] & _)].
  - split; [| done]. intros e. split.
    + intros [= <-]. right. split; [by left | done].
    + by intros [[[=] _] | (_ & _ & ->)].
  - split; [| by intros status [= <-]].
    intros e. split; [done |]. by intros [[_ [=]] | (_ & [=] & _)].
  - split; [| done]. intros e. split.
    + intros [= <-]. right. split; [by right | done].
    + by intros [[_ [=]] | (_ & _ & ->)].
  - split; [| done]. intros e. split.
    + intros [= <-]. by left.
    + by intros [[_ [= ->]] | ([[=] | [=]] & _)].
  - split; [| done]. intros e. split.
    + intros [= <-]. by left.
    + by intros [[_ [= ->]] | ([[=] | [=]] & _)].
Qed.

(** ** The bulk extraction tool *)

Lemma bulk_loop {A} (mk : A -> BulkExtractorTool.Source) (type : option string)
    (extract : A -> option string -> Outcome BulkExtractorTool.Extracted) (xs : list A) :
  (forall x, extract x type = Ok (placeholder type (mk x))) ->
  forall results,
    fold_left (fun results x => BulkExtractorTool.attempt (extract x type) (mk x) results)
      xs results
    = {| BulkExtractorTool.extracted_so_far :=
           BulkExtractorTool.extracted_so_far results ++ (placeholder type <$> (mk <$> xs));
         BulkExtractorTool.failed_so_far := BulkExtractorTool.failed_so_far results;
         BulkExtractorTool.counted :=
           {| BulkExtractorTool.total :=
                (BulkExtractorTool.total (BulkExtractorTool.counted results) + length xs)%nat;
              BulkExtractorTool.successful :=
                (BulkExtractorTool.successful (BulkExtractorTool.counted results)
                 + length xs)%nat;
              BulkExtractorTool.failed :=
                BulkExtractorTool.failed (BulkExtractorTool.counted results) |} |}.
Proof.
  intros Hextract. induction xs as [| x xs IH]; intros results.
  - simpl. rewrite app_nil_r, !Nat.add_0_r. by destruct results as [? ? []].
  - simpl. rewrite IH, Hextract. simpl. rewrite <- app_assoc. simpl.
    f_equal. f_equal; lia.
Qed.

(** X26: the bulk extraction tool visits nothing. For every request it
    reports success with no failure; its statistics count each URL and each
    number once, all of them as successful; and it lists for each of them,
    URLs first, an entry whose data is the text [extracted]. With the
    format [csv] the list is replaced by the text [csv_data], whatever was
    asked for. *)
Theorem bulk_extract_is_a_placeholder (args : BulkExtractorTool.BulkArgs) :
  let answer := BulkExtractorTool.execute args in
  let asked := bulk_sources args in
  BulkExtractorTool.success answer = true
  /\ BulkExtractorTool.failures answer = []
  /\ BulkExtractorTool.stats answer
     = {| BulkExtractorTool.total := length asked;
          BulkExtractorTool.successful := length asked;
          BulkExtractorTool.failed := 0 |}
  /\ BulkExtractorTool.extracted answer
     = if bool_decide (BulkExtractorTool.format args = Some "csv")
       then BulkExtractorTool.text "csv_data"
       else BulkExtractorTool.entries
              (placeholder (BulkExtractorTool.extractType args) <$> asked).
Proof.
  intros answer asked. subst answer asked.
  unfold BulkExtractorTool.execute, bulk_sources.
  set (start := {| BulkExtractorTool.extracted_so_far := [] |}).
  set (type := BulkExtractorTool.extractType args).
  assert (Hurls :
    match BulkExtractorTool.urls args with
    | Some ((_ :: _) as us) =>
        fold_left (fun results url =>
                     BulkExtractorTool.attempt (BulkExtractorTool.extractFromUrl url type)
                       (BulkExtractorTool.from_url url) results) us start
    | _ => start
    end
    = fold_left (fun results url =>
                   BulkExtractorTool.attempt (BulkExtractorTool.extractFromUrl url type)
                     (BulkExtractorTool.from_url url) results)
        (default [] (BulkExtractorTool.urls args)) start).
  { by destruct (BulkExtractorTool.urls args) as [[| u us] |]. }
  rewrite Hurls. clear Hurls.
  rewrite (bulk_loop BulkExtractorTool.from_url type BulkExtractorTool.extractFromUrl)
    by done.
  set (middle := {| BulkExtractorTool.extracted_so_far := _ |}).
  assert (Hnumbers :
    match BulkExtractorTool.numbers args with
    | Some ((_ :: _) as ns) =>
        fold_left (fun results number =>
                     BulkExtractorTool.attempt (BulkExtractorTool.extractByNumber number type)
                       (BulkExtractorTool.from_number number) results) ns middle
    | _ => middle
    end
    = fold_left (fun results number =>
                   BulkExtractorTool.attempt (BulkExtractorTool.extractByNumber number type)
                     (BulkExtractorTool.from_number number) results)
        (default [] (BulkExtractorTool.numbers args)) middle).
  { by destruct (BulkExtractorTool.numbers args) as [[| n ns] |]. }
  rewrite Hnumbers. clear Hnumbers.
  rewrite (bulk_loop BulkExtractorTool.from_number type BulkExtractorTool.extractByNumber)
    by done.
  subst middle start. simpl.
  split; [done |]. split; [done |]. split.
  - rewrite length_app, !length_fmap. done.
  - by rewrite fmap_app.
Qed.
